(** * AER scraper and warehouse loader: a shallow embedding

    The Python sources under [Database/] and [WebScraping/] are embedded
    as Rocq functions.  Python [int] is [Z], [str] is [string] (one
    [ascii] per code point, so the strings covered are those whose code
    points are below 256), [list] is [list], a [dict] with string keys is
    a [gmap string _], and an exception is [None] in an [option]. *)

From Stdlib Require Import ZArith List String Ascii Lia Bool.
From stdpp Require Import base option list gmap strings.

Local Open Scope Z_scope.

(** ** Python built-ins used by the sources *)

Module Py.

(** [range(n)] *)
Definition range (n : Z) : list Z := map Z.of_nat (seq 0 (Z.to_nat n)).

(** [len(l)] *)
Definition len {A} (l : list A) : Z := Z.of_nat (length l).

(** Normalisation of one bound of a slice over a sequence of length [n]:
    a negative bound counts from the end, and bounds are clipped. *)
Definition clip (n i : Z) : Z :=
  if i <? 0 then Z.max (i + n) 0 else Z.min i n.

(** [l[start:stop]] *)
Definition slice {A} (l : list A) (start stop : Z) : list A :=
  let a := clip (len l) start in
  let b := clip (len l) stop in
  take (Z.to_nat (b - a)) (drop (Z.to_nat a) l).

(** *** [str] *)

Definition code (c : ascii) : Z := Z.of_N (N_of_ascii c).

(** [c.isspace()] on the code points below 256: TAB..CR, FS..US, space,
    NEL and NBSP. This is the set [str.strip()] removes. *)
Definition isspace (c : ascii) : bool :=
  let n := code c in
  ((9 <=? n) && (n <=? 13)) || ((28 <=? n) && (n <=? 32))
  || (n =? 133) || (n =? 160).

(** [s.lstrip()] *)
Fixpoint lstrip (s : string) : string :=
  match s with
  | EmptyString => EmptyString
  | String c r => if isspace c then lstrip r else s
  end.

(** [s.rstrip()] *)
Fixpoint rstrip (s : string) : string :=
  match s with
  | EmptyString => EmptyString
  | String c r =>
      match rstrip r with
      | EmptyString => if isspace c then EmptyString else String c EmptyString
      | r' => String c r'
      end
  end.

(** [s.strip()] *)
Definition strip (s : string) : string := rstrip (lstrip s).

(** Truth value of a [str]: the empty string is false. *)
Definition truthy (s : string) : bool :=
  match s with EmptyString => false | _ => true end.

(** [s.startswith(p)] *)
Fixpoint startswith (s p : string) {struct p} : bool :=
  match p, s with
  | EmptyString, _ => true
  | String a p', String b s' => Ascii.eqb a b && startswith s' p'
  | String _ _, EmptyString => false
  end.

(** [s.endswith(p)]: some suffix of [s] is [p]. *)
Fixpoint endswith (s p : string) : bool :=
  if String.eqb s p then true
  else match s with
       | String _ r => endswith r p
       | EmptyString => false
       end.

(** [s.count(d)] for a one-character [d] *)
Fixpoint count (s : string) (d : ascii) : Z :=
  match s with
  | EmptyString => 0
  | String c r => (if Ascii.eqb c d then 1 else 0) + count r d
  end.

(** Line boundaries of [str.splitlines()] below 256: LF, VT, FF, CR, FS,
    GS, RS and NEL ([CR LF] counts as one boundary). *)
Definition islinebreak (c : ascii) : bool :=
  let n := code c in
  ((10 <=? n) && (n <=? 13)) || ((28 <=? n) && (n <=? 30)) || (n =? 133).

(** [s.splitlines()], [cur] being the line read so far. *)
Fixpoint splitlines_from (cur s : string) : list string :=
  match s with
  | EmptyString => if truthy cur then [cur] else []
  | String c r =>
      if Ascii.eqb c "013" then
        match r with
        | String "010" r' => cur :: splitlines_from EmptyString r'
        | _ => cur :: splitlines_from EmptyString r
        end
      else if islinebreak c then cur :: splitlines_from EmptyString r
      else splitlines_from (cur +:+ String c EmptyString) r
  end.

Definition splitlines (s : string) : list string := splitlines_from EmptyString s.

(** [sum(l)] *)
Definition sum (l : list Z) : Z := fold_left Z.add l 0.

(** [l.count(x)] *)
Definition count_of (l : list Z) (x : Z) : Z :=
  len (filter (fun y => y = x) l).

(** [max(it, key=key)]: the first element of [it] whose key is maximal;
    [None] is the [ValueError] on an empty iterable. *)
Fixpoint max_key (key : Z -> Z) (it : list Z) : option Z :=
  match it with
  | [] => None
  | x :: r =>
      match max_key key r with
      | Some y => if key x <? key y then Some y else Some x
      | None => Some x
      end
  end.

(** [urllib.parse.quote(s, safe="")]: letters, digits and [_.-~] are
    kept, every other byte of the UTF-8 encoding becomes [%XX]. *)
Definition unreserved (c : ascii) : bool :=
  let n := code c in
  ((48 <=? n) && (n <=? 57)) || ((65 <=? n) && (n <=? 90))
  || ((97 <=? n) && (n <=? 122))
  || (n =? 95) || (n =? 46) || (n =? 45) || (n =? 126).

Definition hexdigit (n : Z) : ascii :=
  ascii_of_N (Z.to_N (if n <? 10 then 48 + n else 55 + n)).

Definition pct (byte : Z) : string :=
  String "%" (String (hexdigit (byte / 16)) (String (hexdigit (byte mod 16)) EmptyString)).

Definition quote_char (c : ascii) : string :=
  let n := code c in
  if unreserved c then String c EmptyString
  else if n <? 128 then pct n
  else pct (192 + n / 64) +:+ pct (128 + n mod 64).

Fixpoint quote (s : string) : string :=
  match s with
  | EmptyString => EmptyString
  | String c r => quote_char c +:+ quote r
  end.

(** [s[start:stop]] *)
Definition substr (s : string) (start stop : Z) : string :=
  string_of_list_ascii (slice (list_ascii_of_string s) start stop).

(** *** [pathlib.PurePosixPath] *)

(** [s.split(c)] *)
Fixpoint split_from (c : ascii) (cur s : string) : list string :=
  match s with
  | EmptyString => [cur]
  | String a r =>
      if Ascii.eqb a c then cur :: split_from c EmptyString r
      else split_from c (cur +:+ String a EmptyString) r
  end.

Definition split (s : string) (c : ascii) : list string := split_from c EmptyString s.

(** [c.join(l)] *)
Fixpoint join (c : string) (l : list string) : string :=
  match l with
  | [] => EmptyString
  | [x] => x
  | x :: r => x +:+ c +:+ join c r
  end.

(** The components of a path: empty ones and ["."] are dropped. *)
Definition path_parts (s : string) : list string :=
  List.filter (fun p => negb (String.eqb p "" || String.eqb p ".")) (split s "/").

(** The root: ["/"], or ["//"] for exactly two leading slashes. *)
Definition path_root (s : string) : string :=
  if startswith s "//" && negb (startswith s "///") then "//"
  else if startswith s "/" then "/" else "".

(** [str(path)] of a root and components. *)
Definition path_str (root : string) (parts : list string) : string :=
  match root, parts with
  | EmptyString, [] => "."
  | _, _ => root +:+ join "/" parts
  end.

(** [Path(s).name] *)
Definition path_name (s : string) : string := List.last (path_parts s) EmptyString.

(** [str(Path(s).parent)] *)
Definition path_parent (s : string) : string :=
  path_str (path_root s) (removelast (path_parts s)).

(** [s.replace(a, b)] for one-character [a] and [b] *)
Fixpoint replace (s : string) (a b : ascii) : string :=
  match s with
  | EmptyString => EmptyString
  | String c r => String (if Ascii.eqb c a then b else c) (replace r a b)
  end.

(** [any(l)] *)
Definition any (l : list bool) : bool := existsb id l.

(** [sub in s] *)
Fixpoint contains (s sub : string) : bool :=
  if startswith s sub then true
  else match s with
       | String _ r => contains r sub
       | EmptyString => false
       end.

(** [c.lower()] below 256: the ASCII capitals and the capitals of
    Latin-1 (all of [À..Þ] but the multiplication sign). *)
Definition lower_char (c : ascii) : ascii :=
  let n := code c in
  if ((65 <=? n) && (n <=? 90)) || ((192 <=? n) && (n <=? 222) && negb (n =? 215))
  then ascii_of_N (Z.to_N (n + 32)) else c.

(** [s.lower()] *)
Fixpoint lower (s : string) : string :=
  match s with
  | EmptyString => EmptyString
  | String c r => String (lower_char c) (lower r)
  end.

(** [x in l] for strings *)
Definition mem (x : string) (l : list string) : bool := existsb (String.eqb x) l.

(** [{ks[i]: vs[i] for i in range(len(ks))}]: a later index wins. *)
Definition dict_of (ks vs : list string) : gmap string string :=
  fold_left (fun m kv => <[kv.1 := kv.2]> m) (zip ks vs) ∅.

(** The value of an upper-case hexadecimal digit. *)
Definition hexval (c : ascii) : option Z :=
  let n := code c in
  if (48 <=? n) && (n <=? 57) then Some (n - 48)
  else if (65 <=? n) && (n <=? 70) then Some (n - 55)
  else None.

(** The byte a text [%XX...] begins with, and the rest. *)
Definition unpct (s : string) : option (Z * string) :=
  match s with
  | String "%" (String a (String b r)) =>
      match hexval a, hexval b with
      | Some x, Some y => Some (16 * x + y, r)
      | _, _ => None
      end
  | _ => None
  end.

(** The character an encoded text begins with, and the rest: the
    inverse of [quote_char]. *)
Definition unquote_head (s : string) : option (ascii * string) :=
  match s with
  | EmptyString => None
  | String c r =>
      if unreserved c then Some (c, r)
      else
        match unpct s with
        | None => None
        | Some (b, r1) =>
            if b <? 128 then Some (ascii_of_N (Z.to_N b), r1)
            else
              match unpct r1 with
              | Some (b2, r2) => Some (ascii_of_N (Z.to_N ((b - 192) * 64 + (b2 - 128))), r2)
              | None => None
              end
        end
  end.

(** [for ln in f] over a file opened in text mode: the lines of the
    text, each with its line end, which universal newlines turn into a
    line feed ([CR], [LF] and [CR LF] end a line). [cur] is the line read
    so far. *)
Fixpoint file_lines_from (cur s : string) : list string :=
  match s with
  | EmptyString => if truthy cur then [cur] else []
  | String c r =>
      if Ascii.eqb c "013" then
        match r with
        | String "010" r' => (cur +:+ String "010" EmptyString) :: file_lines_from EmptyString r'
        | _ => (cur +:+ String "010" EmptyString) :: file_lines_from EmptyString r
        end
      else if Ascii.eqb c "010" then
        (cur +:+ String "010" EmptyString) :: file_lines_from EmptyString r
      else file_lines_from (cur +:+ String c EmptyString) r
  end.

Definition file_lines (s : string) : list string := file_lines_from EmptyString s.

End Py.

(** ** The fragment of Python's [re] the sources use

    A backtracking matcher in continuation-passing style: quantifiers
    are greedy and the first match in priority order is returned, as
    [re.match] does. The state is the part of the subject still to
    read. *)

Module Re.

Inductive regex : Type :=
| Bol                                        (* ^ *)
| Eol                                        (* $ *)
| Chr (c : ascii)                            (* a literal character *)
| Cls (p : ascii -> bool)                    (* a class, matched once *)
| Rep (p : ascii -> bool) (lo hi : nat)      (* class{lo,hi} *)
| Plus (p : ascii -> bool)                   (* class+ *)
| Group (i : nat) (r : regex)                (* ( r ), numbered i *)
| Cat (r1 r2 : regex).

(** [.] without DOTALL: anything but a line feed. *)
Definition dot (c : ascii) : bool := negb (Ascii.eqb c "010").

(** [\d] on the code points below 256: the ASCII digits. *)
Definition digit (c : ascii) : bool :=
  (48 <=? Py.code c) && (Py.code c <=? 57).

(** [[A-Z0-9]] *)
Definition upper_or_digit (c : ascii) : bool :=
  ((65 <=? Py.code c) && (Py.code c <=? 90)) || digit c.

Section Engine.
Context {X : Type}.

(** Greedy [class*]: read as many characters as possible, then give
    back one at a time until the continuation accepts. *)
Fixpoint star (p : ascii -> bool) (s : string) (k : string -> option X) : option X :=
  match s with
  | String c r =>
      if p c then
        match star p r k with
        | Some x => Some x
        | None => k s
        end
      else k s
  | EmptyString => k s
  end.

(** Greedy [class{lo,hi}]. *)
Fixpoint rep (p : ascii -> bool) (lo hi : nat) (s : string)
    (k : string -> option X) : option X :=
  let stop := if Nat.eqb lo 0 then k s else None in
  match hi with
  | O => stop
  | S hi' =>
      match s with
      | String c r =>
          if p c then
            match rep p (Nat.pred lo) hi' r k with
            | Some x => Some x
            | None => stop
            end
          else stop
      | EmptyString => stop
      end
  end.

End Engine.

(** Captured groups, by number. *)
Abbreviation caps := (gmap nat string).

(** The first [n] characters of [s]. *)
Fixpoint take (n : nat) (s : string) : string :=
  match n, s with
  | S n', String c r => String c (take n' r)
  | _, _ => EmptyString
  end.

(** What was read between the states [s] and [s']. *)
Definition consumed (s s' : string) : string :=
  take (String.length s - String.length s') s.

Fixpoint run (r : regex) (whole s : string) (g : caps)
    (k : string -> caps -> option caps) : option caps :=
  match r with
  | Bol => if Nat.eqb (String.length s) (String.length whole) then k s g else None
  | Eol =>
      match s with
      | EmptyString => k s g
      | String "010" EmptyString => k s g
      | _ => None
      end
  | Chr c =>
      match s with
      | String a s' => if Ascii.eqb a c then k s' g else None
      | EmptyString => None
      end
  | Cls p =>
      match s with
      | String a s' => if p a then k s' g else None
      | EmptyString => None
      end
  | Rep p lo hi => rep p lo hi s (fun s' => k s' g)
  | Plus p =>
      match s with
      | String a s' => if p a then star p s' (fun s' => k s' g) else None
      | EmptyString => None
      end
  | Group i r => run r whole s g (fun s' g' => k s' (<[i := consumed s s']> g'))
  | Cat r1 r2 => run r1 whole s g (fun s' g' => run r2 whole s' g' k)
  end.

(** [pattern.match(s)]: a match anchored at the start of [s]; [None]
    when there is none. *)
Definition match_ (r : regex) (s : string) : option caps :=
  run r s s ∅ (fun _ g => Some g).

(** [m.group(i)] *)
Definition group (m : caps) (i : nat) : string := default EmptyString (m !! i).

(** [re.sub(class+, repl, s)]: every maximal run of characters of the
    class becomes one [repl]; [inrun] tells that the character before was
    of the class. *)
Fixpoint sub_plus_from (p : ascii -> bool) (repl : string) (inrun : bool) (s : string) : string :=
  match s with
  | EmptyString => EmptyString
  | String c r =>
      if p c then
        if inrun then sub_plus_from p repl true r
        else repl +:+ sub_plus_from p repl true r
      else String c (sub_plus_from p repl false r)
  end.

Definition sub_plus (p : ascii -> bool) (repl s : string) : string :=
  sub_plus_from p repl false s.

End Re.

(** ** UWI forms *)

Module Uwi.

(** [WRAPPED_RE = re.compile(r"^([A-Z0-9]{1,2})/(.+)/(\d)$")] *)
Definition WRAPPED_RE : Re.regex :=
  Re.Cat Re.Bol
 (Re.Cat (Re.Group 1 (Re.Rep Re.upper_or_digit 1 2))
 (Re.Cat (Re.Chr "/")
 (Re.Cat (Re.Group 2 (Re.Plus Re.dot))
 (Re.Cat (Re.Chr "/")
 (Re.Cat (Re.Group 3 (Re.Cls Re.digit))
  Re.Eol))))).

(** [WRAPPED_RE] after its prefix group: [/(.+)/(\d)$]. *)
Abbreviation WRAPPED_TAIL :=
  (Re.Cat (Re.Chr "/")
  (Re.Cat (Re.Group 2 (Re.Plus Re.dot))
  (Re.Cat (Re.Chr "/")
  (Re.Cat (Re.Group 3 (Re.Cls Re.digit)) Re.Eol)))).

(** [newtest/aer_multi_dash_mp.py: ensure_wrapped] *)
Definition ensure_wrapped (uwi : string) : string :=
  let u := Py.strip uwi in
  match Re.match_ WRAPPED_RE u with
  | Some _ => u
  | None => "00/" +:+ u +:+ "/0"
  end.

(** [newtest/aer_multi_dash_mp.py: to_short_uwi] *)
Definition to_short_uwi (uwi : string) : string :=
  match Re.match_ WRAPPED_RE (Py.strip uwi) with
  | Some m => Re.group m 2
  | None => uwi
  end.

(** Whether [WRAPPED_RE.match(s)] is a match. *)
Definition wrapped_match (s : string) : bool :=
  match Re.match_ WRAPPED_RE s with Some _ => true | None => false end.

(** [Database/pg_build_warehouse.py: wrap_uwi] *)
Definition wrap_uwi (short_or_wrapped : string) : string :=
  let s := Py.strip short_or_wrapped in
  if Py.startswith s "00/" && Py.endswith s "/0" then s
  else "00/" +:+ s +:+ "/0".

(** *** [old/scraping.py] *)

Module Old.

(** [is_wrapped_uwi]: the test that the loader's [wrap_uwi] writes
    inline. *)
Definition is_wrapped_uwi (txt : string) : bool :=
  Py.startswith txt "00/" && Py.endswith txt "/0".

Definition to_short_uwi (uwi : string) : string :=
  let u := Py.strip uwi in
  if is_wrapped_uwi u then Py.substr u 3 (-2) else u.

Definition wrap_uwi (uwi : string) : string :=
  "00/" +:+ to_short_uwi uwi +:+ "/0".

End Old.

(** A UWI entry whose two parts are on separate lines. *)
Definition two_line_entry : string := String "a" (String "010" (String "b" EmptyString)).

(** *** The top-level [aer_multi_dash_mp.py] *)

Module Top.

Definition is_wrapped_any (txt : string) : bool := wrapped_match (Py.strip txt).

Definition to_short_uwi (uwi : string) : string :=
  let u := Py.strip uwi in
  match Re.match_ WRAPPED_RE u with
  | Some m => Re.group m 2
  | None => u
  end.

Definition ensure_wrapped (uwi : string) : string :=
  let u := Py.strip uwi in
  if is_wrapped_any u then u
  else "00/" +:+ to_short_uwi u +:+ "/0".

End Top.

(** *** Names of folders and files, [newtest/aer_multi_dash_mp.py] *)

(** [[A-Za-z0-9_.-]] *)
Definition name_char (c : ascii) : bool :=
  let n := Py.code c in
  ((65 <=? n) && (n <=? 90)) || ((97 <=? n) && (n <=? 122))
  || ((48 <=? n) && (n <=? 57))
  || (n =? 95) || (n =? 46) || (n =? 45).

(** [sanitize_name]: [re.sub(r"[^A-Za-z0-9_.-]+", "_", s.strip())] *)
Definition sanitize_name (s : string) : string :=
  Re.sub_plus (fun c => negb (name_char c)) "_" (Py.strip s).

(** [well_label_from_entry] *)
Definition well_label_from_entry (raw_uwi : string) : string :=
  sanitize_name (Py.replace (Py.strip raw_uwi) "/" "_").

End Uwi.

(** ** Delimiter detection: [Database/pg_build_warehouse.py] and
    [newtest/aer_multi_dash_mp.py] *)

Module Delim.

(** [CANDIDATE_DELIMS] of the loader, [CAND] of the scraper. *)
Definition CANDIDATE_DELIMS : list ascii := [","; ";"; "009"; "|"]%char.

(** [[ln for ln in text.splitlines() if ln.strip()]] *)
Definition nonblank_lines (text : string) : list string :=
  List.filter (fun ln => Py.truthy (Py.strip ln)) (Py.splitlines text).

(** [(best_delim, best_var, best_modal)]; [best_var = None] is
    [float("inf")]. *)
Record best : Type := Best {
  best_delim : ascii;
  best_var : option Z;
  best_modal : Z
}.

(** [(var < best_var) or (var == best_var and modal > best_modal)] *)
Definition improves (var modal : Z) (b : best) : bool :=
  match best_var b with
  | None => true
  | Some bv => (var <? bv) || ((var =? bv) && (best_modal b <? modal))
  end.

Section Detect.

(** The order in which CPython iterates over [set(cols)]: it decides
    which of several equally frequent column counts [max] returns, and is
    left open here (see [set_order] below for what is known of it). *)
Variable set_iter : list Z -> list Z.

(** One round of [for d in CANDIDATE_DELIMS], over the lines kept.
    [None] is the [ValueError] of [max] on an empty set. *)
Definition round (lines : list string) (acc : option best) (d : ascii) : option best :=
  match acc with
  | None => None
  | Some b =>
      let cols := map (fun ln => Py.count ln d + 1) lines in
      match Py.max_key (Py.count_of cols) (set_iter cols) with
      | None => None
      | Some modal =>
          let var := Py.sum (map (fun c => (c - modal) ^ 2) cols) in
          Some (if improves var modal b then Best d (Some var) modal else b)
      end
  end.

(** [Database/pg_build_warehouse.py: detect_delimiter] *)
Definition detect_delimiter (text : string) : option ascii :=
  let lines := take 60 (nonblank_lines text) in
  match lines with
  | [] => Some ","%char
  | _ => best_delim <$> fold_left (round lines) CANDIDATE_DELIMS (Some (Best "," None 0))
  end.

(** [newtest/aer_multi_dash_mp.py: _detect_delimiter] *)
Definition _detect_delimiter (text : string) : option ascii :=
  let lines := take 50 (nonblank_lines text) in
  match lines with
  | [] => Some ","%char
  | _ => best_delim <$> fold_left (round lines) CANDIDATE_DELIMS (Some (Best "," None 0))
  end.

End Detect.

(** What is known of the iteration order of a set built from a list: it
    lists the distinct elements, each once. *)
Definition set_order (set_iter : list Z -> list Z) : Prop :=
  forall cols, set_iter cols ≡ₚ remove_dups cols.

(** [n] copies of the line [ln], each ended by a line feed. *)
Fixpoint repeat_line (n : nat) (ln : string) (rest : string) : string :=
  match n with
  | O => rest
  | S n' => ln +:+ String "010" (repeat_line n' ln rest)
  end.

(** Fifty lines [a;b] followed by the line [a]. *)
Definition fifty_one_lines : string := repeat_line 50 "a;b" "a".

(** A comma file whose second line has one field only. *)
Definition ragged_text : string := "a,b" +:+ String "010" "c".

End Delim.

(** ** Per-well state of [newtest/aer_multi_dash_mp.py]

    The state is one JSON object per well. A key the code reads with
    [.get] or [.setdefault] may be absent, so every field is an
    [option]; reading an absent key with [[...]] is a [KeyError]. *)

Module State.

(** An entry of a dashboard's ["files"] map. *)
Record FileMeta : Type := {
  f_status : option string;
  f_s3_key : option string
}.

(** An entry of the ["dashboards"] map. *)
Record Dashboard : Type := {
  d_status : option string;
  d_files : option (gmap string FileMeta);
  d_last_update : option string
}.

Record WellState : Type := {
  well_label : option string;
  uwi_wrapped : option string;
  dashboards : option (gmap string Dashboard);
  updated_at : option string;
  wells_txt_entry : option string
}.

#[export] Instance FileMeta_eq_dec : EqDecision FileMeta.
Proof. solve_decision. Defined.

(** The readings of [datetime.now(timezone.utc).isoformat()] during one
    call, in the order the call takes them. *)
Record Clock : Type := {
  t_load : string;
  t_update : string;
  t_save : string
}.

(** [{"status": "incomplete", "files": {}, "last_update": ""}] *)
Definition new_dashboard : Dashboard :=
  {| d_status := Some "incomplete"; d_files := Some ∅; d_last_update := Some "" |}.

(** [{"status": "incomplete", "s3_key": ""}] *)
Definition new_file : FileMeta :=
  {| f_status := Some "incomplete"; f_s3_key := Some "" |}.

(** [m.setdefault(k, v)]: the value now under [k], and the map. *)
Definition setdefault {V} (m : gmap string V) (k : string) (v : V) : V * gmap string V :=
  match m !! k with
  | Some x => (x, m)
  | None => (v, <[k := v]> m)
  end.

Definition set_files (d : Dashboard) (files : gmap string FileMeta) : Dashboard :=
  {| d_status := d_status d; d_files := Some files; d_last_update := d_last_update d |}.

Definition set_status (d : Dashboard) (v : string) : Dashboard :=
  {| d_status := Some v; d_files := d_files d; d_last_update := d_last_update d |}.

Definition set_last_update (d : Dashboard) (v : string) : Dashboard :=
  {| d_status := d_status d; d_files := d_files d; d_last_update := Some v |}.

Definition set_dashboards (st : WellState) (ds : gmap string Dashboard) : WellState :=
  {| well_label := well_label st; uwi_wrapped := uwi_wrapped st;
     dashboards := Some ds; updated_at := updated_at st;
     wells_txt_entry := wells_txt_entry st |}.

Definition set_updated_at (st : WellState) (v : string) : WellState :=
  {| well_label := well_label st; uwi_wrapped := uwi_wrapped st;
     dashboards := dashboards st; updated_at := Some v;
     wells_txt_entry := wells_txt_entry st |}.

(** [state_load], given what [json.loads] made of the stored text:
    [None] when the text is missing, empty or corrupt. *)
Definition state_load (clk : Clock) (stored : option WellState) (label : string) : WellState :=
  match stored with
  | None =>
      {| well_label := Some label; uwi_wrapped := Some EmptyString;
         dashboards := Some ∅; updated_at := Some (t_load clk);
         wells_txt_entry := None |}
  | Some obj =>
      {| well_label := well_label obj;
         uwi_wrapped := Some (default EmptyString (uwi_wrapped obj));
         dashboards := Some (default ∅ (dashboards obj));
         updated_at := updated_at obj;
         wells_txt_entry := wells_txt_entry obj |}
  end.

(** [state_save]: the object handed to [s3_put_text]; [None] is the
    [KeyError] of [well_state["well_label"]]. *)
Definition state_save (clk : Clock) (st : WellState) : option WellState :=
  let st := set_updated_at st (t_save clk) in
  match well_label st with
  | Some _ => Some st
  | None => None
  end.

(** [meta.get("status") == "complete"] *)
Definition is_complete (meta : FileMeta) : bool :=
  bool_decide (f_status meta = Some "complete").

(** [all(meta.get("status") == "complete" for meta in files.values())
     if files else True] *)
Definition all_complete (files : gmap string FileMeta) : bool :=
  if bool_decide (files = ∅) then true
  else forallb is_complete (snd <$> map_to_list files).

Definition status_of (b : bool) : string := if b then "complete" else "incomplete".

(** [state_list_incomplete_sheets]: the list returned and the state as
    the call leaves it. *)
Definition state_list_incomplete_sheets (st : WellState) (dash_code : string)
    (all_sheets : list string) : option (list string * WellState) :=
  match dashboards st with
  | None => None
  | Some ds =>
      let '(d, ds) := setdefault ds dash_code new_dashboard in
      let files := default ∅ (d_files d) in
      let files := fold_left (fun fs s => (setdefault fs s new_file).2) all_sheets files in
      let incomplete :=
        List.filter
          (fun s => negb (bool_decide ((files !! s) ≫= f_status = Some "complete")))
          all_sheets in
      Some (incomplete, set_dashboards st (<[dash_code := set_files d files]> ds))
  end.

(** [state_mark_sheet_complete]: the state it saves. *)
Definition state_mark_sheet_complete (clk : Clock) (stored : option WellState)
    (label dash_code sheet s3_key : string) : option WellState :=
  let st := state_load clk stored label in
  match dashboards st with
  | None => None
  | Some ds =>
      let '(d, ds) := setdefault ds dash_code new_dashboard in
      match d_files d with
      | None => None
      | Some files =>
          let '(_, files) := setdefault files sheet new_file in
          let f := {| f_status := Some "complete"; f_s3_key := Some s3_key |} in
          let files := <[sheet := f]> files in
          let d := set_last_update (set_files d files) (t_update clk) in
          let d := set_status d (status_of (all_complete files)) in
          state_save clk (set_dashboards st (<[dash_code := d]> ds))
      end
  end.

(** [state_mark_dashboard_done]: the state it saves. *)
Definition state_mark_dashboard_done (clk : Clock) (stored : option WellState)
    (label dash_code : string) : option WellState :=
  let st := state_load clk stored label in
  match dashboards st with
  | None => None
  | Some ds =>
      let '(d, ds) := setdefault ds dash_code new_dashboard in
      match d_files d with
      | None => None
      | Some files =>
          let d := set_status d (status_of (all_complete files)) in
          let d := set_last_update d (t_update clk) in
          state_save clk (set_dashboards st (<[dash_code := d]> ds))
      end
  end.

(** The state with the timestamps the claims set aside blanked:
    ["updated_at"], and ["last_update"] of the dashboard [dash_code]. *)
Definition forget_times (dash_code : string) (st : WellState) : WellState :=
  {| well_label := well_label st; uwi_wrapped := uwi_wrapped st;
     dashboards :=
       alter (fun d => {| d_status := d_status d; d_files := d_files d;
                          d_last_update := None |}) dash_code
         <$> dashboards st;
     updated_at := None;
     wells_txt_entry := wells_txt_entry st |}.

(** A state with one dashboard, one of whose two sheets is complete. *)
Definition sample_dashboards : gmap string Dashboard :=
  {[ "Well_Gas_Analysis" :=
       {| d_status := Some "incomplete";
          d_files := Some {[ "Gas_Analysis" :=
                               {| f_status := Some "complete";
                                  f_s3_key := Some "raw/Gas_Analysis.csv" |} ]};
          d_last_update := Some "" |} ]}.

Definition sample_state : WellState :=
  {| well_label := Some "01-01-099-14W4"; uwi_wrapped := Some "00/01-01-099-14W4/0";
     dashboards := Some sample_dashboards; updated_at := Some "";
     wells_txt_entry := None |}.

Definition sample_clock : Clock :=
  {| t_load := "2025-01-01T00:00:00"; t_update := "2025-01-01T00:00:01";
     t_save := "2025-01-01T00:00:02" |}.

(** The ["files"] map of a dashboard in a ["dashboards"] map; empty when
    the dashboard or its ["files"] key is absent. *)
Definition files_of (ds : gmap string Dashboard) (dash_code : string) : gmap string FileMeta :=
  default ∅ (d_files (default new_dashboard (ds !! dash_code))).

(** The entry [state_mark_sheet_complete] leaves for the sheet. *)
Definition done_file (s3_key : string) : FileMeta :=
  {| f_status := Some "complete"; f_s3_key := Some s3_key |}.

(** The dashboard entry [state_mark_sheet_complete] leaves, [files]
    being the dashboard's map before the call. *)
Definition done_dashboard (clk : Clock) (files : gmap string FileMeta)
    (sheet s3_key : string) : Dashboard :=
  {| d_status := Some (status_of (all_complete (<[sheet := done_file s3_key]> files)));
     d_files := Some (<[sheet := done_file s3_key]> files);
     d_last_update := Some (t_update clk) |}.

#[export] Instance Dashboard_eq_dec : EqDecision Dashboard.
Proof. solve_decision. Defined.

(** The text stored for a well, as [state_load] tells it apart. *)
Inductive Stored : Type :=
| NoJson                       (* missing or empty, or [json.loads] raises *)
| JsonObject (obj : WellState) (* a JSON object *)
| JsonOther.                   (* JSON of another kind: null, a list, a string, a number *)

(** [state_load] on the stored text. [obj.setdefault] is outside the
    [try]: on JSON that is no object it raises [AttributeError], which is
    [None] here. *)
Definition state_load_text (clk : Clock) (stored : Stored) (label : string)
    : option WellState :=
  match stored with
  | NoJson => Some (state_load clk None label)
  | JsonObject obj => Some (state_load clk (Some obj) label)
  | JsonOther => None
  end.

(** [state_ensure_well]: the state it saves. *)
Definition state_ensure_well (clk : Clock) (stored : Stored)
    (raw_uwi wrapped label : string) : option WellState :=
  st ← state_load_text clk stored label;
  let st :=
    {| well_label := Some label;
       uwi_wrapped :=
         match uwi_wrapped st with
         | Some v => if Py.truthy v then Some v else Some wrapped
         | None => Some wrapped
         end;
       dashboards := dashboards st; updated_at := updated_at st;
       wells_txt_entry :=
         match wells_txt_entry st with
         | Some v => Some v
         | None => Some raw_uwi
         end |} in
  state_save clk st.

(** A state as the functions of this section write it: it has
    ["well_label"], and every entry of ["dashboards"] has ["files"]. *)
Definition well_formed (st : WellState) : Prop :=
  is_Some (well_label st) /\
  forall dash_code d,
    default ∅ (dashboards st) !! dash_code = Some d -> is_Some (d_files d).

Definition well_formed_stored (stored : option WellState) : Prop :=
  match stored with
  | None => True
  | Some obj => well_formed obj
  end.

(** Whether the stored state has the keys that [state_mark_sheet_complete]
    and [state_mark_dashboard_done] subscript for the dashboard
    [dash_code]: ["well_label"], and ["files"] in the dashboard's entry
    when there is one. Nothing stored has them: [state_load] and
    [setdefault] then build the state and the entry in full. *)
Definition markable (stored : option WellState) (dash_code : string) : bool :=
  match stored with
  | None => true
  | Some obj =>
      bool_decide (is_Some (well_label obj)) &&
      match default ∅ (dashboards obj) !! dash_code with
      | Some d => bool_decide (is_Some (d_files d))
      | None => true
      end
  end.

(** [can_skip_well_by_state] *)
Definition can_skip_well_by_state (clk : Clock) (stored : option WellState)
    (label : string) (codes : list string) : bool :=
  let st := state_load clk stored label in
  let d := default ∅ (dashboards st) in
  if bool_decide (d = ∅) then false
  else forallb (fun code => bool_decide ((d !! code) ≫= d_status = Some "complete")) codes.

End State.

(** ** The remote store behind [rclone]

    The sources reach the store only by running [rclone]. The store is
    a map from keys (relative to [REMOTE]) to objects; a run can also
    fail for reasons of its own (network, credentials), which the
    [script] of the world decides, run by run. Times are integers (clock
    ticks), so that differences and comparisons are exact. *)

Module Rclone.

Record Obj : Type := {
  o_mtime : Z;         (* when the object was last modified *)
  (** Whether [datetime.fromisoformat] accepts the ["ModTime"] that
      [rclone lsjson] prints for the object (before Python 3.11 it
      rejects a fraction of seconds of other than 3 or 6 digits). *)
  o_iso : bool;
  o_data : string
}.

(** An element of the array [rclone lsjson] prints; [ModTime] is the
    time [datetime.fromisoformat] reads, [None] when it raises. *)
Record Entry : Type := {
  Path : string;
  IsDir : bool;
  ModTime : option Z
}.

Definition modtime_of (o : Obj) : option Z :=
  if o_iso o then Some (o_mtime o) else None.

#[export] Instance Entry_eq_dec : EqDecision Entry.
Proof. solve_decision. Defined.

(** How a run ends: exit status 0 with nothing on stderr, exit status 0
    with notices on stderr, or a non-zero exit status. *)
Inductive Exit : Type := Clean | Noisy | Failed.

Record Run : Type := { exit : Exit; elapsed : Z }.

Inductive Cmd : Type :=
| Lsjson (path : string)
| Deletefile (key : string)
| Rcat (key : string) (input : string)
| Copyto (local : string) (key : string).

Record World : Type := {
  remote : gmap string Obj;
  disk : gmap string string; (* the local files, by path *)
  clock : Z;                 (* what [time.time()] returns *)
  script : list Run;         (* how the coming runs end; clean when exhausted *)
  trace : list Cmd           (* the runs so far, latest first *)
}.

(** A computation on the world. *)
Definition M (A : Type) : Type := World -> A * World.

#[export] Instance M_ret : MRet M := fun A a w => (a, w).
#[export] Instance M_bind : MBind M :=
  fun A B f m w => let '(a, w') := m w in f a w'.

(** [time.time()] *)
Definition time_time : M Z := fun w => (clock w, w).

(** Start a run: it is logged, takes its time, and its end is read off
    the script. *)
Definition start (c : Cmd) : M Exit := fun w =>
  match script w with
  | [] => (Clean, {| remote := remote w; disk := disk w; clock := clock w;
                     script := []; trace := c :: trace w |})
  | r :: rs => (exit r, {| remote := remote w; disk := disk w;
                           clock := clock w + elapsed r;
                           script := rs; trace := c :: trace w |})
  end.

Definition set_remote (f : gmap string Obj -> gmap string Obj) : M unit := fun w =>
  (tt, {| remote := f (remote w); disk := disk w; clock := clock w;
          script := script w; trace := trace w |}).

Definition get_remote : M (gmap string Obj) := fun w => (remote w, w).

(** [s] without the prefix [p], when it has it. *)
Fixpoint strip_prefix (p s : string) {struct p} : option string :=
  match p, s with
  | EmptyString, _ => Some s
  | String a p', String b s' => if Ascii.eqb a b then strip_prefix p' s' else None
  | String _ _, EmptyString => None
  end.

(** [s] up to its first ["/"], and whether there is one. *)
Fixpoint cut (s : string) : string * bool :=
  match s with
  | EmptyString => (EmptyString, false)
  | String c r =>
      if Ascii.eqb c "/" then (EmptyString, true)
      else let rest := cut r in (String c rest.1, rest.2)
  end.

(** The last component of a key. *)
Fixpoint basename (s : string) : string :=
  match s with
  | EmptyString => EmptyString
  | String c r => if (cut s).2 then basename r else s
  end.

(** The entry a directory listing of [path] shows for the object [o] at
    [key]: the object itself when it lies directly in [path], the
    sub-directory it lies in otherwise. *)
Definition child_entry (path : string) (ko : string * Obj) : option Entry :=
  match strip_prefix (path +:+ "/") ko.1 with
  | None | Some EmptyString => None
  | Some rel =>
      Some (if (cut rel).2
            then {| Path := (cut rel).1; IsDir := true; ModTime := None |}
            else {| Path := rel; IsDir := false; ModTime := modtime_of ko.2 |})
  end.

(** What [rclone lsjson REMOTE/path] lists: the object at [path] alone if
    there is one, else the entries of the directory [path]; [None] when
    there is neither (rclone exits with "directory not found"). *)
Definition listing (store : gmap string Obj) (path : string) : option (list Entry) :=
  match store !! path with
  | Some o => Some [ {| Path := basename path; IsDir := false; ModTime := modtime_of o |} ]
  | None =>
      match remove_dups (omap (child_entry path) (map_to_list store)) with
      | [] => None
      | l => Some l
      end
  end.

(** [rclone lsjson REMOTE/path]: how the run ended and the array on
    stdout. *)
Definition lsjson (path : string) : M (Exit * list Entry) :=
  ex ← start (Lsjson path);
  store ← get_remote;
  mret (match ex, listing store path with
        | Failed, _ | _, None => (Failed, [])
        | ex, Some l => (ex, l)
        end).

(** [rclone deletefile REMOTE/key] *)
Definition deletefile (key : string) : M Exit :=
  ex ← start (Deletefile key);
  store ← get_remote;
  match ex, store !! key with
  | Failed, _ | _, None => mret Failed
  | ex, Some _ => _ ← set_remote (delete key); mret ex
  end.

(** [rclone rcat REMOTE/key], [input] on stdin. *)
Definition rcat (key input : string) : M Exit :=
  ex ← start (Rcat key input);
  now ← time_time;
  match ex with
  | Failed => mret Failed
  | ex => _ ← set_remote (insert key {| o_mtime := now; o_iso := true; o_data := input |});
          mret ex
  end.

(** [rclone copyto --ignore-existing local REMOTE/key]: it fails when
    there is no local file, and leaves an object already at [key] as it
    is. *)
Definition copyto_ignore_existing (local key : string) : M Exit :=
  ex ← start (Copyto local key);
  now ← time_time;
  store ← get_remote;
  files ← (fun w => (disk w, w));
  match ex, files !! local, store !! key with
  | Failed, _, _ | _, None, _ => mret Failed
  | ex, Some _, Some _ => mret ex
  | ex, Some data, None =>
      _ ← set_remote (insert key {| o_mtime := now; o_iso := true; o_data := data |});
      mret ex
  end.

(** [for x in l: f(x)] *)
Fixpoint for_each {A} (l : list A) (f : A -> M unit) : M unit :=
  match l with
  | [] => mret tt
  | x :: r => _ ← f x; for_each r f
  end.

(** [p.returncode == 0] *)
Definition ok (ex : Exit) : bool :=
  match ex with Failed => false | _ => true end.

(** How the next run will end, and the world once a run of [c] is over
    (before its effect on the store). *)
Definition next_exit (w : World) : Exit :=
  match script w with
  | [] => Clean
  | r :: _ => exit r
  end.

Definition after_run (c : Cmd) (w : World) : World := (start c w).2.

(** What a listing run of [path] returns in the world [w]. *)
Definition observed (path : string) (w : World) : Exit * list Entry :=
  match next_exit w, listing (remote w) path with
  | Failed, _ | _, None => (Failed, [])
  | ex, Some l => (ex, l)
  end.

(** Whether a command is a run of [rcat]. *)
Definition is_rcat (c : Cmd) : bool := match c with Rcat _ _ => true | _ => false end.

(** The time the runs [rs] take. *)
Definition total_elapsed (rs : list Run) : Z :=
  foldr (fun r t => elapsed r + t) 0 rs.

(** [w'] is [w] some runs later, as far as the script and the clock
    go. *)
Definition later (w w' : World) : Prop :=
  exists n : nat,
    script w' = drop n (script w) /\
    clock w' = clock w + total_elapsed (take n (script w)).

End Rclone.

(** ** [s3_lock.py]: [newtest/] and [old/] *)

Module Lock.
Import Rclone.

(** [_key], the same in both files. *)
Definition _key (uwi_entry : string) : string :=
  "locks/" +:+ Py.quote (Py.strip uwi_entry) +:+ ".lock".

(** The time read off an entry: [try: fromisoformat(...) except: now]. *)
Definition mtime (now : Z) (o : Entry) : Z := default now (ModTime o).

(** The age of an object as the code reads it at time [now]: [0] when
    its ["ModTime"] is unreadable. *)
Definition apparent_age (now : Z) (o : Obj) : Z :=
  now - default now (modtime_of o).

(** The tail of both [acquire_lock]s: write the payload, which is
    [json.dumps] of the host, the process id and the time of the call. *)
Definition write_payload (lock_payload : Z -> string) (key : string) : M bool :=
  now ← time_time;
  ex ← rcat key (lock_payload now);
  mret (ok ex).

(** *** [newtest/s3_lock.py] *)

Module NewTest.
Section NewTest.

(** [LOCK_TTL_SECONDS], read from the environment at import. *)
Variable LOCK_TTL_SECONDS : Z.
Variable lock_payload : Z -> string.

(** [_lsjson_any]: stderr is discarded, stdout is the array. *)
Definition _lsjson_any (path : string) : M (list Entry) :=
  r ← lsjson path;
  mret (if ok r.1 then r.2 else []).

Definition _delete (key : string) : M unit :=
  _ ← deletefile key; mret tt.

Definition purge_expired_locks : M unit :=
  arr ← _lsjson_any "locks";
  now ← time_time;
  for_each arr (fun o =>
    if IsDir o then mret tt
    else if LOCK_TTL_SECONDS <? now - mtime now o
         then _delete ("locks/" +:+ Path o)
         else mret tt).

(** What [acquire_lock] does once the expired locks are purged. *)
Definition acquire_after_purge (uwi : string) : M bool :=
  let key := _key uwi in
  arr ← _lsjson_any key;
  now ← time_time;
  match arr with
  | o :: _ =>
      if now - mtime now o <? LOCK_TTL_SECONDS then mret false
      else _ ← _delete key; write_payload lock_payload key
  | [] => write_payload lock_payload key
  end.

Definition acquire_lock (uwi : string) : M bool :=
  _ ← purge_expired_locks;
  acquire_after_purge uwi.

Definition release_lock (uwi : string) : M unit := _delete (_key uwi).

End NewTest.
End NewTest.

(** *** [old/s3_lock.py] *)

Module Old.
Section Old.

Variable LOCK_TTL_SECONDS : Z.
Variable lock_payload : Z -> string.

(** [_lsjson]: stderr is merged into the output, so notices make
    [json.loads] raise, which is not caught ([None] here); a non-zero
    exit status is caught and gives Python's [None] ([Some None]). *)
Definition _lsjson (remote_key : string) : M (option (option Entry)) :=
  r ← lsjson remote_key;
  mret (match r.1 with
        | Failed => Some None
        | Noisy => None
        | Clean => Some (head r.2)
        end).

Definition acquire_lock (uwi : string) : M (option bool) :=
  let key := _key uwi in
  meta ← _lsjson key;
  now ← time_time;
  match meta with
  | None => mret None
  | Some (Some o) =>
      if now - mtime now o <? LOCK_TTL_SECONDS then mret (Some false)
      else b ← write_payload lock_payload key; mret (Some b)
  | Some None => b ← write_payload lock_payload key; mret (Some b)
  end.

Definition release_lock (uwi : string) : M unit :=
  _ ← deletefile (_key uwi); mret tt.

End Old.
End Old.

(** A lock held for the well [00/01-01-099-14W4/0], last touched at
    [mtime]. *)
Definition lock_at (mtime : Z) (iso : bool) : gmap string Obj :=
  {[ _key "00/01-01-099-14W4/0" := {| o_mtime := mtime; o_iso := iso; o_data := "{}" |} ]}.

Definition sample_payload (now : Z) : string := "{}".

(** A world at time 10000 in which the lock was last touched at time 0,
    its ["ModTime"] being printed in a form [fromisoformat] rejects. *)
Definition world_unreadable_modtime : World :=
  {| remote := lock_at 0 false; disk := ∅; clock := 10000; script := []; trace := [] |}.

(** A world at time 10000 in which the lock was last touched at time
    9990, and every run is clean. *)
Definition world_fresh_lock : World :=
  {| remote := lock_at 9990 true; disk := ∅; clock := 10000; script := []; trace := [] |}.

(** A world at time 10000 in which the lock was last touched at time
    9990, and whose [k+1]-th run of [rclone] fails. *)
Definition world_failing_run (k : nat) : World :=
  {| remote := lock_at 9990 true; disk := ∅; clock := 10000;
     script := replicate k {| exit := Clean; elapsed := 0 |}
               ++ [ {| exit := Failed; elapsed := 0 |} ];
     trace := [] |}.

(** A world at time 10000 without locks, whose coming runs take some
    time and print notices now and then, but do not fail. *)
Definition world_no_lock : World :=
  {| remote := ∅; disk := ∅; clock := 10000;
     script := [ {| exit := Clean; elapsed := 2 |}; {| exit := Clean; elapsed := 1 |};
                 {| exit := Clean; elapsed := 3 |}; {| exit := Noisy; elapsed := 4 |};
                 {| exit := Noisy; elapsed := 1 |}; {| exit := Clean; elapsed := 2 |} ];
     trace := [] |}.

(** That world once the new [acquire_lock] has taken the lock of the
    well [01-01-099-14W4], with a TTL of an hour. *)
Definition world_locked : World :=
  (NewTest.acquire_lock 3600 sample_payload "01-01-099-14W4" world_no_lock).2.

End Lock.

(** ** [s3_merge.py]: top level and [newtest/] *)

Module Merge.
Import Rclone.

(** The test both [s3_exists] apply to the array: a file named [name]. *)
Definition has_file (name : string) (arr : list Entry) : bool :=
  Py.any (map (fun o => negb (IsDir o) && String.eqb (Path o) name) arr).

(** The tail of both [s3_copyto_if_new]: run the copy, return whether
    it exits 0. *)
Definition copy (local_file remote_key : string) (w : World) : bool * World :=
  (ok (copyto_ignore_existing local_file remote_key w).1,
   (copyto_ignore_existing local_file remote_key w).2).

(** *** [WebScraping/s3_merge.py] *)

Module Top.

(** [s3_lsjson]: stderr is merged into stdout, so notices make
    [json.loads] raise, which gives [[]], as a non-zero exit status
    does. *)
Definition s3_lsjson (remote_key : string) : M (list Entry) :=
  r ← lsjson remote_key;
  mret (match r.1 with Clean => r.2 | _ => [] end).

Definition s3_exists (remote_key : string) : M bool :=
  arr ← s3_lsjson remote_key;
  mret (has_file (Py.path_name remote_key) arr).

Definition s3_copyto_if_new (local_file remote_key : string) : M bool :=
  found ← s3_exists remote_key;
  if found : bool then mret false
  else (ex ← copyto_ignore_existing local_file remote_key; mret (ok ex)).

Definition s3_any_under (prefix : string) : M bool :=
  arr ← s3_lsjson prefix;
  mret (Py.any (map (fun o => negb (IsDir o)) arr)).

End Top.

(** *** [WebScraping/newtest/s3_merge.py] *)

Module NewTest.

(** [s3_lsjson]: stderr is discarded. *)
Definition s3_lsjson (remote_key : string) : M (list Entry) :=
  r ← lsjson remote_key;
  mret (if ok r.1 then r.2 else []).

Definition s3_exists (remote_key : string) : M bool :=
  let parent := Py.replace (Py.path_parent remote_key) "\" "/" in
  let name := Py.path_name remote_key in
  arr ← s3_lsjson parent;
  mret (has_file name arr).

Definition s3_copyto_if_new (local_file remote_key : string) : M bool :=
  found ← s3_exists remote_key;
  if found : bool then mret false
  else (ex ← copyto_ignore_existing local_file remote_key; mret (ok ex)).

Definition s3_put_text (remote_key text : string) : M bool :=
  ex ← rcat remote_key text; mret (ok ex).

Definition s3_list_prefix (prefix : string) : M (list string) :=
  arr ← s3_lsjson prefix;
  mret (Path <$> List.filter (fun o => negb (IsDir o)) arr).

End NewTest.

(** The directory that the new [s3_exists] lists. *)
Definition parent_of (remote_key : string) : string :=
  Py.replace (Py.path_parent remote_key) "\" "/".

(** A world in which a sheet is already on the remote, its local copy is
    on disk, and the next run of [rclone] fails. *)
Definition world_listing_fails : World :=
  {| remote := {[ "raw/01-01-099-14W4/Gas_Analysis.csv" :=
                    {| o_mtime := 0; o_iso := true; o_data := "old" |} ]};
     disk := {[ "Data/Gas_Analysis.csv" := "new" ]};
     clock := 10000;
     script := [ {| exit := Failed; elapsed := 0 |} ];
     trace := [] |}.

(** The same world with every run clean. *)
Definition world_sheet_present : World :=
  {| remote := remote world_listing_fails; disk := disk world_listing_fails;
     clock := 10000; script := []; trace := [] |}.

(** *** The sheets manifest of [newtest/aer_multi_dash_mp.py] *)

Definition manifest_key (label dash_code : string) : string :=
  "Data/" +:+ label +:+ "/" +:+ dash_code +:+ "/sheets.txt".

(** [load_manifest_from_s3], given what [s3_read_text] returned. *)
Definition load_manifest_from_s3 (txt : option string) : option (list string) :=
  (fun t => Py.strip <$> List.filter (fun ln => Py.truthy (Py.strip ln)) (Py.splitlines t))
    <$> txt.

(** [save_manifest_to_s3] *)
Definition save_manifest_to_s3 (label dash_code : string) (sheets : list string) : M unit :=
  _ ← NewTest.s3_put_text (manifest_key label dash_code)
        (Py.join (String "010" EmptyString) sheets);
  mret tt.

(** A world in which the sheet is on disk and the remote is empty. *)
Definition world_sheet_absent : World :=
  {| remote := ∅; disk := disk world_listing_fails;
     clock := 10000; script := []; trace := [] |}.

End Merge.

(** ** [Database/pg_build_warehouse.py]: the raw tables

    A table is its column names, in ordinal order, and its rows, one
    value per column, [None] being SQL's NULL. A statement that
    PostgreSQL rejects raises in Python: [None] here. *)

Module Warehouse.

Record Table : Type := {
  columns : list string;
  rows : list (list (option string))
}.

(** The tables of the schema [raw], by name. *)
Abbreviation DB := (gmap string Table).

Definition KEEP_PROVENANCE : bool := true.
Definition BATCH_ROWS : nat := 2000.
Definition PROVENANCE : list string := ["source_dashboard"; "source_sheet"; "source_file"].

Record FileInfo : Type := {
  path : string;
  dashboard : string;
  sheet : string;
  uwi_short : string
}.

(** A row of Python strings as the table stores it. *)
Definition stored (r : list string) : list (option string) := Some <$> r.

(** [table_exists] *)
Definition table_exists (db : DB) (table : string) : bool :=
  bool_decide (is_Some (db !! table)).

(** [current_columns] *)
Definition current_columns (db : DB) (table : string) : list string :=
  match db !! table with
  | Some t => columns t
  | None => []
  end.

(** [CREATE TABLE IF NOT EXISTS table (cols...)]: rejected when a column
    is named twice. *)
Definition create_table (db : DB) (table : string) (cols : list string) : option DB :=
  match db !! table with
  | Some _ => Some db
  | None =>
      if bool_decide (NoDup cols)
      then Some (<[table := {| columns := cols; rows := [] |}]> db)
      else None
  end.

(** [ALTER TABLE table ADD COLUMN c TEXT]: rejected when there is no such
    table or the column exists; the rows get NULL in the new column. *)
Definition add_column (db : DB) (table c : string) : option DB :=
  match db !! table with
  | None => None
  | Some t =>
      if Py.mem c (columns t) then None
      else Some (<[table := {| columns := columns t ++ [c];
                               rows := (fun r => r ++ [None]) <$> rows t |}]> db)
  end.

(** The position of [c] in [cols]. *)
Fixpoint index_of (c : string) (cols : list string) : option nat :=
  match cols with
  | [] => None
  | x :: r => if String.eqb x c then Some O else S <$> index_of c r
  end.

(** [INSERT INTO table (cols...) VALUES rows]: rejected when there is no
    such table, a column is named twice or is not a column of the table,
    or a row has not one value per column named; columns not named get
    NULL. *)
Definition insert_values (db : DB) (table : string) (cols : list string)
    (vals : list (list string)) : option DB :=
  match db !! table with
  | None => None
  | Some t =>
      if bool_decide (NoDup cols)
         && forallb (fun c => Py.mem c (columns t)) cols
         && forallb (fun r => Nat.eqb (length r) (length cols)) vals
      then
        let place r := (fun c => index_of c cols ≫= (r !!.)) <$> columns t in
        Some (<[table := {| columns := columns t; rows := rows t ++ (place <$> vals) |}]> db)
      else None
  end.

(** [create_empty_raw]; the index it creates changes neither the
    columns nor the rows. *)
Definition create_empty_raw (db : DB) (table : string) (extra_cols : list string) : option DB :=
  let cols := ["uwi_formatted"] ++ extra_cols in
  let cols := if KEEP_PROVENANCE then cols ++ PROVENANCE else cols in
  create_table db table cols.

(** [for c in to_add: ALTER TABLE ... ADD COLUMN c] *)
Fixpoint add_columns (db : DB) (table : string) (to_add : list string) : option DB :=
  match to_add with
  | [] => Some db
  | c :: r =>
      match add_column db table c with
      | Some db' => add_columns db' table r
      | None => None
      end
  end.

(** [ensure_raw_table] *)
Definition ensure_raw_table (db : DB) (table : string) (union_cols : list string) : option DB :=
  if negb (table_exists db table) then
    create_empty_raw db table
      (List.filter (fun c => negb (String.eqb c "uwi_formatted")) union_cols)
  else
    let existing := current_columns db table in
    let to_add := List.filter (fun c => negb (Py.mem c existing)) union_cols in
    let to_add :=
      if KEEP_PROVENANCE
      then to_add ++ List.filter (fun c => negb (Py.mem c existing)) PROVENANCE
      else to_add in
    add_columns db table to_add.

(** [insert_rows] *)
Definition insert_rows (db : DB) (table : string) (cols : list string)
    (vals : list (list string)) : option DB :=
  match vals with
  | [] => Some db
  | _ => insert_values db table cols vals
  end.

Definition FORMATTED_SYNS : list string :=
  ["wellidentifier"; "formatteduwi"; "welluwiformatted";
   "enterwellidentifieruwi"; "prodstringuwiformatted"; "uwiformatted"].

(** [NUMERIC_SYNS] has a fifth element, ["uwi"] followed by an em dash,
    which is outside the code points below 256. *)
Definition NUMERIC_SYNS : list string := ["welluwi"; "uwi"; "uwi_"; "uwi-"].

(** [s] without the characters that fail [p]. *)
Fixpoint keep (p : ascii -> bool) (s : string) : string :=
  match s with
  | EmptyString => EmptyString
  | String c r => if p c then String c (keep p r) else keep p r
  end.

Definition lower_or_digit (c : ascii) : bool :=
  ((97 <=? Py.code c) && (Py.code c <=? 122)) || ((48 <=? Py.code c) && (Py.code c <=? 57)).

(** [norm_key]: [re.sub(r"[^a-z0-9]+", "", h.strip().lower())] *)
Definition norm_key (h : string) : string :=
  keep lower_or_digit (Py.lower (Py.strip h)).

Section Build.

(** [snake] rests on [unicodedata.normalize] and on the Unicode class
    [\w] of [re]; it is left open. *)
Variable snake : string -> string.

(** What [read_csv_rows] returns for a path: the header and the rows
    after it. *)
Variable read_csv_rows : string -> list string * list (list string).

(** [rename_headers_to_canonical], its first component. *)
Definition rename_headers_to_canonical (header : list string) : list string :=
  (fun h =>
     let k := norm_key h in
     if Py.mem k FORMATTED_SYNS
        || (Py.contains k "uwi" && Py.contains k "formatted")
        || String.eqb k "wellidentifier"
     then "UWI_Formatted"
     else if Py.mem k NUMERIC_SYNS && negb (Py.contains k "formatted")
     then "UWI_Numeric"
     else snake h) <$> header.

(** Step 2a of [build]: the union of the headers.  The accumulator is
    [(union_cols, seen)]. *)
Definition add_unique (acc : list string * list string) (m : string)
    : list string * list string :=
  let key := Py.lower m in
  if Py.mem key acc.2 then acc else (acc.1 ++ [m], key :: acc.2).

Definition union_step (acc : list string * list string) (info : FileInfo)
    : list string * list string :=
  let hdr := (read_csv_rows (path info)).1 in
  match hdr with
  | [] => acc
  | _ =>
      let mapped := rename_headers_to_canonical hdr in
      let mapped := if Py.mem "UWI_Formatted" mapped then mapped
                    else mapped ++ ["UWI_Formatted"] in
      fold_left add_unique mapped acc
  end.

Definition union_headers (files : list FileInfo) : list string :=
  let union_cols := (fold_left union_step files ([], [])).1 in
  let union_cols := snake <$> union_cols in
  if Py.mem "uwi_formatted" union_cols then union_cols
  else "uwi_formatted" :: union_cols.

(** [if len(r) < len(mapped): r = r + [""] * (len(mapped) - len(r))] *)
Definition pad (mapped r : list string) : list string :=
  if Nat.ltb (length r) (length mapped)
  then r ++ replicate (length mapped - length r) EmptyString else r.

(** Step 2c, the body of [for r in rows_iter] up to [batch.append(out)]:
    the row [out]. *)
Definition out_row (load_cols : list string) (info : FileInfo)
    (mapped : list string) (r : list string) : list string :=
  let uwi_wrapped :=
    if Py.truthy (uwi_short info) then Some (Uwi.wrap_uwi (uwi_short info)) else None in
  let r := pad mapped r in
  let rowdict := Py.dict_of mapped r in
  let rowdict :=
    if Py.mem "uwi_formatted" load_cols then
      match rowdict !! "uwi_formatted" with
      | Some v => if Py.truthy (Py.strip v) then rowdict
                  else <["uwi_formatted" := default EmptyString uwi_wrapped]> rowdict
      | None => <["uwi_formatted" := default EmptyString uwi_wrapped]> rowdict
      end
    else rowdict in
  (fun col =>
     if KEEP_PROVENANCE && Py.mem col PROVENANCE then
       if String.eqb col "source_dashboard" then dashboard info
       else if String.eqb col "source_sheet" then sheet info
       else path info
     else default EmptyString (rowdict !! col)) <$> load_cols.

(** The loop over the rows of one file: the accumulator is the database
    and [batch]. *)
Definition row_step (table : string) (load_cols : list string) (info : FileInfo)
    (mapped : list string) (acc : option (DB * list (list string))) (r : list string)
    : option (DB * list (list string)) :=
  match acc with
  | None => None
  | Some (db, batch) =>
      let batch := batch ++ [out_row load_cols info mapped r] in
      if Nat.leb BATCH_ROWS (length batch)
      then (fun db' => (db', [])) <$> insert_rows db table load_cols batch
      else Some (db, batch)
  end.

Definition load_file (table : string) (load_cols : list string)
    (acc : option DB) (info : FileInfo) : option DB :=
  match acc with
  | None => None
  | Some db =>
      let '(hdr, rows_iter) := read_csv_rows (path info) in
      match hdr with
      | [] => Some db
      | _ =>
          let mapped := snake <$> rename_headers_to_canonical hdr in
          match fold_left (row_step table load_cols info mapped) rows_iter (Some (db, [])) with
          | None => None
          | Some (db, []) => Some db
          | Some (db, batch) => insert_rows db table load_cols batch
          end
      end
  end.

(** Step 2 of [build] for one dataset [(dash, sheet)]. *)
Definition load_dataset (db : DB) (dash sheet_ : string) (files : list FileInfo) : option DB :=
  let raw_table := dash +:+ "__" +:+ sheet_ in
  let union_cols := union_headers files in
  match ensure_raw_table db raw_table union_cols with
  | None => None
  | Some db =>
      let load_cols := current_columns db raw_table in
      fold_left (load_file raw_table load_cols) files (Some db)
  end.



(** The rows step 2c builds from one file. *)
Definition file_rows (load_cols : list string) (info : FileInfo) : list (list string) :=
  match (read_csv_rows (path info)).1 with
  | [] => []
  | hdr =>
      out_row load_cols info (snake <$> rename_headers_to_canonical hdr)
        <$> (read_csv_rows (path info)).2
  end.

End Build.

(** A stand-in for [snake] on ASCII names: lower case, with every
    character that is no letter or digit turned into an underscore. *)
Fixpoint sample_snake (s : string) : string :=
  match s with
  | EmptyString => EmptyString
  | String c r =>
      String (if lower_or_digit (Py.lower_char c) then Py.lower_char c else "_"%char)
        (sample_snake r)
  end.

(** One exported sheet of one well: a header and three data rows, the
    second with a blank identifier, the third short. *)
Definition sample_file : FileInfo :=
  {| path := "Data/01-01-099-14W4/Well_Gas_Analysis/01-01-099-14W4__Gas_Analysis.csv";
     dashboard := "well_gas_analysis"; sheet := "gas_analysis";
     uwi_short := "01-01-099-14W4" |}.

(** The same sheet of another well. *)
Definition sample_file_2 : FileInfo :=
  {| path := "Data/02-02-099-14W4/Well_Gas_Analysis/02-02-099-14W4__Gas_Analysis.csv";
     dashboard := "well_gas_analysis"; sheet := "gas_analysis";
     uwi_short := "02-02-099-14W4" |}.

Definition sample_csv (path : string) : list string * list (list string) :=
  (["Well Identifier"; "Depth"],
   [["02/01-01-099-14W4/0"; "10"]; ["  "; "20"]; []]).

(** A raw table from an earlier load, made before the provenance
    columns were all kept, with one row. *)
Definition sample_table : Table :=
  {| columns := ["uwi_formatted"; "depth"; "source_file"];
     rows := [[Some "00/01-01-099-14W4/0"; Some "10"; Some "a.csv"]] |}.

Definition sample_db : DB := {[ "gas__pool" := sample_table ]}.

(** That table once a load with the columns [depth] and [pool] has
    extended it. *)
Definition sample_db_extended : DB :=
  default sample_db
    (ensure_raw_table sample_db "gas__pool" ["uwi_formatted"; "depth"; "pool"]).

End Warehouse.

(** ** [linux/split_wells.py] and the worker split of [newtest/aer_multi_dash_mp.py] *)

Module Chunks.

(** The loop body shared by both functions: the accumulator is the pair
    of [out] and the running start index. *)
Definition body {A} (seq : list A) (base rem : Z)
    (acc : list (list A) * Z) (k : Z) : list (list A) * Z :=
  let sz := base + (if k <? rem then 1 else 0) in
  (acc.1 ++ [Py.slice seq acc.2 (acc.2 + sz)], acc.2 + sz).

(** [chunks_even(seq, parts)]; [None] is the [ZeroDivisionError] of
    [n // parts]. *)
Definition chunks_even {A} (seq : list A) (parts : Z) : option (list (list A)) :=
  let n := Py.len seq in
  if parts =? 0 then None
  else
    let base := n / parts in
    let rem := n mod parts in
    Some (fold_left (body seq base rem) (Py.range parts) ([], 0)).1.

(** [chunkify(seq, n)] *)
Definition chunkify {A} (seq : list A) (n : Z) : list (list A) :=
  let n := Z.max 1 n in
  let k := Py.len seq / n in
  let m := Py.len seq mod n in
  (fold_left (body seq k m) (Py.range n) ([], 0)).1.

(** The state of that loop after [m] rounds. *)
Definition after {A} (seq : list A) (base rem : Z) (m : nat) : list (list A) * Z :=
  fold_left (body seq base rem) (Py.range (Z.of_nat m)) ([], 0).

End Chunks.

(** ** The wells file and the command line: [linux/split_wells.py] and
    [newtest/aer_multi_dash_mp.py] *)

Module Wells.

(** [linux/split_wells.py: load_clean_lines], on the text of the file. *)
Definition load_clean_lines (text : string) : list string :=
  fold_left
    (fun out raw =>
       let line := Py.strip raw in
       if negb (Py.truthy line) || Py.startswith line "#" then out
       else out ++ [line])
    (Py.splitlines text) [].

(** The wells file as its two readers decode it. Valid UTF-8 decodes
    to one text whatever the error mode. On a file that is not valid
    UTF-8, strict decoding raises [UnicodeDecodeError] and decoding with
    [errors="ignore"] gives the text that is left without the offending
    bytes. *)
Inductive WellsFile : Type :=
| Utf8 (text : string)
| NotUtf8 (kept : string).

(** [p.read_text(encoding="utf-8", errors="ignore")] *)
Definition read_text_ignore (f : WellsFile) : string :=
  match f with
  | Utf8 text => text
  | NotUtf8 kept => kept
  end.

(** The text read from [open(path, "r", encoding="utf-8")]; [None] is
    the [UnicodeDecodeError]. *)
Definition read_text_strict (f : WellsFile) : option string :=
  match f with
  | Utf8 text => Some text
  | NotUtf8 _ => None
  end.

(** [newtest/aer_multi_dash_mp.py: load_wells] *)
Definition load_wells (f : WellsFile) : option (list string) :=
  text ← read_text_strict f;
  Some (Py.strip <$>
          List.filter
            (fun ln => Py.truthy (Py.strip ln) && negb (Py.startswith (Py.lstrip ln) "#"))
            (Py.file_lines text)).

(** The keys of [DASHBOARDS], in the order of the dict. *)
Definition DASHBOARDS : list string :=
  ["Well_Summary_Report"; "Well_Gas_Analysis"; "Reservoir_Evaluation"].

(** [newtest/aer_multi_dash_mp.py: parse_dashboards_spec] *)
Definition parse_dashboards_spec (spec : option string) : list string :=
  match spec with
  | None => DASHBOARDS
  | Some s =>
      if negb (Py.truthy s) || String.eqb (Py.lower (Py.strip s)) "all" then DASHBOARDS
      else
        let wanted :=
          Py.strip <$> List.filter (fun p => Py.truthy (Py.strip p)) (Py.split s ",") in
        match List.filter (fun w => Py.mem w DASHBOARDS) wanted with
        | [] => DASHBOARDS
        | l => l
        end
  end.

(** A wells file with a comment, a blank line, entries with blanks
    around them, and line ends of all three kinds. *)
Definition sample_text : string :=
  "# wells" +:+ String "013" (String "010"
  (" 01-01-099-14W4 " +:+ String "010" (String "010"
  ("02/06-12-045-08W5/0" +:+ String "013" "  #skipped")))).

End Wells.

(** * Theorems *)

(** ** Strings *)

Section StringFacts.
Implicit Types (s t : string) (c : ascii).

Lemma append_cons c s t : String c s +:+ t = String c (s +:+ t).
Proof. reflexivity. Qed.

Lemma append_empty t : EmptyString +:+ t = t.
Proof. reflexivity. Qed.

Lemma length_append s t :
  String.length (s +:+ t) = (String.length s + String.length t)%nat.
Proof.
  induction s as [|c s IH]; [done|].
  rewrite append_cons. simpl. by rewrite IH.
Qed.

Lemma append_assoc s t r : (s +:+ t) +:+ r = s +:+ (t +:+ r).
Proof.
  induction s as [|c s IH]; [done|].
  by rewrite !append_cons, IH.
Qed.

Lemma take_append s t : Re.take (String.length s) (s +:+ t) = s.
Proof.
  induction s as [|c s IH]; [by destruct t|].
  rewrite append_cons. simpl. by rewrite IH.
Qed.

Lemma consumed_append s t : Re.consumed (s +:+ t) t = s.
Proof.
  unfold Re.consumed. rewrite length_append.
  replace (String.length s + String.length t - String.length t)%nat
    with (String.length s) by lia.
  apply take_append.
Qed.

Lemma rstrip_last s c :
  Py.isspace c = false ->
  Py.rstrip (s +:+ String c EmptyString) = s +:+ String c EmptyString.
Proof.
  intros Hc. induction s as [|a s IH].
  - rewrite append_empty. simpl. by rewrite Hc.
  - rewrite append_cons. simpl. rewrite IH. by destruct s.
Qed.

Lemma strip_fixed a s c :
  Py.isspace a = false -> Py.isspace c = false ->
  Py.strip (String a (s +:+ String c EmptyString)) = String a (s +:+ String c EmptyString).
Proof.
  intros Ha Hc. unfold Py.strip. cbn [Py.lstrip]. rewrite Ha.
  apply (rstrip_last (String a s) c Hc).
Qed.

Lemma count_nonneg s c : 0 <= Py.count s c.
Proof. induction s as [|a s IH]; simpl; [lia|]. destruct (Ascii.eqb a c); lia. Qed.

Lemma count_cons_zero a s c :
  Py.count (String a s) c = 0 -> Ascii.eqb a c = false /\ Py.count s c = 0.
Proof.
  simpl. pose proof (count_nonneg s c). destruct (Ascii.eqb a c); split; (done || lia).
Qed.

End StringFacts.

(** ** The wrapped and short forms of a UWI *)

Section UwiFacts.
Implicit Types (s t u : string) (c : ascii).

(** A greedy [.*] run over a stretch without line feed ends where it
    would have ended had it started after the stretch. *)
Lemma star_dot_prefix {X} s t (k : string -> option X) x :
  Py.count s "010" = 0 ->
  Re.star Re.dot t k = Some x ->
  Re.star Re.dot (s +:+ t) k = Some x.
Proof.
  intros Hs Ht. induction s as [|a s IH]; [done|].
  apply count_cons_zero in Hs as [Ha Hs].
  rewrite append_cons. simpl. unfold Re.dot at 1. rewrite Ha. simpl.
  by rewrite (IH Hs).
Qed.

(** [WRAPPED_RE] on ["00/" + body + "/0"], for a non-empty body without
    line feed: it matches, and the greedy group 2 is the whole body. *)
Lemma wrapped_re_on_wrapped a s :
  Py.count (String a s) "010" = 0 ->
  Re.match_ Uwi.WRAPPED_RE ("00/" +:+ String a s +:+ "/0") =
  Some (<[3%nat := "0"]> (<[2%nat := String a s]> (<[1%nat := "00"]> ∅))).
Proof.
  intros Hs. apply count_cons_zero in Hs as [Ha Hs].
  unfold Re.match_, Uwi.WRAPPED_RE.
  rewrite !append_cons, append_empty.
  cbn [Re.run]. rewrite Nat.eqb_refl.
  cbn [Re.rep Nat.eqb Nat.pred]. 
  change (Re.upper_or_digit "0") with true. cbn iota.
  change ("/" =? "/")%char with true. cbn iota.
  unfold Re.dot at 1. rewrite Ha. cbn [negb].
  erewrite star_dot_prefix; [|exact Hs|simpl; reflexivity].
  f_equal.
  change (Re.consumed "0" "") with "0".
  rewrite <- (append_cons a s "/0"), consumed_append.
  set (rest := String "/" (String a s +:+ "/0")).
  change (String "0" (String "0" rest)) with ("00" +:+ rest).
  by rewrite consumed_append.
Qed.

Lemma endswith_append s p : Py.endswith (s +:+ p) p = true.
Proof.
  induction s as [|a s IH].
  - rewrite append_empty. destruct p; cbn [Py.endswith]; by rewrite String.eqb_refl.
  - rewrite append_cons. cbn [Py.endswith]. rewrite IH. by destruct (String.eqb _ _).
Qed.

Lemma is_wrapped_on_wrapped s : Uwi.Old.is_wrapped_uwi ("00/" +:+ s +:+ "/0") = true.
Proof.
  unfold Uwi.Old.is_wrapped_uwi.
  apply andb_true_intro. split; [reflexivity|].
  rewrite <- (append_assoc "00/" s "/0"). apply endswith_append.
Qed.

Lemma strip_on_wrapped s : Py.strip ("00/" +:+ s +:+ "/0") = "00/" +:+ s +:+ "/0".
Proof.
  change ("00/" +:+ s +:+ "/0") with (String "0" ("0/" +:+ s +:+ ("/" +:+ "0"))).
  rewrite <- (append_assoc s "/" "0"), <- (append_assoc "0/" (s +:+ "/") "0").
  by apply strip_fixed.
Qed.

Lemma wrapping_changes s : s <> "00/" +:+ s +:+ "/0".
Proof.
  intros E. apply (f_equal String.length) in E.
  rewrite !length_append in E. simpl in E. lia.
Qed.

Lemma list_of_append s t :
  list_ascii_of_string (s +:+ t) = list_ascii_of_string s ++ list_ascii_of_string t.
Proof.
  induction s as [|a s IH]; [done|]. rewrite append_cons. cbn. by rewrite IH.
Qed.

Lemma substr_on_wrapped s : Py.substr ("00/" +:+ s +:+ "/0") 3 (-2) = s.
Proof.
  unfold Py.substr, Py.slice, Py.clip, Py.len.
  rewrite !list_of_append, !length_app. cbn [list_ascii_of_string length].
  set (n := length (list_ascii_of_string s)).
  destruct (Z.ltb_spec 3 0); [lia|]. destruct (Z.ltb_spec (-2) 0); [|lia].
  rewrite Z.min_l, Z.max_l by lia.
  replace (Z.to_nat 3) with 3%nat by done. cbn [drop app].
  replace (Z.to_nat _) with n by lia. unfold n.
  rewrite drop_0, take_app_length. apply string_of_list_ascii_of_string.
Qed.

(** X1. The pair of [old/scraping.py] round-trips on every entry:
    unwrapping the wrapped form gives the short form, and wrapping twice
    is wrapping once. *)
Lemma old_short_wrapped_roundtrip u :
  Uwi.Old.to_short_uwi (Uwi.Old.wrap_uwi u) = Uwi.Old.to_short_uwi u /\
  Uwi.Old.wrap_uwi (Uwi.Old.wrap_uwi u) = Uwi.Old.wrap_uwi u.
Proof.
  assert (H : Uwi.Old.to_short_uwi (Uwi.Old.wrap_uwi u) = Uwi.Old.to_short_uwi u).
  { unfold Uwi.Old.wrap_uwi. unfold Uwi.Old.to_short_uwi at 1.
    by rewrite strip_on_wrapped, is_wrapped_on_wrapped, substr_on_wrapped. }
  split; [done|]. unfold Uwi.Old.wrap_uwi at 1 3. by rewrite H.
Qed.

(** C5 (amended). The loader's [wrap_uwi] and the scraper's
    [ensure_wrapped] agree on an entry exactly when its stripped form
    passes both wrapped tests or neither: the loader tests for the prefix
    ["00/"] and the suffix ["/0"], the scraper matches [WRAPPED_RE].
    [wrap_uwi] returns the stripped entry unchanged only under its own
    test, and ["00/" + stripped entry + "/0"] otherwise; both return an
    entry ["00/" + body + "/0"] unchanged when the body is non-empty and
    has no line feed. *)
Theorem wrap_uwi_agrees_with_ensure_wrapped u :
  (Uwi.wrap_uwi u = Uwi.ensure_wrapped u <->
     Uwi.Old.is_wrapped_uwi (Py.strip u) = Uwi.wrapped_match (Py.strip u)) /\
  (Uwi.wrap_uwi u = Py.strip u <-> Uwi.Old.is_wrapped_uwi (Py.strip u) = true) /\
  (Uwi.Old.is_wrapped_uwi (Py.strip u) = false ->
     Uwi.wrap_uwi u = "00/" +:+ Py.strip u +:+ "/0") /\
  (forall a body, u = "00/" +:+ String a body +:+ "/0" ->
     Py.count (String a body) "010" = 0 ->
     Uwi.wrap_uwi u = u /\ Uwi.ensure_wrapped u = u).
Proof.
  assert (Hw : Uwi.wrap_uwi u =
               if Uwi.Old.is_wrapped_uwi (Py.strip u) then Py.strip u
               else "00/" +:+ Py.strip u +:+ "/0") by reflexivity.
  assert (He : Uwi.ensure_wrapped u =
               if Uwi.wrapped_match (Py.strip u) then Py.strip u
               else "00/" +:+ Py.strip u +:+ "/0").
  { unfold Uwi.ensure_wrapped, Uwi.wrapped_match. by destruct (Re.match_ _ _). }
  pose proof (wrapping_changes (Py.strip u)) as Hne.
  split_and!.
  - rewrite Hw, He.
    destruct (Uwi.Old.is_wrapped_uwi _), (Uwi.wrapped_match _); split; congruence.
  - rewrite Hw. destruct (Uwi.Old.is_wrapped_uwi _); split; congruence.
  - intros Hno. by rewrite Hw, Hno.
  - intros a body -> Hbody. rewrite Hw, He, strip_on_wrapped.
    rewrite is_wrapped_on_wrapped. unfold Uwi.wrapped_match.
    by rewrite wrapped_re_on_wrapped.
Qed.

Lemma wrap_uwi_agrees_with_ensure_wrapped_witness :
  Uwi.Old.is_wrapped_uwi (Py.strip " 06-12-045-08W5 ") = false /\
  Uwi.wrap_uwi " 06-12-045-08W5 " = "00/06-12-045-08W5/0" /\
  Uwi.wrap_uwi " 06-12-045-08W5 " = Uwi.ensure_wrapped " 06-12-045-08W5 " /\
  Uwi.wrap_uwi "00/06-12-045-08W5/0" = "00/06-12-045-08W5/0" /\
  Uwi.ensure_wrapped "00/06-12-045-08W5/0" = "00/06-12-045-08W5/0".
Proof.
  pose proof (wrap_uwi_agrees_with_ensure_wrapped " 06-12-045-08W5 ") as (Hagree & _ & Hwrap & _).
  pose proof (wrap_uwi_agrees_with_ensure_wrapped "00/06-12-045-08W5/0") as (_ & _ & _ & Hkept).
  split; [reflexivity|]. split; [exact (Hwrap eq_refl)|].
  split; [apply Hagree; reflexivity|].
  apply (Hkept "0"%char "6-12-045-08W5"); reflexivity.
Defined.

(** C5, as stated, fails: a wrapped entry whose prefix is not ["00"] is
    kept by [ensure_wrapped] and wrapped once more by [wrap_uwi]. *)
Lemma wrap_uwi_rewraps_wrapped_entry :
  Uwi.wrapped_match "02/06-12-045-08W5/0" = true /\
  Uwi.ensure_wrapped "02/06-12-045-08W5/0" = "02/06-12-045-08W5/0" /\
  Uwi.wrap_uwi "02/06-12-045-08W5/0" = "00/02/06-12-045-08W5/0/0".
Proof. by vm_compute. Qed.

(** C6 (amended). For an entry whose stripped form is non-empty, has no
    line feed and does not match [WRAPPED_RE], [to_short_uwi] undoes
    [ensure_wrapped] up to stripping, and [ensure_wrapped] is
    idempotent. *)
Theorem short_wrapped_roundtrip u :
  Py.strip u <> EmptyString ->
  Uwi.wrapped_match (Py.strip u) = false ->
  Py.count (Py.strip u) "010" = 0 ->
  Uwi.to_short_uwi (Uwi.ensure_wrapped u) = Py.strip u /\
  Uwi.ensure_wrapped (Uwi.ensure_wrapped u) = Uwi.ensure_wrapped u.
Proof.
  intros Hne Hm Hlf.
  destruct (Py.strip u) as [|a s] eqn:E; [done|].
  assert (He : Uwi.ensure_wrapped u = "00/" +:+ String a s +:+ "/0").
  { unfold Uwi.ensure_wrapped, Uwi.wrapped_match in *. rewrite E in *.
    by destruct (Re.match_ _ _). }
  rewrite He. unfold Uwi.to_short_uwi, Uwi.ensure_wrapped.
  rewrite strip_on_wrapped, wrapped_re_on_wrapped by done.
  split; [|done].
  unfold Re.group. by rewrite lookup_insert_ne, lookup_insert_eq.
Qed.

Lemma short_wrapped_roundtrip_witness :
  Uwi.to_short_uwi (Uwi.ensure_wrapped " 01-01-099-14W4 ") = Py.strip " 01-01-099-14W4 " /\
  Uwi.ensure_wrapped (Uwi.ensure_wrapped " 01-01-099-14W4 ")
  = Uwi.ensure_wrapped " 01-01-099-14W4 ".
Proof.
  apply (short_wrapped_roundtrip " 01-01-099-14W4 "); by vm_compute.
Defined.

(** C6, as stated, fails on an entry with a line feed inside: [.+] does
    not cross it, so the wrapped form is not recognised, is returned
    whole by [to_short_uwi] and is wrapped again by [ensure_wrapped]. *)
Lemma roundtrip_fails_across_lines :
  Py.strip Uwi.two_line_entry = Uwi.two_line_entry /\
  Uwi.wrapped_match (Py.strip Uwi.two_line_entry) = false /\
  Uwi.to_short_uwi (Uwi.ensure_wrapped Uwi.two_line_entry)
  = "00/" +:+ Uwi.two_line_entry +:+ "/0" /\
  Uwi.ensure_wrapped (Uwi.ensure_wrapped Uwi.two_line_entry)
  = "00/00/" +:+ Uwi.two_line_entry +:+ "/0/0".
Proof. by vm_compute. Qed.

End UwiFacts.

(** ** Delimiter detection *)

Section DelimFacts.
Variable set_iter : list Z -> list Z.
Hypothesis set_iter_ok : Delim.set_order set_iter.

Lemma max_key_some key (it : list Z) :
  it <> [] -> exists x, Py.max_key key it = Some x.
Proof.
  destruct it as [|x r]; [done|]. intros _. simpl.
  destruct (Py.max_key key r) as [y|]; [|by eexists].
  destruct (key x <? key y); by eexists.
Qed.

Lemma set_iter_nonempty (cols : list Z) : cols <> [] -> set_iter cols <> [].
Proof.
  intros Hc Hs. pose proof (set_iter_ok cols) as Hp. rewrite Hs in Hp.
  apply Permutation_nil in Hp.
  destruct cols as [|c cols]; [done|].
  assert (c ∈ remove_dups (c :: cols)) as Hin by (apply elem_of_remove_dups; left).
  rewrite Hp in Hin. by apply elem_of_nil in Hin.
Qed.

(** A round never raises on a non-empty list of lines, and the best
    delimiter after it is the candidate tried or the one before. *)
Lemma round_some lines b d :
  lines <> [] ->
  exists b', Delim.round set_iter lines (Some b) d = Some b' /\
    (Delim.best_delim b' = d \/ Delim.best_delim b' = Delim.best_delim b).
Proof.
  intros Hl. unfold Delim.round.
  set (cols := map _ lines).
  destruct (max_key_some (Py.count_of cols) (set_iter cols)) as [modal ->].
  { apply set_iter_nonempty. unfold cols. by destruct lines. }
  eexists. split; [done|]. destruct (Delim.improves _ _ _); auto.
Qed.

Lemma rounds_candidate lines :
  lines <> [] ->
  exists b, fold_left (Delim.round set_iter lines) Delim.CANDIDATE_DELIMS
              (Some (Delim.Best "," None 0)) = Some b /\
            Delim.best_delim b ∈ Delim.CANDIDATE_DELIMS.
Proof.
  intros Hl. unfold Delim.CANDIDATE_DELIMS. cbn [fold_left].
  destruct (round_some lines (Delim.Best "," None 0) "," Hl) as (b1 & -> & H1).
  destruct (round_some lines b1 ";" Hl) as (b2 & -> & H2).
  destruct (round_some lines b2 "009" Hl) as (b3 & -> & H3).
  destruct (round_some lines b3 "|" Hl) as (b4 & -> & H4).
  exists b4. split; [done|]. cbn in H1.
  rewrite !elem_of_cons.
  destruct H4 as [-> | ->]; [tauto|].
  destruct H3 as [-> | ->]; [tauto|].
  destruct H2 as [-> | ->]; [tauto|].
  destruct H1 as [->| ->]; tauto.
Qed.

(** C7 (amended). Both detectors always return one of the four
    candidate delimiters, the comma when the text has no non-blank line,
    and they return the same delimiter on every text with at most fifty
    non-blank lines. *)
Theorem detectors_agree_up_to_fifty_lines text :
  (exists d, Delim.detect_delimiter set_iter text = Some d /\ d ∈ Delim.CANDIDATE_DELIMS) /\
  (exists d, Delim._detect_delimiter set_iter text = Some d /\ d ∈ Delim.CANDIDATE_DELIMS) /\
  (Delim.nonblank_lines text = [] ->
     Delim.detect_delimiter set_iter text = Some ","%char /\
     Delim._detect_delimiter set_iter text = Some ","%char) /\
  ((length (Delim.nonblank_lines text) <= 50)%nat ->
     Delim.detect_delimiter set_iter text = Delim._detect_delimiter set_iter text).
Proof.
  assert (Hany : forall lines : list string,
    exists d, match lines with
              | [] => Some ","%char
              | _ => Delim.best_delim <$>
                       fold_left (Delim.round set_iter lines) Delim.CANDIDATE_DELIMS
                         (Some (Delim.Best "," None 0))
              end = Some d /\ d ∈ Delim.CANDIDATE_DELIMS).
  { intros [|l lines].
    - exists ","%char. split; [done|]. by left.
    - destruct (rounds_candidate (l :: lines)) as (b & -> & Hb); [done|].
      by exists (Delim.best_delim b). }
  split_and!.
  - apply Hany.
  - apply Hany.
  - intros E. unfold Delim.detect_delimiter, Delim._detect_delimiter. by rewrite E.
  - intros Hlen. unfold Delim.detect_delimiter, Delim._detect_delimiter.
    by rewrite !take_ge by lia.
Qed.

End DelimFacts.

Lemma remove_dups_set_order : Delim.set_order remove_dups.
Proof. by intros cols. Qed.

Lemma set_iter_constant set_iter (n : nat) (c : Z) :
  Delim.set_order set_iter -> set_iter (replicate (S n) c) = [c].
Proof.
  intros H. apply Permutation_singleton_r. rewrite (H _).
  assert (Hd : forall m, remove_dups (replicate (S m) c) = [c]).
  { induction m as [|m IH]; [done|].
    change (replicate (S (S m)) c) with (c :: replicate (S m) c).
    cbn [remove_dups]. rewrite IH.
    destruct (decide_rel _ _ _) as [_|Hn]; [done|].
    exfalso. apply Hn. left. }
  by rewrite Hd.
Qed.

Lemma set_iter_two_values set_iter (n : nat) (c d : Z) :
  Delim.set_order set_iter -> c <> d ->
  set_iter (replicate (S n) c ++ [d]) = [c; d] \/
  set_iter (replicate (S n) c ++ [d]) = [d; c].
Proof.
  intros H Hcd.
  assert (Hd : forall m, remove_dups (replicate (S m) c ++ [d]) = [c; d]).
  { induction m as [|m IH].
    - cbn. destruct (decide_rel _ _ _) as [Hin|_]; [|done].
      apply list_elem_of_singleton in Hin. done.
    - change (replicate (S (S m)) c ++ [d]) with (c :: (replicate (S m) c ++ [d])).
      cbn [remove_dups]. rewrite IH.
      destruct (decide_rel _ _ _) as [_|Hn]; [done|].
      exfalso. apply Hn. apply elem_of_app. left. left. }
  pose proof (H (replicate (S n) c ++ [d])) as Hp. rewrite Hd in Hp.
  symmetry in Hp. apply Permutation_length_2_inv in Hp. tauto.
Qed.

(** A round in which the iteration order of the set is known. *)
Lemma round_with set_iter lines b d cols it modal b' :
  map (fun ln => Py.count ln d + 1) lines = cols ->
  set_iter cols = it ->
  Py.max_key (Py.count_of cols) it = Some modal ->
  (if Delim.improves (Py.sum (map (fun c => (c - modal) ^ 2) cols)) modal b
   then Delim.Best d (Some (Py.sum (map (fun c => (c - modal) ^ 2) cols))) modal
   else b) = b' ->
  Delim.round set_iter lines (Some b) d = Some b'.
Proof. intros <- <- Hm <-. unfold Delim.round. by rewrite Hm. Qed.

Ltac round_step E :=
  erewrite round_with;
  [ | vm_compute; reflexivity | exact E
    | vm_compute; reflexivity | vm_compute; reflexivity ].

(** C7, as stated, fails: line 51 is read by the loader's detector
    (limit 60) and not by the scraper's (limit 50), whatever the
    iteration order of sets. *)
Lemma detectors_differ_on_line_51 :
  length (Delim.nonblank_lines Delim.fifty_one_lines) = 51%nat /\
  forall set_iter, Delim.set_order set_iter ->
    Delim.detect_delimiter set_iter Delim.fifty_one_lines = Some ","%char /\
    Delim._detect_delimiter set_iter Delim.fifty_one_lines = Some ";"%char.
Proof.
  split; [by vm_compute|]. intros set_iter H.
  pose proof (set_iter_constant set_iter 50 1 H) as E51.
  pose proof (set_iter_constant set_iter 49 1 H) as E50.
  pose proof (set_iter_constant set_iter 49 2 H) as T50.
  split.
  - unfold Delim.detect_delimiter.
    replace (take 60 (Delim.nonblank_lines Delim.fifty_one_lines))
      with (replicate 50 "a;b" ++ ["a"]) by (by vm_compute).
    cbn [replicate app fold_left Delim.CANDIDATE_DELIMS].
    round_step E51.
    destruct (set_iter_two_values set_iter 49 2 1 H ltac:(lia)) as [T51|T51];
      round_step T51; round_step E51; round_step E51; reflexivity.
  - unfold Delim._detect_delimiter.
    replace (take 50 (Delim.nonblank_lines Delim.fifty_one_lines))
      with (replicate 50 "a;b") by (by vm_compute).
    cbn [replicate app fold_left Delim.CANDIDATE_DELIMS].
    round_step E50. round_step T50. round_step E50. round_step E50.
    reflexivity.
Qed.

Lemma detectors_agree_up_to_fifty_lines_witness :
  (exists d, Delim.detect_delimiter remove_dups "a|b" = Some d /\ d ∈ Delim.CANDIDATE_DELIMS) /\
  (exists d, Delim._detect_delimiter remove_dups "a|b" = Some d /\ d ∈ Delim.CANDIDATE_DELIMS) /\
  (Delim.nonblank_lines "a|b" = [] ->
     Delim.detect_delimiter remove_dups "a|b" = Some ","%char /\
     Delim._detect_delimiter remove_dups "a|b" = Some ","%char) /\
  ((length (Delim.nonblank_lines "a|b") <= 50)%nat ->
     Delim.detect_delimiter remove_dups "a|b" = Delim._detect_delimiter remove_dups "a|b").
Proof.
  exact (detectors_agree_up_to_fifty_lines remove_dups remove_dups_set_order "a|b").
Defined.

(** ** Per-well state *)

Section StateFacts.
Import State.
Implicit Types (st : WellState) (ds : gmap string Dashboard)
  (files : gmap string FileMeta) (clk : Clock).

Lemma setdefault_insert {V} (m : gmap string V) k v w :
  <[k := w]> (setdefault m k v).2 = <[k := w]> m.
Proof.
  unfold setdefault. destruct (m !! k); [done|]. cbn. apply insert_insert_eq.
Qed.

Lemma setdefault_fst {V} (m : gmap string V) k v :
  (setdefault m k v).1 = default v (m !! k).
Proof. unfold setdefault. by destruct (m !! k). Qed.

(** [state_mark_sheet_complete] in closed form. *)
Lemma state_mark_sheet_complete_unfold clk stored label dash sheet key :
  state_mark_sheet_complete clk stored label dash sheet key =
  let st := state_load clk stored label in
  match dashboards st with
  | None => None
  | Some ds =>
      match d_files (default new_dashboard (ds !! dash)) with
      | None => None
      | Some files =>
          state_save clk
            (set_dashboards st (<[dash := done_dashboard clk files sheet key]> ds))
      end
  end.
Proof.
  unfold state_mark_sheet_complete. cbn zeta.
  destruct (dashboards (state_load clk stored label)) as [ds|]; [|done].
  pose proof (setdefault_fst ds dash new_dashboard) as H1.
  pose proof (setdefault_insert ds dash new_dashboard) as H2.
  destruct (setdefault ds dash new_dashboard) as [d ds']. cbn in H1, H2. subst d.
  destruct (d_files (default new_dashboard (ds !! dash))) as [files|]; [|done].
  pose proof (setdefault_insert files sheet new_file) as H3.
  destruct (setdefault files sheet new_file) as [f files']. cbn in H3.
  unfold done_dashboard, done_file. rewrite H2. unfold set_status, set_last_update, set_files.
  cbn. by rewrite !H3.
Qed.

Lemma state_load_dashboards clk stored label :
  exists ds, dashboards (state_load clk stored label) = Some ds.
Proof. destruct stored; cbn; eauto. Qed.

(** Loading what a call has saved changes nothing. *)
Lemma state_load_saved clk clk' stored label st ds :
  state_save clk (set_dashboards (state_load clk stored label) ds) = Some st ->
  state_load clk' (Some st) label = st.
Proof.
  unfold state_save. destruct (well_label _) eqn:E; [|done].
  intros [= <-]. by destruct stored.
Qed.

(** A second run of [state_mark_sheet_complete], on the state the first
    saved, against the first. *)
Lemma mark_twice clk1 clk2 stored label dash sheet key :
  forget_times dash <$>
    (state_mark_sheet_complete clk1 stored label dash sheet key ≫=
       fun st1 => state_mark_sheet_complete clk2 (Some st1) label dash sheet key)
  = forget_times dash <$> state_mark_sheet_complete clk1 stored label dash sheet key
  /\
  forall st,
    state_mark_sheet_complete clk1 stored label dash sheet key = Some st \/
    (state_mark_sheet_complete clk1 stored label dash sheet key ≫=
       fun st1 => state_mark_sheet_complete clk2 (Some st1) label dash sheet key) = Some st ->
    exists ds d files,
      dashboards st = Some ds /\ ds !! dash = Some d /\ d_files d = Some files /\
      files !! sheet = Some {| f_status := Some "complete"; f_s3_key := Some key |}.
Proof.
  assert (Hshape : forall clk stored st,
    state_mark_sheet_complete clk stored label dash sheet key = Some st ->
    exists ds files,
      state_save clk (set_dashboards (state_load clk stored label)
                        (<[dash := done_dashboard clk files sheet key]> ds)) = Some st /\
      dashboards (state_load clk stored label) = Some ds /\
      d_files (default new_dashboard (ds !! dash)) = Some files).
  { intros clk sto st. rewrite state_mark_sheet_complete_unfold. cbn zeta.
    destruct (dashboards _) as [ds|]; [|done].
    destruct (d_files _) as [files|] eqn:Ef; [|done]. eauto. }
  assert (Hentry : forall clk stored st,
    state_mark_sheet_complete clk stored label dash sheet key = Some st ->
    exists ds d files,
      dashboards st = Some ds /\ ds !! dash = Some d /\ d_files d = Some files /\
      files !! sheet = Some (done_file key)).
  { intros clk sto st (ds & files & Hsave & _ & _)%Hshape.
    unfold state_save in Hsave. destruct (well_label _); [|done].
    injection Hsave as <-. cbn.
    eexists _, _, _. split_and!; [done|apply lookup_insert_eq|done|apply lookup_insert_eq]. }
  destruct (state_mark_sheet_complete clk1 stored label dash sheet key) as [st1|] eqn:E1;
    cbn [mbind option_bind fmap option_fmap option_map]; [|split; [done|]].
  2:{ intros st [?|?]; done. }
  destruct (Hshape _ _ _ E1) as (ds & files & Hsave & Hds & Hfiles).
  assert (E2 : state_mark_sheet_complete clk2 (Some st1) label dash sheet key =
    Some (set_updated_at
            (set_dashboards st1 (<[dash := done_dashboard clk2 files sheet key]> ds))
            (t_save clk2))).
  { rewrite state_mark_sheet_complete_unfold. cbn zeta.
    rewrite (state_load_saved _ _ _ _ _ _ Hsave).
    unfold state_save in Hsave |- *. destruct (well_label _) eqn:El in Hsave; [|done].
    injection Hsave as <-. cbn. rewrite lookup_insert_eq. cbn.
    cbn in El. rewrite El. unfold set_dashboards, set_updated_at, done_dashboard. cbn.
    by rewrite !insert_insert_eq. }
  split.
  - rewrite E2. cbn. f_equal.
    unfold state_save in Hsave. destruct (well_label _) eqn:El in Hsave; [|done].
    injection Hsave as <-. unfold forget_times. cbn.
    by rewrite !alter_insert_eq.
  - intros st [[= <-]|Hst]; [by eapply Hentry|].
    eapply Hentry. exact Hst.
Qed.

(** The two functions that mark go through exactly on a stored state
    that has the keys they subscript. *)
Lemma markable_sheet clk stored label dash sheet key :
  is_Some (state_mark_sheet_complete clk stored label dash sheet key) <->
  markable stored dash = true.
Proof.
  unfold state_mark_sheet_complete, markable, state_save, setdefault.
  destruct stored as [obj|]; cbn.
  - destruct (default ∅ (dashboards obj) !! dash) as [d|] eqn:Ed; cbn.
    + destruct (d_files d) as [files|]; cbn.
      * destruct (files !! sheet); cbn; destruct (well_label obj); cbn;
          rewrite ?andb_true_r; split; (done || by intros [? [=]] || by eauto).
      * rewrite andb_false_r. split; [by intros [? [=]]|done].
    + destruct (well_label obj); cbn; split; (done || by intros [? [=]] || by eauto).
  - split; [done|]. by eauto.
Qed.

Lemma markable_done clk stored label dash :
  is_Some (state_mark_dashboard_done clk stored label dash) <->
  markable stored dash = true.
Proof.
  unfold state_mark_dashboard_done, markable, state_save, setdefault.
  destruct stored as [obj|]; cbn.
  - destruct (default ∅ (dashboards obj) !! dash) as [d|] eqn:Ed; cbn.
    + destruct (d_files d) as [files|]; cbn.
      * destruct (well_label obj); cbn;
          rewrite ?andb_true_r; split; (done || by intros [? [=]] || by eauto).
      * rewrite andb_false_r. split; [by intros [? [=]]|done].
    + destruct (well_label obj); cbn; split; (done || by intros [? [=]] || by eauto).
  - split; [done|]. by eauto.
Qed.

(** [process_dashboard] saves the state that
    [state_list_incomplete_sheets] has completed before it marks
    anything; the state so saved has the keys. *)
Lemma markable_listed clk st dash (all_sheets : list string) res st' saved :
  state_list_incomplete_sheets st dash all_sheets = Some (res, st') ->
  state_save clk st' = Some saved ->
  markable (Some saved) dash = true.
Proof.
  unfold state_list_incomplete_sheets, state_save, markable.
  destruct (dashboards st) as [ds|]; [|done].
  destruct (setdefault ds dash new_dashboard) as [d ds'].
  intros [= _ <-]. cbn. destruct (well_label st) eqn:El; [|done].
  intros [= <-]. cbn. by rewrite El, lookup_insert_eq.
Qed.

(** The states that the program writes are well formed, from nothing
    stored onwards, and a well-formed state has the keys for every
    dashboard. *)
Lemma well_formed_markable stored dash :
  well_formed_stored stored -> markable stored dash = true.
Proof.
  destruct stored as [obj|]; [|done]. intros [Hl Hd]. cbn.
  rewrite bool_decide_eq_true_2 by done. cbn.
  destruct (default ∅ (dashboards obj) !! dash) as [d|] eqn:E; [|done].
  apply bool_decide_eq_true_2. by eapply Hd.
Qed.

Lemma well_formed_load clk stored label :
  well_formed_stored stored -> well_formed (state_load clk stored label).
Proof.
  destruct stored as [obj|]; cbn.
  - intros [Hl Hd]. by split.
  - intros _. split; [by eexists|]. cbn. intros dash d. by rewrite lookup_empty.
Qed.

Lemma well_formed_insert st ds dash d :
  well_formed st -> dashboards st = Some ds -> is_Some (d_files d) ->
  well_formed (set_dashboards st (<[dash := d]> ds)).
Proof.
  intros [Hl Hd] Hds Hf. split; [done|]. cbn. intros dash' d'.
  destruct (decide (dash = dash')) as [<-|Hne].
  - rewrite lookup_insert_eq. by intros [= <-].
  - rewrite lookup_insert_ne by done. intros H. apply (Hd dash'). by rewrite Hds.
Qed.

Lemma well_formed_save clk st saved :
  well_formed st -> state_save clk st = Some saved -> well_formed saved.
Proof.
  unfold state_save. cbn. intros [Hl Hd]. destruct (well_label st) eqn:El; [|done].
  intros [= <-]. split; cbn; [by rewrite El|done].
Qed.

Lemma saved_states_well_formed clk stored label dash sheet key
    (all_sheets : list string) raw wrapped :
  well_formed_stored stored ->
  (forall st, state_mark_sheet_complete clk stored label dash sheet key = Some st ->
     well_formed st) /\
  (forall st, state_mark_dashboard_done clk stored label dash = Some st -> well_formed st) /\
  (forall res st' st,
     state_list_incomplete_sheets (state_load clk stored label) dash all_sheets
     = Some (res, st') ->
     state_save clk st' = Some st -> well_formed st) /\
  (forall st,
     state_ensure_well clk (from_option JsonObject NoJson stored) raw wrapped label = Some st ->
     well_formed st).
Proof.
  intros Hwf. pose proof (well_formed_load clk stored label Hwf) as Hload.
  destruct (state_load_dashboards clk stored label) as [ds Hds].
  split_and!.
  - intros st. rewrite state_mark_sheet_complete_unfold. cbn zeta. rewrite Hds.
    destruct (d_files _) as [files|]; [|done].
    intros Hs. eapply well_formed_save; [|exact Hs].
    apply well_formed_insert; [done|done|by eexists].
  - intros st. unfold state_mark_dashboard_done. cbn zeta. rewrite Hds.
    destruct (setdefault ds dash new_dashboard) as [d ds'] eqn:Hsd.
    destruct (d_files d) as [files|] eqn:Hf; [|done].
    intros Hs. eapply well_formed_save; [|exact Hs].
    replace ds' with (setdefault ds dash new_dashboard).2 by (by rewrite Hsd).
    rewrite setdefault_insert.
    apply well_formed_insert; [done|done|]. cbn. by rewrite Hf.
  - intros res st' st. unfold state_list_incomplete_sheets. rewrite Hds.
    destruct (setdefault ds dash new_dashboard) as [d ds'] eqn:Hsd.
    intros [= _ <-] Hs. eapply well_formed_save; [|exact Hs].
    replace ds' with (setdefault ds dash new_dashboard).2 by (by rewrite Hsd).
    rewrite setdefault_insert.
    apply well_formed_insert; [done|done|by eexists].
  - intros st. unfold state_ensure_well.
    replace (state_load_text clk (from_option JsonObject NoJson stored) label)
      with (Some (state_load clk stored label)) by (by destruct stored).
    cbn [mbind option_bind]. unfold state_save. cbn [well_label set_updated_at].
    intros [= <-]. split; [by eexists|]. cbn. apply Hload.
Qed.

(** C2. [state_mark_sheet_complete] goes through exactly on a stored
    state that has the keys it subscripts (["well_label"], and ["files"]
    in the dashboard's entry if there is one; nothing stored counts), as
    every state has that the program writes. On such a state the first
    run saves a state, which again has these keys; the second run, on
    the state the first saved and with the same arguments, saves a state
    equal to it up to ["updated_at"] and the dashboard's
    ["last_update"]; and in both the sheet's entry has status
    ["complete"] and the given [s3_key]. On any stored state, the second
    run raises only when the first does, and whatever either saves has
    that entry. *)
Theorem state_mark_sheet_complete_idempotent clk1 clk2 stored label dash sheet key :
  (is_Some (state_mark_sheet_complete clk1 stored label dash sheet key) <->
   markable stored dash = true) /\
  (markable stored dash = true ->
   exists st1 st2,
     state_mark_sheet_complete clk1 stored label dash sheet key = Some st1 /\
     state_mark_sheet_complete clk2 (Some st1) label dash sheet key = Some st2 /\
     markable (Some st1) dash = true /\
     forget_times dash st2 = forget_times dash st1 /\
     forall st, st = st1 \/ st = st2 ->
       exists ds d files,
         dashboards st = Some ds /\ ds !! dash = Some d /\ d_files d = Some files /\
         files !! sheet = Some {| f_status := Some "complete"; f_s3_key := Some key |}) /\
  forget_times dash <$>
    (state_mark_sheet_complete clk1 stored label dash sheet key ≫=
       fun st1 => state_mark_sheet_complete clk2 (Some st1) label dash sheet key)
  = forget_times dash <$> state_mark_sheet_complete clk1 stored label dash sheet key
  /\
  forall st,
    state_mark_sheet_complete clk1 stored label dash sheet key = Some st \/
    (state_mark_sheet_complete clk1 stored label dash sheet key ≫=
       fun st1 => state_mark_sheet_complete clk2 (Some st1) label dash sheet key) = Some st ->
    exists ds d files,
      dashboards st = Some ds /\ ds !! dash = Some d /\ d_files d = Some files /\
      files !! sheet = Some {| f_status := Some "complete"; f_s3_key := Some key |}.
Proof.
  destruct (mark_twice clk1 clk2 stored label dash sheet key) as [Htwice Hentry].
  split; [apply markable_sheet|]. split; [|by split].
  intros Hok.
  destruct (proj2 (markable_sheet clk1 stored label dash sheet key) Hok) as [st1 E1].
  rewrite E1 in Htwice, Hentry.
  cbn [mbind option_bind fmap option_fmap option_map] in Htwice, Hentry.
  destruct (state_mark_sheet_complete clk2 (Some st1) label dash sheet key) as [st2|] eqn:E2;
    cbn [fmap option_fmap option_map] in Htwice; [|done].
  apply (inj Some) in Htwice.
  exists st1, st2. split_and!; [done|done| |done|].
  - apply (markable_sheet clk2 _ label dash sheet key). by rewrite E2.
  - intros st [->| ->]; apply Hentry; auto.
Qed.

Lemma status_of_complete b : Some (status_of b) = Some "complete" <-> b = true.
Proof. destruct b; cbn; split; (done || intros [=]). Qed.

Lemma all_complete_spec files :
  all_complete files = true <->
  map_Forall (fun _ meta => f_status meta = Some "complete") files.
Proof.
  unfold all_complete. case_bool_decide as Hem.
  - subst files. split; [intros _; apply map_Forall_empty|done].
  - rewrite map_Forall_to_list, forallb_forall, Forall_forall.
    split.
    + intros H [k meta] Hin. cbn.
      assert (Hs : In meta (snd <$> map_to_list files)).
      { apply list_elem_of_In, list_elem_of_fmap. exists (k, meta).
        by split. }
      specialize (H _ Hs). unfold is_complete in H. by apply bool_decide_eq_true in H.
    + intros H meta Hin.
      apply list_elem_of_In, list_elem_of_fmap in Hin as ([k m] & -> & Hin).
      specialize (H _ Hin). cbn in H |- *.
      unfold is_complete. by apply bool_decide_eq_true.
Qed.

(** C9. [state_mark_sheet_complete] and [state_mark_dashboard_done] go
    through exactly on a stored state that has the keys they subscript,
    and a state that either saves has the dashboard's ["status"] at
    ["complete"] exactly when every entry of its ["files"] map has
    status ["complete"]; an empty map counts as complete. *)
Theorem dashboard_status_invariant clk stored label dash sheet key :
  (is_Some (state_mark_sheet_complete clk stored label dash sheet key) <->
   markable stored dash = true) /\
  (is_Some (state_mark_dashboard_done clk stored label dash) <->
   markable stored dash = true) /\
  forall st,
    state_mark_sheet_complete clk stored label dash sheet key = Some st \/
    state_mark_dashboard_done clk stored label dash = Some st ->
    exists ds d files,
      dashboards st = Some ds /\ ds !! dash = Some d /\ d_files d = Some files /\
      (d_status d = Some "complete" <->
       map_Forall (fun _ meta => f_status meta = Some "complete") files).
Proof.
  split; [apply markable_sheet|]. split; [apply markable_done|].
  intros st [H|H].
  - rewrite state_mark_sheet_complete_unfold in H. cbn zeta in H.
    destruct (dashboards _) as [ds|]; [|done].
    destruct (d_files _) as [files|]; [|done].
    unfold state_save in H. destruct (well_label _); [|done].
    injection H as <-. cbn.
    eexists _, _, _. split_and!; [done|apply lookup_insert_eq|done|].
    cbn. by rewrite status_of_complete, all_complete_spec.
  - unfold state_mark_dashboard_done in H. cbn zeta in H.
    destruct (dashboards _) as [ds|]; [|done].
    destruct (setdefault ds dash new_dashboard) as [d ds'].
    destruct (d_files d) as [files|] eqn:Ef; [|done].
    unfold state_save in H. destruct (well_label _); [|done].
    injection H as <-. cbn.
    eexists _, _, _. split_and!; [done|apply lookup_insert_eq|exact Ef|].
    cbn. by rewrite status_of_complete, all_complete_spec.
Qed.

Lemma fold_setdefault_lookup {V} (l : list string) (m : gmap string V) v k :
  fold_left (fun fs s => (setdefault fs s v).2) l m !! k =
  match m !! k with
  | Some x => Some x
  | None => if decide (k ∈ l) then Some v else None
  end.
Proof.
  revert m. induction l as [|s l IH]; intros m; cbn [fold_left].
  - destruct (m !! k); [done|]. by rewrite decide_False by apply not_elem_of_nil.
  - rewrite IH. unfold setdefault.
    destruct (m !! s) eqn:Es; cbn.
    + destruct (m !! k) eqn:Ek; [done|].
      destruct (decide (k ∈ l)) as [Hin|Hin].
      * by rewrite decide_True by (by right).
      * rewrite decide_False; [done|].
        intros [->|?]%elem_of_cons; [congruence|done].
    + destruct (decide (s = k)) as [->|Hne].
      * rewrite lookup_insert_eq, Es. by rewrite decide_True by left.
      * rewrite lookup_insert_ne by done. destruct (m !! k); [done|].
        destruct (decide (k ∈ l)) as [Hin|Hin].
        -- by rewrite decide_True by (by right).
        -- rewrite decide_False; [done|].
           intros [->|?]%elem_of_cons; done.
Qed.

(** C4. On a state with a ["dashboards"] map,
    [state_list_incomplete_sheets] returns the sheets of the manifest, in
    manifest order, whose entry in the dashboard's ["files"] map is not
    at status ["complete"] (a missing entry counts as such); after the
    call every sheet of the manifest has an entry, a new one being
    [{"status": "incomplete", "s3_key": ""}], and entries that existed
    are kept. *)
Theorem state_list_incomplete_sheets_spec st dash (all_sheets : list string) ds :
  dashboards st = Some ds ->
  exists res st' ds' d' files',
    state_list_incomplete_sheets st dash all_sheets = Some (res, st') /\
    dashboards st' = Some ds' /\ ds' !! dash = Some d' /\ d_files d' = Some files' /\
    res = List.filter
            (fun s => negb (bool_decide ((files' !! s) ≫= f_status = Some "complete")))
            all_sheets /\
    res = List.filter
            (fun s => negb (bool_decide
               ((files_of ds dash !! s) ≫= f_status = Some "complete")))
            all_sheets /\
    (forall s, s ∈ all_sheets ->
       files' !! s = Some (default new_file (files_of ds dash !! s))) /\
    (forall s, s ∉ all_sheets -> files' !! s = files_of ds dash !! s).
Proof.
  intros Hds. unfold state_list_incomplete_sheets. rewrite Hds.
  pose proof (setdefault_fst ds dash new_dashboard) as H1.
  destruct (setdefault ds dash new_dashboard) as [d ds1]. cbn in H1. subst d.
  fold (files_of ds dash).
  set (files' := fold_left _ all_sheets (files_of ds dash)).
  assert (Hl : forall s, files' !! s =
     match files_of ds dash !! s with
     | Some x => Some x
     | None => if decide (s ∈ all_sheets) then Some new_file else None
     end) by (intros s; apply fold_setdefault_lookup).
  eexists _, _, _, _, files'. split_and!; [done|done|apply lookup_insert_eq|done|done| | |].
  - apply filter_ext_in_iff. intros s Hin%list_elem_of_In. f_equal.
    rewrite Hl. destruct (files_of ds dash !! s); [done|].
    rewrite decide_True by done. cbn. by rewrite !bool_decide_eq_false_2.
  - intros s Hin. rewrite Hl. destruct (files_of ds dash !! s); [done|].
    by rewrite decide_True.
  - intros s Hin. rewrite Hl. destruct (files_of ds dash !! s); [done|].
    by rewrite decide_False.
Qed.

End StateFacts.

Lemma state_mark_sheet_complete_idempotent_witness :
  State.markable (Some State.sample_state) "Well_Gas_Analysis" = true /\
  exists st1 st2,
    State.state_mark_sheet_complete State.sample_clock (Some State.sample_state)
      "01-01-099-14W4" "Well_Gas_Analysis" "Gas_Composition" "raw/Gas_Composition.csv"
      = Some st1 /\
    State.state_mark_sheet_complete State.sample_clock (Some st1)
      "01-01-099-14W4" "Well_Gas_Analysis" "Gas_Composition" "raw/Gas_Composition.csv"
      = Some st2 /\
    State.markable (Some st1) "Well_Gas_Analysis" = true /\
    State.forget_times "Well_Gas_Analysis" st2 = State.forget_times "Well_Gas_Analysis" st1 /\
    forall st, st = st1 \/ st = st2 ->
      exists ds d files,
        State.dashboards st = Some ds /\ ds !! "Well_Gas_Analysis" = Some d /\
        State.d_files d = Some files /\
        files !! "Gas_Composition"
        = Some {| State.f_status := Some "complete";
                  State.f_s3_key := Some "raw/Gas_Composition.csv" |}.
Proof.
  split; [reflexivity|].
  apply (proj1 (proj2 (state_mark_sheet_complete_idempotent State.sample_clock
                         State.sample_clock (Some State.sample_state) "01-01-099-14W4"
                         "Well_Gas_Analysis" "Gas_Composition" "raw/Gas_Composition.csv"))).
  reflexivity.
Defined.

Lemma dashboard_status_invariant_witness :
  exists st_sheet st_done,
    State.state_mark_sheet_complete State.sample_clock (Some State.sample_state)
      "01-01-099-14W4" "Well_Gas_Analysis" "Gas_Composition" "raw/Gas_Composition.csv"
      = Some st_sheet /\
    State.state_mark_dashboard_done State.sample_clock (Some State.sample_state)
      "01-01-099-14W4" "Well_Gas_Analysis" = Some st_done /\
    forall st, st = st_sheet \/ st = st_done ->
      exists ds d files,
        State.dashboards st = Some ds /\ ds !! "Well_Gas_Analysis" = Some d /\
        State.d_files d = Some files /\
        (State.d_status d = Some "complete" <->
         map_Forall (fun _ meta => State.f_status meta = Some "complete") files).
Proof.
  destruct (dashboard_status_invariant State.sample_clock (Some State.sample_state)
              "01-01-099-14W4" "Well_Gas_Analysis" "Gas_Composition"
              "raw/Gas_Composition.csv") as (Hsheet & Hdone & Hinv).
  destruct (proj2 Hsheet eq_refl) as [st_sheet Es].
  destruct (proj2 Hdone eq_refl) as [st_done Ed].
  exists st_sheet, st_done. split; [exact Es|]. split; [exact Ed|].
  intros st [->| ->]; apply Hinv; [by left|by right].
Defined.

Lemma state_list_incomplete_sheets_spec_witness :
  exists res st' ds' d' files',
    State.state_list_incomplete_sheets State.sample_state "Well_Gas_Analysis"
      ["Gas_Analysis"; "Gas_Composition"] = Some (res, st') /\
    State.dashboards st' = Some ds' /\ ds' !! "Well_Gas_Analysis" = Some d' /\
    State.d_files d' = Some files' /\
    res = List.filter
            (fun s => negb (bool_decide
               ((files' !! s) ≫= State.f_status = Some "complete")))
            ["Gas_Analysis"; "Gas_Composition"] /\
    res = List.filter
            (fun s => negb (bool_decide
               ((State.files_of State.sample_dashboards "Well_Gas_Analysis" !! s)
                  ≫= State.f_status = Some "complete")))
            ["Gas_Analysis"; "Gas_Composition"] /\
    (forall s, s ∈ ["Gas_Analysis"; "Gas_Composition"] ->
       files' !! s = Some (default State.new_file
                             (State.files_of State.sample_dashboards "Well_Gas_Analysis" !! s))) /\
    (forall s, s ∉ ["Gas_Analysis"; "Gas_Composition"] ->
       files' !! s = State.files_of State.sample_dashboards "Well_Gas_Analysis" !! s).
Proof.
  apply (state_list_incomplete_sheets_spec State.sample_state "Well_Gas_Analysis"
           ["Gas_Analysis"; "Gas_Composition"] State.sample_dashboards).
  reflexivity.
Defined.

Example sample_incomplete :
  fst <$> State.state_list_incomplete_sheets State.sample_state "Well_Gas_Analysis"
            ["Gas_Analysis"; "Gas_Composition"] = Some ["Gas_Composition"].
Proof. by vm_compute. Qed.

(** ** Locks *)

Section RcloneFacts.
Import Rclone.
Implicit Types (w : World) (c : Cmd).

Lemma start_eq c w : start c w = (next_exit w, after_run c w).
Proof. unfold next_exit, after_run, start. by destruct (script w). Qed.

Lemma remote_after_run c w : remote (after_run c w) = remote w.
Proof. unfold after_run, start. by destruct (script w). Qed.

Lemma trace_after_run c w : trace (after_run c w) = c :: trace w.
Proof. unfold after_run, start. by destruct (script w). Qed.

Lemma disk_after_run c w : disk (after_run c w) = disk w.
Proof. unfold after_run, start. by destruct (script w). Qed.

Lemma lsjson_eq path w : lsjson path w = (observed path w, after_run (Lsjson path) w).
Proof.
  unfold lsjson, observed, mbind, M_bind, get_remote, mret, M_ret.
  rewrite start_eq. cbn. rewrite remote_after_run. by destruct (next_exit w).
Qed.

Lemma observed_object path w o :
  remote w !! path = Some o -> next_exit w <> Failed ->
  observed path w =
    (next_exit w, [ {| Path := basename path; IsDir := false; ModTime := modtime_of o |} ]).
Proof.
  intros Ho Hex. unfold observed, listing. rewrite Ho. by destruct (next_exit w).
Qed.

End RcloneFacts.

Section LockFacts.
Import Rclone Lock.
Variable ttl : Z.
Variable payload : Z -> string.
Implicit Types (w : World) (u : string).

Lemma lsjson_any_eq path w :
  NewTest._lsjson_any path w = ((observed path w).2, after_run (Lsjson path) w).
Proof.
  unfold NewTest._lsjson_any, mbind, M_bind, mret, M_ret. rewrite lsjson_eq. cbn.
  unfold observed. destruct (next_exit w), (listing (remote w) path); reflexivity.
Qed.

Lemma acquire_after_purge_eq u w :
  NewTest.acquire_after_purge ttl payload u w =
  match (observed (_key u) w).2 with
  | o :: _ =>
      if clock (after_run (Lsjson (_key u)) w)
         - mtime (clock (after_run (Lsjson (_key u)) w)) o <? ttl
      then (false, after_run (Lsjson (_key u)) w)
      else write_payload payload (_key u) (NewTest._delete (_key u) (after_run (Lsjson (_key u)) w)).2
  | [] => write_payload payload (_key u) (after_run (Lsjson (_key u)) w)
  end.
Proof.
  unfold NewTest.acquire_after_purge, mbind, M_bind. rewrite lsjson_any_eq.
  cbn. destruct ((observed _ w).2) as [|o arr]; [reflexivity|].
  destruct (_ <? ttl); [reflexivity|].
  unfold mbind, M_bind. by destruct (NewTest._delete _ _).
Qed.

Lemma old_acquire_lock_eq u w :
  Old.acquire_lock ttl payload u w =
  let w1 := after_run (Lsjson (_key u)) w in
  let written := ((Some (write_payload payload (_key u) w1).1),
                  (write_payload payload (_key u) w1).2) in
  match (observed (_key u) w).1, (observed (_key u) w).2 with
  | Noisy, _ => (None, w1)
  | Failed, _ | Clean, [] => written
  | Clean, o :: _ =>
      if clock w1 - mtime (clock w1) o <? ttl then (Some false, w1) else written
  end.
Proof.
  unfold Old.acquire_lock, Old._lsjson, mbind, M_bind. rewrite lsjson_eq.
  cbn. destruct (observed _ w) as [[] [|o arr]]; cbn; try reflexivity.
  - unfold mbind, M_bind, mret, M_ret. by destruct (write_payload _ _ _).
  - destruct (_ <? ttl); [reflexivity|].
    unfold mbind, M_bind, mret, M_ret. by destruct (write_payload _ _ _).
  - unfold mbind, M_bind, mret, M_ret. by destruct (write_payload _ _ _).
  - unfold mbind, M_bind, mret, M_ret. by destruct (write_payload _ _ _).
Qed.

Lemma write_payload_eq key w :
  write_payload payload key w =
  (ok (next_exit w),
   if ok (next_exit w)
   then {| remote := <[key := {| o_mtime := clock (after_run (Rcat key (payload (clock w))) w);
                                 o_iso := true; o_data := payload (clock w) |}]> (remote w);
           disk := disk w;
           clock := clock (after_run (Rcat key (payload (clock w))) w);
           script := script (after_run (Rcat key (payload (clock w))) w);
           trace := Rcat key (payload (clock w)) :: trace w |}
   else after_run (Rcat key (payload (clock w))) w).
Proof.
  unfold write_payload, rcat, mbind, M_bind, time_time, mret, M_ret. cbn.
  rewrite start_eq.
  pose proof (remote_after_run (Rcat key (payload (clock w))) w) as Hr.
  pose proof (trace_after_run (Rcat key (payload (clock w))) w) as Ht.
  pose proof (disk_after_run (Rcat key (payload (clock w))) w) as Hd.
  destruct (next_exit w); cbn; unfold set_remote; cbn; by rewrite ?Hr, ?Ht, ?Hd.
Qed.

Lemma apparent_age_iso now (o : Obj) :
  (o_iso o = true -> apparent_age now o = now - o_mtime o) /\
  (o_iso o = false -> apparent_age now o = 0).
Proof.
  unfold apparent_age, modtime_of. destruct (o_iso o); cbn; split; intros; (done || lia).
Qed.

(** C1 (amended). Both [acquire_lock]s decide on the listing of the
    lock's key. With [w1] the world when that listing run is over and
    [now] its time: if the run does not fail and there is an object at
    the key whose age, as read, is below the TTL (an unreadable
    ["ModTime"] reads as age 0), the result is [False] and nothing more
    is run; if its age as read is the TTL or more, or the run fails, or
    nothing is listed, the payload is written (the new version deletes a
    stale lock first) and the result is whether [rcat] exits 0. The old
    version needs a listing run without notices: with notices it
    raises. The new version does this after purging expired locks. *)
Theorem acquire_lock_by_listing u w :
  let key := _key u in
  let w1 := after_run (Lsjson key) w in
  let now := clock w1 in
  (forall w0, NewTest.acquire_lock ttl payload u w0 =
              NewTest.acquire_after_purge ttl payload u (NewTest.purge_expired_locks ttl w0).2) /\
  (forall o, next_exit w <> Failed -> remote w !! key = Some o ->
     apparent_age now o < ttl ->
     NewTest.acquire_after_purge ttl payload u w = (false, w1)) /\
  (forall o, next_exit w <> Failed -> remote w !! key = Some o ->
     ttl <= apparent_age now o ->
     NewTest.acquire_after_purge ttl payload u w = write_payload payload key (NewTest._delete key w1).2) /\
  (next_exit w = Failed \/ listing (remote w) key = None ->
     NewTest.acquire_after_purge ttl payload u w = write_payload payload key w1) /\
  (forall o, next_exit w = Clean -> remote w !! key = Some o ->
     apparent_age now o < ttl ->
     Old.acquire_lock ttl payload u w = (Some false, w1)) /\
  (forall o, next_exit w = Clean -> remote w !! key = Some o ->
     ttl <= apparent_age now o ->
     Old.acquire_lock ttl payload u w =
       (Some (write_payload payload key w1).1, (write_payload payload key w1).2)) /\
  (next_exit w = Failed \/ listing (remote w) key = None ->
     Old.acquire_lock ttl payload u w =
       (Some (write_payload payload key w1).1, (write_payload payload key w1).2)) /\
  (next_exit w = Noisy -> listing (remote w) key <> None ->
     Old.acquire_lock ttl payload u w = (None, w1)) /\
  (forall w',
     (write_payload payload key w').1 = ok (next_exit w') /\
     trace (write_payload payload key w').2 = Rcat key (payload (clock w')) :: trace w' /\
     (next_exit w' <> Failed ->
        exists t, remote (write_payload payload key w').2 !! key =
          Some {| o_mtime := t; o_iso := true; o_data := payload (clock w') |}) /\
     (next_exit w' = Failed -> remote (write_payload payload key w').2 = remote w')).
Proof.
  cbn zeta.
  assert (Hobs : forall o, next_exit w <> Failed -> remote w !! _key u = Some o ->
            (observed (_key u) w).2
            = [ {| Path := basename (_key u); IsDir := false; ModTime := modtime_of o |} ]).
  { intros o Hex Ho. by rewrite (observed_object _ _ _ Ho Hex). }
  assert (Hnone : next_exit w = Failed \/ listing (remote w) (_key u) = None ->
            observed (_key u) w = (Failed, [])).
  { unfold observed. intros [-> | ->]; [done|]. by destruct (next_exit w). }
  split_and!.
  - intros w0. unfold NewTest.acquire_lock, mbind, M_bind.
    by destruct (NewTest.purge_expired_locks ttl w0).
  - intros o Hex Ho Hage. rewrite acquire_after_purge_eq, (Hobs o Hex Ho).
    unfold apparent_age in Hage. unfold mtime. cbn [ModTime].
    by destruct (Z.ltb_spec (clock (after_run (Lsjson (_key u)) w)
                  - default (clock (after_run (Lsjson (_key u)) w)) (modtime_of o)) ttl);
      [|lia].
  - intros o Hex Ho Hage. rewrite acquire_after_purge_eq, (Hobs o Hex Ho).
    unfold apparent_age in Hage. unfold mtime. cbn [ModTime].
    by destruct (Z.ltb_spec (clock (after_run (Lsjson (_key u)) w)
                  - default (clock (after_run (Lsjson (_key u)) w)) (modtime_of o)) ttl);
      [lia|].
  - intros H. by rewrite acquire_after_purge_eq, (Hnone H).
  - intros o Hex Ho Hage. rewrite old_acquire_lock_eq. cbn zeta.
    rewrite (observed_object _ _ _ Ho) by (rewrite Hex; done). rewrite Hex. cbn [fst snd].
    unfold apparent_age in Hage. unfold mtime. cbn [ModTime].
    by destruct (Z.ltb_spec (clock (after_run (Lsjson (_key u)) w)
                  - default (clock (after_run (Lsjson (_key u)) w)) (modtime_of o)) ttl);
      [|lia].
  - intros o Hex Ho Hage. rewrite old_acquire_lock_eq. cbn zeta.
    rewrite (observed_object _ _ _ Ho) by (rewrite Hex; done). rewrite Hex. cbn [fst snd].
    unfold apparent_age in Hage. unfold mtime. cbn [ModTime].
    by destruct (Z.ltb_spec (clock (after_run (Lsjson (_key u)) w)
                  - default (clock (after_run (Lsjson (_key u)) w)) (modtime_of o)) ttl);
      [lia|].
  - intros H. rewrite old_acquire_lock_eq. cbn zeta. by rewrite (Hnone H).
  - intros Hex Hl. rewrite old_acquire_lock_eq. cbn zeta.
    unfold observed. rewrite Hex. by destruct (listing _ _).
  - intros w'. rewrite write_payload_eq. cbn [fst snd]. split_and!.
    + done.
    + destruct (next_exit w'); cbn; [done|done|apply trace_after_run].
    + intros Hex. destruct (next_exit w'); [| |done]; cbn; eexists; apply lookup_insert_eq.
    + intros ->. cbn. apply remote_after_run.
Qed.

End LockFacts.

Lemma acquire_lock_by_listing_witness :
  Lock.NewTest.acquire_after_purge 3600 Lock.sample_payload "00/01-01-099-14W4/0"
    Lock.world_fresh_lock
  = (false, Rclone.after_run (Rclone.Lsjson (Lock._key "00/01-01-099-14W4/0"))
              Lock.world_fresh_lock) /\
  Lock.Old.acquire_lock 3600 Lock.sample_payload "00/01-01-099-14W4/0"
    Lock.world_fresh_lock
  = (Some false, Rclone.after_run (Rclone.Lsjson (Lock._key "00/01-01-099-14W4/0"))
                   Lock.world_fresh_lock).
Proof.
  pose proof (acquire_lock_by_listing 3600 Lock.sample_payload "00/01-01-099-14W4/0"
                Lock.world_fresh_lock) as H.
  cbv zeta in H. destruct H as (_ & N1 & _ & _ & O1 & _).
  split.
  - apply (N1 {| Rclone.o_mtime := 9990; Rclone.o_iso := true; Rclone.o_data := "{}" |});
      by vm_compute.
  - apply (O1 {| Rclone.o_mtime := 9990; Rclone.o_iso := true; Rclone.o_data := "{}" |});
      by vm_compute.
Defined.

(** C1, as stated, fails both ways. A lock last touched 10000 ticks ago
    (TTL 3600) whose ["ModTime"] is unreadable is taken for fresh: the
    result is [False] and no payload is written. A lock touched 10 ticks
    ago is overwritten when the listing run of its key fails. *)
Lemma acquire_lock_misjudges_freshness :
  (Rclone.o_mtime <$> Rclone.remote Lock.world_unreadable_modtime
                        !! Lock._key "00/01-01-099-14W4/0" = Some 0 /\
   Rclone.clock Lock.world_unreadable_modtime = 10000 /\
   (Lock.NewTest.acquire_lock 3600 Lock.sample_payload "00/01-01-099-14W4/0"
      Lock.world_unreadable_modtime).1 = false /\
   List.filter Rclone.is_rcat
     (Rclone.trace (Lock.NewTest.acquire_lock 3600 Lock.sample_payload "00/01-01-099-14W4/0"
                      Lock.world_unreadable_modtime).2) = [] /\
   (Lock.Old.acquire_lock 3600 Lock.sample_payload "00/01-01-099-14W4/0"
      Lock.world_unreadable_modtime).1 = Some false)
  /\
  (Rclone.o_mtime <$> Rclone.remote (Lock.world_failing_run 1)
                        !! Lock._key "00/01-01-099-14W4/0" = Some 9990 /\
   Rclone.clock (Lock.world_failing_run 1) = 10000 /\
   (Lock.NewTest.acquire_lock 3600 Lock.sample_payload "00/01-01-099-14W4/0"
      (Lock.world_failing_run 1)).1 = true /\
   List.filter Rclone.is_rcat
     (Rclone.trace (Lock.NewTest.acquire_lock 3600 Lock.sample_payload "00/01-01-099-14W4/0"
                      (Lock.world_failing_run 1)).2)
   = [Rclone.Rcat (Lock._key "00/01-01-099-14W4/0") "{}"] /\
   (Lock.Old.acquire_lock 3600 Lock.sample_payload "00/01-01-099-14W4/0"
      (Lock.world_failing_run 0)).1 = Some true).
Proof. by vm_compute. Qed.

(** ** Upload if new *)

Section MergeFacts.
Import Rclone Merge.
Implicit Types (w : World) (store : gmap string Obj) (e : Entry).

Lemma strip_prefix_append p r : strip_prefix p (p +:+ r) = Some r.
Proof.
  induction p as [|a p IH]; [done|].
  rewrite append_cons. cbn [strip_prefix]. by rewrite Ascii.eqb_refl.
Qed.

Lemma strip_prefix_some p s r : strip_prefix p s = Some r -> s = p +:+ r.
Proof.
  revert s. induction p as [|a p IH]; intros s; cbn [strip_prefix].
  - intros [= ->]. reflexivity.
  - destruct s as [|b s]; [done|].
    destruct (Ascii.eqb_spec a b) as [->|]; [|done].
    intros H%IH. by rewrite append_cons, H.
Qed.

Lemma has_file_true name arr :
  has_file name arr = true <->
  exists e, e ∈ arr /\ IsDir e = false /\ Path e = name.
Proof.
  unfold has_file, Py.any. rewrite existsb_exists. split.
  - intros (b & Hin & Hb). unfold id in Hb. subst b.
    apply in_map_iff in Hin as (e & He & Hin).
    apply andb_true_iff in He as [Hd He].
    exists e. split_and!; [by apply list_elem_of_In|by destruct (IsDir e)|].
    by apply String.eqb_eq.
  - intros (e & Hin & Hd & He). exists true. split; [|done].
    apply in_map_iff. exists e. split; [|by apply list_elem_of_In].
    rewrite Hd, He, String.eqb_refl. done.
Qed.

(** A file shown in the listing of a directory is an object of the
    store directly inside it, and conversely. *)
Lemma listing_directory store path :
  store !! path = None ->
  forall name,
    has_file name (default [] (listing store path)) = true <->
    name <> EmptyString /\ (cut name).2 = false /\
    is_Some (store !! ((path +:+ "/") +:+ name)).
Proof.
  intros Hp name. unfold listing. rewrite Hp.
  set (l := remove_dups _).
  replace (default [] (match l with [] => None | y :: l0 => Some (y :: l0) end))
    with l by (by destruct l).
  rewrite has_file_true. unfold l. clear l.
  split.
  - intros (e & Hin & Hd & He).
    apply elem_of_remove_dups, list_elem_of_omap in Hin as ([k o] & Hko & Hc).
    apply elem_of_map_to_list in Hko.
    unfold child_entry in Hc. cbn [fst snd] in Hc.
    destruct (strip_prefix (path +:+ "/") k) as [rel|] eqn:Es; [|done].
    apply strip_prefix_some in Es. subst k.
    destruct rel as [|a rel]; [done|].
    destruct (cut (String a rel)).2 eqn:Ec; injection Hc as <-; [done|].
    cbn in He. subst name. split_and!; [done|done|by eexists].
  - intros (Hne & Hc & [o Ho]).
    exists {| Path := name; IsDir := false; ModTime := modtime_of o |}.
    split_and!; [|done|done].
    apply elem_of_remove_dups, list_elem_of_omap.
    exists ((path +:+ "/") +:+ name, o). split; [by apply elem_of_map_to_list|].
    unfold child_entry. cbn [fst snd]. rewrite strip_prefix_append.
    destruct name; [done|]. by rewrite Hc.
Qed.

Lemma observed_snd path w :
  (observed path w).2 =
  match next_exit w with
  | Failed => []
  | _ => default [] (listing (remote w) path)
  end.
Proof. unfold observed. by destruct (next_exit w), (listing (remote w) path). Qed.

Lemma top_s3_copyto_if_new_eq local key w :
  Top.s3_copyto_if_new local key w =
  if has_file (Py.path_name key)
       (match (observed key w).1 with Clean => (observed key w).2 | _ => [] end)
  then (false, after_run (Lsjson key) w)
  else copy local key (after_run (Lsjson key) w).
Proof.
  unfold Top.s3_copyto_if_new, Top.s3_exists, Top.s3_lsjson, mbind, M_bind, mret, M_ret.
  rewrite lsjson_eq. cbn [fst snd].
  destruct (has_file _ _); [reflexivity|].
  unfold copy. by destruct (copyto_ignore_existing _ _ _).
Qed.

Lemma s3_copyto_if_new_eq local key w :
  NewTest.s3_copyto_if_new local key w =
  if has_file (Py.path_name key) (observed (parent_of key) w).2
  then (false, after_run (Lsjson (parent_of key)) w)
  else copy local key (after_run (Lsjson (parent_of key)) w).
Proof.
  unfold NewTest.s3_copyto_if_new, NewTest.s3_exists, NewTest.s3_lsjson, mbind, M_bind, mret, M_ret.
  fold (parent_of key). rewrite lsjson_eq. cbn [fst snd].
  replace (if ok (observed (parent_of key) w).1 then (observed (parent_of key) w).2 else [])
    with (observed (parent_of key) w).2.
  2:{ unfold observed.
      by destruct (next_exit w), (listing (remote w) (parent_of key)). }
  destruct (has_file _ _); [reflexivity|].
  unfold copy. by destruct (copyto_ignore_existing _ _ _).
Qed.

Lemma copy_eq local key w :
  copy local key w =
  (ok (next_exit w) && bool_decide (is_Some (disk w !! local)),
   match next_exit w, disk w !! local, remote w !! key with
   | Failed, _, _ | _, None, _ | _, Some _, Some _ => after_run (Copyto local key) w
   | _, Some data, None =>
       {| remote := <[key := {| o_mtime := clock (after_run (Copyto local key) w);
                                o_iso := true; o_data := data |}]> (remote w);
          disk := disk w;
          clock := clock (after_run (Copyto local key) w);
          script := script (after_run (Copyto local key) w);
          trace := Copyto local key :: trace w |}
   end).
Proof.
  unfold copy, copyto_ignore_existing, mbind, M_bind, time_time, get_remote, mret, M_ret.
  rewrite start_eq. cbn.
  pose proof (remote_after_run (Copyto local key) w) as Hr.
  pose proof (trace_after_run (Copyto local key) w) as Ht.
  pose proof (disk_after_run (Copyto local key) w) as Hd.
  rewrite Hr, Hd.
  destruct (next_exit w), (disk w !! local), (remote w !! key);
    cbn; unfold set_remote; cbn; by rewrite ?Hr, ?Ht, ?Hd.
Qed.

(** What [s3_copyto_if_new] does, case by case. It judges existence by
    a listing: of the key itself (top level), of the key's parent
    directory ([newtest]). When the listing run succeeds and the object
    is at the key, the result is [False] and no copy is run. When the
    listing run fails (for the top-level version also when it prints
    notices), or when neither the key nor what the listing could take
    for it holds an object, [rclone copyto --ignore-existing] is run and
    the result is whether it exits 0. That copy never replaces or
    removes an object that is already there. The keys are in normal
    form: the key is its parent, a slash and its name. *)
Lemma s3_copyto_if_new_by_listing local key w :
  (forall o, next_exit w = Clean -> remote w !! key = Some o ->
     Py.path_name key = basename key ->
     Top.s3_copyto_if_new local key w = (false, after_run (Lsjson key) w)) /\
  (next_exit w <> Clean ->
     Top.s3_copyto_if_new local key w = copy local key (after_run (Lsjson key) w)) /\
  (remote w !! key = None ->
     remote w !! ((key +:+ "/") +:+ Py.path_name key) = None ->
     Top.s3_copyto_if_new local key w = copy local key (after_run (Lsjson key) w)) /\
  (forall o, next_exit w <> Failed -> remote w !! key = Some o ->
     remote w !! parent_of key = None ->
     key = (parent_of key +:+ "/") +:+ Py.path_name key ->
     Py.path_name key <> EmptyString -> (cut (Py.path_name key)).2 = false ->
     NewTest.s3_copyto_if_new local key w = (false, after_run (Lsjson (parent_of key)) w)) /\
  (next_exit w = Failed ->
     NewTest.s3_copyto_if_new local key w = copy local key (after_run (Lsjson (parent_of key)) w)) /\
  (remote w !! key = None -> remote w !! parent_of key = None ->
     key = (parent_of key +:+ "/") +:+ Py.path_name key ->
     NewTest.s3_copyto_if_new local key w = copy local key (after_run (Lsjson (parent_of key)) w)) /\
  (forall w',
     (copy local key w').1 = ok (next_exit w') && bool_decide (is_Some (disk w' !! local)) /\
     trace (copy local key w').2 = Copyto local key :: trace w' /\
     (forall k o, remote w' !! k = Some o -> remote (copy local key w').2 !! k = Some o) /\
     ((copy local key w').1 = true -> is_Some (remote (copy local key w').2 !! key))).
Proof.
  split_and!.
  - intros o Hex Ho Hname. rewrite top_s3_copyto_if_new_eq.
    rewrite (observed_object _ _ _ Ho) by (by rewrite Hex). rewrite Hex. cbn [fst snd].
    replace (has_file _ _) with true; [done|].
    symmetry. apply has_file_true. eexists. split; [by left|]. by cbn.
  - intros Hex. rewrite top_s3_copyto_if_new_eq.
    replace (match (observed key w).1 with Clean => _ | _ => [] end) with (@nil Entry);
      [done|].
    unfold observed. by destruct (next_exit w), (listing (remote w) key).
  - intros Ho Hsub. rewrite top_s3_copyto_if_new_eq.
    replace (has_file _ _) with false; [done|]. symmetry.
    apply not_true_is_false. intros Hf.
    assert (Hin : has_file (Py.path_name key) (default [] (listing (remote w) key)) = true).
    { unfold observed in Hf. destruct (next_exit w), (listing (remote w) key); done. }
    apply (listing_directory _ _ Ho) in Hin as (_ & _ & [o Hs]). congruence.
  - intros o Hex Ho Hp Hkey Hne Hcut. rewrite s3_copyto_if_new_eq, observed_snd.
    replace (has_file _ _) with true; [done|]. symmetry.
    assert (Hin : has_file (Py.path_name key)
                    (default [] (listing (remote w) (parent_of key))) = true).
    { apply (listing_directory _ _ Hp). split_and!; [done|done|].
      rewrite <- Hkey. by eexists. }
    by destruct (next_exit w).
  - intros Hex. rewrite s3_copyto_if_new_eq, observed_snd, Hex. done.
  - intros Ho Hp Hkey. rewrite s3_copyto_if_new_eq, observed_snd.
    replace (has_file _ _) with false; [done|]. symmetry.
    apply not_true_is_false. intros Hf.
    assert (Hin : has_file (Py.path_name key)
                    (default [] (listing (remote w) (parent_of key))) = true).
    { destruct (next_exit w); done. }
    apply (listing_directory _ _ Hp) in Hin as (_ & _ & [o Hs]).
    rewrite <- Hkey in Hs. congruence.
  - intros w'. rewrite copy_eq. cbn [fst snd]. split_and!.
    + done.
    + destruct (next_exit w'), (disk w' !! local), (remote w' !! key);
        cbn; try done; apply trace_after_run.
    + intros k o Hk.
      destruct (next_exit w'), (disk w' !! local), (remote w' !! key) eqn:Ekey;
        cbn; rewrite ?remote_after_run; try done;
        (destruct (decide (key = k)) as [->|Hne];
         [congruence|by rewrite lookup_insert_ne]).
    + intros Hok. apply andb_true_iff in Hok as [Hex Hd].
      apply bool_decide_eq_true in Hd as [data Hd]. rewrite Hd.
      destruct (next_exit w'), (remote w' !! key) eqn:Ekey;
        cbn; rewrite ?remote_after_run, ?lookup_insert_eq; try done; by eexists.
Qed.

End MergeFacts.

(** C8. The code at an input where it departs from the claim: the sheet
    is on the remote at the time of the check and the listing run fails.
    Both versions then run the copy and return [True], although nothing
    is uploaded - the object is left as it was. The claim has [False]
    and no copy here, and so has the documentation of the top-level
    version: [s3_copyto_if_new] is to return [False] if skipped or
    failed, and [s3_lsjson] to return [None], not the empty list, on an
    error. *)
Lemma s3_copyto_if_new_copies_when_listing_fails :
  Rclone.o_data <$> Rclone.remote Merge.world_listing_fails
                      !! "raw/01-01-099-14W4/Gas_Analysis.csv" = Some "old" /\
  (Merge.Top.s3_copyto_if_new "Data/Gas_Analysis.csv"
     "raw/01-01-099-14W4/Gas_Analysis.csv" Merge.world_listing_fails).1 = true /\
  Rclone.trace (Merge.Top.s3_copyto_if_new "Data/Gas_Analysis.csv"
     "raw/01-01-099-14W4/Gas_Analysis.csv" Merge.world_listing_fails).2
  = [Rclone.Copyto "Data/Gas_Analysis.csv" "raw/01-01-099-14W4/Gas_Analysis.csv";
     Rclone.Lsjson "raw/01-01-099-14W4/Gas_Analysis.csv"] /\
  (Merge.NewTest.s3_copyto_if_new "Data/Gas_Analysis.csv"
     "raw/01-01-099-14W4/Gas_Analysis.csv" Merge.world_listing_fails).1 = true /\
  Rclone.trace (Merge.NewTest.s3_copyto_if_new "Data/Gas_Analysis.csv"
     "raw/01-01-099-14W4/Gas_Analysis.csv" Merge.world_listing_fails).2
  = [Rclone.Copyto "Data/Gas_Analysis.csv" "raw/01-01-099-14W4/Gas_Analysis.csv";
     Rclone.Lsjson "raw/01-01-099-14W4"] /\
  Rclone.o_data <$> Rclone.remote (Merge.NewTest.s3_copyto_if_new "Data/Gas_Analysis.csv"
     "raw/01-01-099-14W4/Gas_Analysis.csv" Merge.world_listing_fails).2
                      !! "raw/01-01-099-14W4/Gas_Analysis.csv" = Some "old".
Proof. by vm_compute. Qed.

(** ** Raw tables *)

Section WarehouseFacts.
Import Warehouse.
Variable snake : string -> string.
Variable read_csv_rows : string -> list string * list (list string).
Implicit Types (db : DB) (t : Table) (cols : list string) (info : FileInfo).

Lemma mem_true x (l : list string) : Py.mem x l = true <-> x ∈ l.
Proof.
  unfold Py.mem. rewrite existsb_exists. split.
  - intros (y & Hin & ->%String.eqb_eq). by apply list_elem_of_In.
  - intros Hin. exists x. split; [by apply list_elem_of_In|apply String.eqb_refl].
Qed.

Lemma mem_false x (l : list string) : Py.mem x l = false <-> x ∉ l.
Proof.
  rewrite <- mem_true. destruct (Py.mem x l); split; (done || congruence).
Qed.




Lemma index_of_lookup cols (j : nat) c :
  NoDup cols -> cols !! j = Some c -> index_of c cols = Some j.
Proof.
  intros Hnd. revert j. induction Hnd as [|x l Hx Hnd IH]; intros j Hj; [done|].
  cbn [index_of]. destruct j as [|j]; cbn in Hj.
  - injection Hj as ->. by rewrite String.eqb_refl.
  - destruct (String.eqb_spec x c) as [->|Hne].
    + exfalso. apply Hx. by eapply list_elem_of_lookup_2.
    + by rewrite (IH _ Hj).
Qed.

(** Values given for all the columns, in their order, are stored as
    they are. *)
Lemma place_all cols (r : list string) :
  NoDup cols -> length r = length cols ->
  (fun c => index_of c cols ≫= (r !!.)) <$> cols = Some <$> r.
Proof.
  intros Hnd Hlen. apply list_eq. intros j. rewrite !list_lookup_fmap.
  destruct (cols !! j) as [c|] eqn:Ec; cbn.
  - rewrite (index_of_lookup _ _ _ Hnd Ec). cbn.
    destruct (lookup_lt_is_Some_2 r j) as [x Hx].
    { rewrite Hlen. by eapply lookup_lt_Some. }
    by rewrite Hx.
  - apply lookup_ge_None in Ec. rewrite lookup_ge_None_2 by lia. done.
Qed.

Lemma insert_rows_all db table t vals db' :
  db !! table = Some t ->
  insert_rows db table (columns t) vals = Some db' ->
  db' = <[table := {| columns := columns t;
                      rows := rows t ++ (stored <$> vals) |}]> db.
Proof.
  intros Ht. unfold insert_rows. destruct vals as [|v vals].
  { intros [= <-]. cbn. rewrite app_nil_r. symmetry. apply insert_id.
    by destruct t. }
  set (vs := v :: vals). unfold insert_values. rewrite Ht.
  destruct (bool_decide (NoDup (columns t))) eqn:Hnd; [|done].
  apply bool_decide_eq_true in Hnd. cbn [andb].
  destruct (forallb _ (columns t)); [|done]. cbn [andb].
  destruct (forallb _ vs) eqn:Hlen; [|done].
  intros [= <-].
  assert (E : ((fun r => (fun c => index_of c (columns t) ≫= (r !!.)) <$> columns t) <$> vs)
              = stored <$> vs).
  { apply list_fmap_ext. intros i r Hr. unfold stored. apply place_all; [done|].
    rewrite forallb_forall in Hlen. apply Nat.eqb_eq, Hlen.
    apply list_elem_of_In. by eapply list_elem_of_lookup_2. }
  rewrite <- E. reflexivity.
Qed.

(** The loop over the rows of a file appends, batch by batch, the rows
    it builds. *)
Lemma row_loop table cols info mapped (rs : list (list string)) :
  forall db batch t db' batch',
    db !! table = Some t -> columns t = cols ->
    fold_left (row_step table cols info mapped) rs (Some (db, batch)) = Some (db', batch') ->
    exists t', db' !! table = Some t' /\ columns t' = cols /\
      rows t' ++ (stored <$> batch')
      = rows t ++ (stored <$> (batch ++ (out_row cols info mapped <$> rs))).
Proof.
  induction rs as [|r rs IH]; intros db batch t db' batch' Ht Hc.
  - cbn. intros [= <- <-]. exists t. by rewrite app_nil_r.
  - cbn [fold_left]. unfold row_step at 2.
    destruct (Nat.leb BATCH_ROWS _).
    + destruct (insert_rows db table cols _) as [db1|] eqn:Hins; cbn [fmap option_fmap option_map].
      2:{ intros H. exfalso. clear -H. induction rs; cbn in H; [done|auto]. }
      rewrite <- Hc in Hins. apply (insert_rows_all _ _ _ _ _ Ht) in Hins. subst db1.
      intros H. eapply IH in H as (t' & Ht' & Hc' & Hrows);
        [|apply lookup_insert_eq|by cbn].
      exists t'. split_and!; [done|done|]. rewrite Hrows. cbn [rows app]. rewrite Hc.
      rewrite <- app_assoc. f_equal. rewrite <- fmap_app, <- app_assoc. reflexivity.
    + intros H. eapply IH in H as (t' & Ht' & Hc' & Hrows); [|done|done].
      exists t'. split_and!; [done|done|]. rewrite Hrows.
      rewrite <- app_assoc. reflexivity.
Qed.

Lemma load_file_rows table cols info db t db' :
  db !! table = Some t -> columns t = cols ->
  load_file snake read_csv_rows table cols (Some db) info = Some db' ->
  exists t', db' !! table = Some t' /\ columns t' = cols /\
    rows t' = rows t ++ (stored <$> file_rows snake read_csv_rows cols info).
Proof.
  intros Ht Hc. unfold load_file, file_rows.
  destruct (read_csv_rows (path info)) as [hdr rs]. cbn [fst snd].
  destruct hdr as [|h hdr].
  { intros [= <-]. exists t. by rewrite app_nil_r. }
  set (mapped := snake <$> _).
  destruct (fold_left _ rs _) as [[db1 batch]|] eqn:Hloop; [|done].
  apply (row_loop _ _ _ _ _ _ _ _ _ _ Ht Hc) in Hloop as (t1 & Ht1 & Hc1 & Hrows).
  cbn [app] in Hrows.
  destruct batch as [|b batch].
  - intros [= <-]. exists t1. split_and!; [done|done|].
    by rewrite <- Hrows, app_nil_r.
  - intros Hins. rewrite <- Hc1 in Hins.
    apply (insert_rows_all _ _ _ _ _ Ht1) in Hins. subst db'.
    eexists. split_and!; [apply lookup_insert_eq|done|]. cbn [rows]. by rewrite Hrows.
Qed.

Lemma load_files_rows table cols (files : list FileInfo) :
  forall db t db',
    db !! table = Some t -> columns t = cols ->
    fold_left (load_file snake read_csv_rows table cols) files (Some db) = Some db' ->
    exists t', db' !! table = Some t' /\ columns t' = cols /\
      rows t' = rows t ++
        (stored <$> concat (file_rows snake read_csv_rows cols <$> files)).
Proof.
  induction files as [|info files IH]; intros db t db' Ht Hc.
  - cbn. intros [= <-]. exists t. by rewrite app_nil_r.
  - cbn [fold_left].
    destruct (load_file _ _ table cols (Some db) info) as [db1|] eqn:Hf.
    2:{ intros H. exfalso. clear -H. induction files; cbn in H; [done|auto]. }
    apply (load_file_rows _ _ _ _ _ _ Ht Hc) in Hf as (t1 & Ht1 & Hc1 & Hrows1).
    intros H. apply (IH _ _ _ Ht1 Hc1) in H as (t' & Ht' & Hc' & Hrows).
    exists t'. split_and!; [done|done|].
    rewrite Hrows, Hrows1. cbn [fmap list_fmap concat].
    by rewrite fmap_app, app_assoc.
Qed.

Lemma add_columns_spec table (l : list string) :
  forall db t db',
    db !! table = Some t -> add_columns db table l = Some db' ->
    exists t', db' !! table = Some t' /\ columns t' = columns t ++ l.
Proof.
  induction l as [|c l IH]; intros db t db' Ht; cbn [add_columns].
  - intros [= <-]. exists t. by rewrite app_nil_r.
  - unfold add_column. rewrite Ht. destruct (Py.mem c (columns t)); [done|].
    intros H. eapply IH in H as (t' & Ht' & Hc'); [|apply lookup_insert_eq].
    exists t'. split; [done|]. rewrite Hc'. cbn. by rewrite <- app_assoc.
Qed.




End WarehouseFacts.


Example sample_rows :
  Warehouse.rows <$> (Warehouse.load_dataset Warehouse.sample_snake Warehouse.sample_csv ∅
              "well_gas_analysis" "gas_analysis" [Warehouse.sample_file]
            ≫= (.!! "well_gas_analysis__gas_analysis"))
  = Some [ [Some "02/01-01-099-14W4/0"; Some "10"; Some "well_gas_analysis";
            Some "gas_analysis";
            Some "Data/01-01-099-14W4/Well_Gas_Analysis/01-01-099-14W4__Gas_Analysis.csv"];
           [Some "00/01-01-099-14W4/0"; Some "20"; Some "well_gas_analysis";
            Some "gas_analysis";
            Some "Data/01-01-099-14W4/Well_Gas_Analysis/01-01-099-14W4__Gas_Analysis.csv"];
           [Some "00/01-01-099-14W4/0"; Some ""; Some "well_gas_analysis";
            Some "gas_analysis";
            Some "Data/01-01-099-14W4/Well_Gas_Analysis/01-01-099-14W4__Gas_Analysis.csv"] ].
Proof. by vm_compute. Qed.

Section ChunksFacts.
Context {A : Type}.
Implicit Types (seq : list A) (out : list (list A)).

Lemma slice_inside seq (i sz : Z) :
  0 <= i -> 0 <= sz -> i + sz <= Py.len seq ->
  Py.slice seq i (i + sz) = take (Z.to_nat sz) (drop (Z.to_nat i) seq).
Proof.
  intros Hi Hsz Hle. unfold Py.slice, Py.clip.
  destruct (Z.ltb_spec i 0); [lia|].
  destruct (Z.ltb_spec (i + sz) 0); [lia|].
  rewrite !Z.min_l by lia. f_equal. lia.
Qed.

Lemma range_succ (m : nat) :
  Py.range (Z.of_nat (S m)) = Py.range (Z.of_nat m) ++ [Z.of_nat m].
Proof.
  unfold Py.range. rewrite !Nat2Z.id, seq_S, map_app. reflexivity.
Qed.

Lemma after_succ seq base rem m :
  Chunks.after seq base rem (S m) =
  Chunks.body seq base rem (Chunks.after seq base rem m) (Z.of_nat m).
Proof. unfold Chunks.after. rewrite range_succ, fold_left_app. reflexivity. Qed.

(** Loop invariant: after [m <= parts] rounds, [out] holds the first [m]
    chunks, they cover a prefix of [seq], and the start index is
    [m * base + min m rem]. *)
Lemma after_invariant seq (parts : Z) (m : nat) :
  1 <= parts -> Z.of_nat m <= parts ->
  let base := Py.len seq / parts in
  let rem := Py.len seq mod parts in
  let st := Chunks.after seq base rem m in
  length st.1 = m /\
  st.2 = Z.of_nat m * base + Z.min (Z.of_nat m) rem /\
  concat st.1 = take (Z.to_nat st.2) seq /\
  (forall (k : nat) c, st.1 !! k = Some c ->
     Py.len c = base + (if Z.of_nat k <? rem then 1 else 0)).
Proof.
  intros Hp. simpl.
  set (base := Py.len seq / parts). set (rem := Py.len seq mod parts).
  assert (Hn : Py.len seq = parts * base + rem)
    by (unfold base, rem; apply Z.div_mod; lia).
  assert (Hrem : 0 <= rem < parts) by (apply Z.mod_pos_bound; lia).
  assert (Hbase : 0 <= base) by (apply Z.div_pos; unfold Py.len; lia).
  induction m as [|m IH]; intros Hm.
  - unfold Chunks.after. change (Py.range (Z.of_nat 0)) with (@nil Z).
    cbn. split_and!; try lia; try done.
  - destruct IH as (Hlen & Hidx & Hcat & Hsz); [lia|].
    rewrite after_succ. unfold Chunks.body. cbn [fst snd].
    set (st := Chunks.after seq base rem m) in *.
    set (sz := base + (if Z.of_nat m <? rem then 1 else 0)).
    assert (Hsz0 : 0 <= sz) by (unfold sz; destruct (Z.ltb_spec (Z.of_nat m) rem); lia).
    assert (Hidx' : st.2 + sz = Z.of_nat (S m) * base + Z.min (Z.of_nat (S m)) rem).
    { rewrite Hidx. unfold sz. destruct (Z.ltb_spec (Z.of_nat m) rem); lia. }
    assert (Hfit : st.2 + sz <= Py.len seq) by nia.
    assert (Hst0 : 0 <= st.2) by nia.
    rewrite slice_inside by lia.
    split_and!.
    + rewrite length_app, Hlen. cbn. lia.
    + exact Hidx'.
    + rewrite concat_app, Hcat. cbn. rewrite app_nil_r.
      rewrite take_take_drop. f_equal. lia.
    + intros k c Hk.
      destruct (decide (k < length st.1)%nat) as [Hlt|Hge].
      * rewrite lookup_app_l in Hk by done. eauto.
      * rewrite lookup_app_r in Hk by lia.
        destruct (k - length st.1)%nat as [|k'] eqn:Ek; [|destruct k'; discriminate].
        cbn in Hk. injection Hk as <-.
        assert (k = m) as -> by lia.
        unfold Py.len. rewrite length_take, length_drop.
        unfold Py.len in Hfit. fold sz. lia.
Qed.

(** C10. For [parts >= 1], [chunks_even seq parts] returns [parts] lists
    whose concatenation is [seq]; chunk [k] has length
    [len seq / parts], plus one exactly for the first [len seq mod parts]
    chunks; and [chunkify seq parts] is the same partition. *)
Theorem chunks_even_partition seq (parts : Z) :
  1 <= parts ->
  exists out,
    Chunks.chunks_even seq parts = Some out /\
    Py.len out = parts /\
    concat out = seq /\
    (forall (k : nat) c, out !! k = Some c ->
       Py.len c = Py.len seq / parts
                  + (if Z.of_nat k <? Py.len seq mod parts then 1 else 0)) /\
    Chunks.chunkify seq parts = out.
Proof.
  intros Hp.
  destruct (after_invariant seq parts (Z.to_nat parts) Hp) as (Hlen & Hidx & Hcat & Hsz);
    [lia|].
  rewrite Z2Nat.id in * by lia.
  set (base := Py.len seq / parts) in *. set (rem := Py.len seq mod parts) in *.
  assert (Hn : Py.len seq = parts * base + rem)
    by (unfold base, rem; apply Z.div_mod; lia).
  assert (Hrem : 0 <= rem < parts) by (apply Z.mod_pos_bound; lia).
  exists (Chunks.after seq base rem (Z.to_nat parts)).1.
  unfold Chunks.after in *. rewrite Z2Nat.id in * by lia.
  split_and!.
  - unfold Chunks.chunks_even. destruct (Z.eqb_spec parts 0); [lia|]. reflexivity.
  - unfold Py.len at 1. rewrite Hlen. lia.
  - rewrite Hcat, Hidx. apply take_ge. unfold Py.len in Hn. lia.
  - exact Hsz.
  - unfold Chunks.chunkify. rewrite Z.max_r by lia. reflexivity.
Qed.

End ChunksFacts.

Lemma chunks_even_partition_witness :
  exists out,
    Chunks.chunks_even [1; 2; 3; 4; 5; 6; 7]%Z 3 = Some out /\
    Py.len out = 3 /\
    concat out = [1; 2; 3; 4; 5; 6; 7]%Z /\
    (forall (k : nat) c, out !! k = Some c ->
       Py.len c = Py.len [1; 2; 3; 4; 5; 6; 7]%Z / 3
                  + (if Z.of_nat k <? Py.len [1; 2; 3; 4; 5; 6; 7]%Z mod 3 then 1 else 0)) /\
    Chunks.chunkify [1; 2; 3; 4; 5; 6; 7]%Z 3 = out.
Proof. apply (chunks_even_partition [1; 2; 3; 4; 5; 6; 7]%Z 3). lia. Defined.

(** * Further properties of the sources *)

(** ** UWI forms and names *)

Section NameFacts.
Implicit Types (s t u body : string) (c d : ascii).

Lemma upper_or_digit_not_space c : Re.upper_or_digit c = true -> Py.isspace c = false.
Proof. destruct c as [[] [] [] [] [] [] [] []]; vm_compute; congruence. Qed.

Lemma upper_or_digit_not_slash c : Re.upper_or_digit c = true -> Ascii.eqb c "/" = false.
Proof. destruct c as [[] [] [] [] [] [] [] []]; vm_compute; congruence. Qed.

Lemma digit_not_space c : Re.digit c = true -> Py.isspace c = false.
Proof. destruct c as [[] [] [] [] [] [] [] []]; vm_compute; congruence. Qed.

Lemma wrapped_tail_on whole a s d (g : Re.caps) :
  Py.count (String a s) "010" = 0 -> Re.digit d = true ->
  Re.run Uwi.WRAPPED_TAIL
    whole (String "/" (String a s +:+ String "/" (String d EmptyString))) g
    (fun _ g => Some g)
  = Some (<[3%nat := String d EmptyString]> (<[2%nat := String a s]> g)).
Proof.
  intros Hs Hd. apply count_cons_zero in Hs as [Ha Hs].
  cbn [Re.run]. change ("/" =? "/")%char with true. cbn iota.
  rewrite append_cons.
  unfold Re.dot at 1. rewrite Ha. cbn [negb].
  erewrite star_dot_prefix; [|exact Hs|].
  2:{ cbn [Re.star]. unfold Re.dot at 1. change ("/" =? "010")%char with false.
      cbn [negb]. change ("/" =? "/")%char with true. rewrite Hd.
      by destruct (Re.dot d), (d =? "/")%char. }
  change (Re.consumed (String d "") "") with (String d "").
  rewrite <- (append_cons a s). by rewrite consumed_append.
Qed.

Lemma wrapped_re_unfold s :
  Re.match_ Uwi.WRAPPED_RE s =
  Re.rep Re.upper_or_digit 1 2 s
    (fun s' => Re.run Uwi.WRAPPED_TAIL s s' (<[1%nat := Re.consumed s s']> ∅)
                 (fun _ g => Some g)).
Proof.
  unfold Re.match_, Uwi.WRAPPED_RE. cbn [Re.run]. by rewrite Nat.eqb_refl.
Qed.

Lemma rep_prefix_one {X} p1 r (k : string -> option X) :
  Re.upper_or_digit p1 = true ->
  Re.rep Re.upper_or_digit 1 2 (String p1 (String "/" r)) k = k (String "/" r).
Proof.
  intros Hp1. cbn [Re.rep Nat.eqb Nat.pred]. rewrite Hp1.
  change (Re.upper_or_digit "/") with false. cbn iota. by destruct (k _).
Qed.

Lemma rep_prefix_two {X} p1 p2 r (k : string -> option X) x :
  Re.upper_or_digit p1 = true -> Re.upper_or_digit p2 = true ->
  k r = Some x ->
  Re.rep Re.upper_or_digit 1 2 (String p1 (String p2 r)) k = Some x.
Proof.
  intros Hp1 Hp2 Hk. cbn [Re.rep Nat.eqb Nat.pred]. by rewrite Hp1, Hp2, Hk.
Qed.

(** [WRAPPED_RE] on a prefix of one or two capitals or digits, a
    non-empty body without line feed and a digit: it matches, and the
    greedy group 2 is the whole body. *)
Lemma wrapped_re_on_any pre a s d :
  (1 <= String.length pre <= 2)%nat ->
  forallb Re.upper_or_digit (list_ascii_of_string pre) = true ->
  Py.count (String a s) "010" = 0 -> Re.digit d = true ->
  exists m,
    Re.match_ Uwi.WRAPPED_RE (pre +:+ "/" +:+ String a s +:+ "/" +:+ String d EmptyString)
      = Some m /\
    Re.group m 2 = String a s.
Proof.
  intros Hlen Hpre Hs Hd.
  destruct pre as [|p1 [|p2 [|]]]; cbn in Hlen; try lia.
  - cbn in Hpre. apply andb_true_iff in Hpre as [Hp1 _].
    eexists. split.
    + rewrite wrapped_re_unfold, !append_cons, !append_empty.
      rewrite rep_prefix_one by done.
      rewrite <- (append_cons a s). by apply wrapped_tail_on.
    + unfold Re.group. by rewrite lookup_insert_ne, lookup_insert_eq.
  - cbn in Hpre. apply andb_true_iff in Hpre as [Hp1 Hpre].
    apply andb_true_iff in Hpre as [Hp2 _].
    eexists. split.
    + rewrite wrapped_re_unfold, !append_cons, !append_empty.
      apply rep_prefix_two; [done|done|].
      rewrite <- (append_cons a s). by apply wrapped_tail_on.
    + unfold Re.group. by rewrite lookup_insert_ne, lookup_insert_eq.
Qed.

Lemma strip_on_any pre s d :
  pre <> EmptyString ->
  forallb Re.upper_or_digit (list_ascii_of_string pre) = true ->
  Re.digit d = true ->
  Py.strip (pre +:+ "/" +:+ s +:+ "/" +:+ String d EmptyString)
  = pre +:+ "/" +:+ s +:+ "/" +:+ String d EmptyString.
Proof.
  intros Hne Hpre Hd. destruct pre as [|p1 pre]; [done|].
  cbn in Hpre. apply andb_true_iff in Hpre as [Hp1 _].
  rewrite append_cons.
  rewrite <- (append_assoc s "/" (String d "")), <- (append_assoc "/" (s +:+ "/")),
    <- (append_assoc pre).
  apply strip_fixed; [by apply upper_or_digit_not_space|by apply digit_not_space].
Qed.

(** X2. A wrapped entry - a prefix of one or two capitals or digits, a
    non-empty body without line feed, a digit, separated by slashes - is
    kept as it is by [ensure_wrapped], and [to_short_uwi] returns its
    body, in [newtest/] and at top level alike. *)
Theorem to_short_uwi_of_wrapped pre body d :
  (1 <= String.length pre <= 2)%nat ->
  forallb Re.upper_or_digit (list_ascii_of_string pre) = true ->
  body <> EmptyString -> Py.count body "010" = 0 -> Re.digit d = true ->
  let w := pre +:+ "/" +:+ body +:+ "/" +:+ String d EmptyString in
  Uwi.to_short_uwi w = body /\ Uwi.ensure_wrapped w = w /\
  Uwi.Top.to_short_uwi w = body /\ Uwi.Top.ensure_wrapped w = w.
Proof.
  intros Hlen Hpre Hne Hlf Hd w.
  destruct body as [|a s]; [done|].
  destruct (wrapped_re_on_any pre a s d Hlen Hpre Hlf Hd) as (m & Hm & Hg).
  assert (Hstrip : Py.strip w = w).
  { apply strip_on_any; [|done|done]. intros ->. cbn in Hlen. lia. }
  fold w in Hm.
  unfold Uwi.to_short_uwi, Uwi.ensure_wrapped, Uwi.Top.to_short_uwi,
    Uwi.Top.ensure_wrapped, Uwi.Top.is_wrapped_any, Uwi.wrapped_match.
  by rewrite !Hstrip, Hm.
Qed.

Lemma name_char_not_space c : Uwi.name_char c = true -> Py.isspace c = false.
Proof. destruct c as [[] [] [] [] [] [] [] []]; vm_compute; congruence. Qed.

Lemma name_char_not_slash c : Uwi.name_char c = true -> Ascii.eqb c "/" = false.
Proof. destruct c as [[] [] [] [] [] [] [] []]; vm_compute; congruence. Qed.

Lemma sub_plus_from_chars inrun s :
  forallb Uwi.name_char
    (list_ascii_of_string
       (Re.sub_plus_from (fun c => negb (Uwi.name_char c)) "_" inrun s)) = true.
Proof.
  revert inrun. induction s as [|c s IH]; intros inrun; [done|].
  cbn [Re.sub_plus_from]. destruct (Uwi.name_char c) eqn:Hc; cbn [negb].
  - cbn. by rewrite Hc, IH.
  - destruct inrun; [apply IH|]. cbn. apply IH.
Qed.

Lemma sub_plus_from_fixed s :
  forallb Uwi.name_char (list_ascii_of_string s) = true ->
  Re.sub_plus_from (fun c => negb (Uwi.name_char c)) "_" false s = s.
Proof.
  induction s as [|c s IH]; [done|]. cbn.
  intros [Hc Hs]%andb_true_iff. by rewrite Hc, (IH Hs).
Qed.

Lemma rstrip_fixed s :
  forallb (fun c => negb (Py.isspace c)) (list_ascii_of_string s) = true ->
  Py.rstrip s = s.
Proof.
  induction s as [|c s IH]; [done|]. cbn.
  intros [Hc Hs]%andb_true_iff. rewrite (IH Hs).
  destruct s; [|done]. by destruct (Py.isspace c).
Qed.

Lemma strip_name s :
  forallb Uwi.name_char (list_ascii_of_string s) = true -> Py.strip s = s.
Proof.
  intros Hs. unfold Py.strip.
  assert (Hl : Py.lstrip s = s).
  { destruct s as [|c s]; [done|]. cbn in Hs |- *.
    apply andb_true_iff in Hs as [Hc _]. by rewrite (name_char_not_space c Hc). }
  rewrite Hl. apply rstrip_fixed.
  clear Hl. induction s as [|c s IH]; [done|]. cbn in Hs |- *.
  apply andb_true_iff in Hs as [Hc Hs]. by rewrite (name_char_not_space c Hc), (IH Hs).
Qed.

Lemma replace_name s :
  forallb Uwi.name_char (list_ascii_of_string s) = true -> Py.replace s "/" "_" = s.
Proof.
  induction s as [|c s IH]; [done|]. cbn.
  intros [Hc Hs]%andb_true_iff. by rewrite (name_char_not_slash c Hc), (IH Hs).
Qed.

Lemma count_slash_name s :
  forallb Uwi.name_char (list_ascii_of_string s) = true -> Py.count s "/" = 0.
Proof.
  induction s as [|c s IH]; [done|]. cbn.
  intros [Hc Hs]%andb_true_iff. by rewrite (name_char_not_slash c Hc), (IH Hs).
Qed.

(** X3. [sanitize_name] and [well_label_from_entry] return names made
    of letters, digits, [_], [.] and [-] only - no slash, so the label
    is one path component - and both leave such a name as it is: they
    are idempotent. *)
Theorem sanitize_name_safe s :
  let name := Uwi.sanitize_name s in
  let label := Uwi.well_label_from_entry s in
  forallb Uwi.name_char (list_ascii_of_string name) = true /\
  Uwi.sanitize_name name = name /\
  forallb Uwi.name_char (list_ascii_of_string label) = true /\
  Py.count label "/" = 0 /\
  Uwi.well_label_from_entry label = label.
Proof.
  assert (Hsafe : forall t,
            forallb Uwi.name_char (list_ascii_of_string (Uwi.sanitize_name t)) = true)
    by (intros t; apply sub_plus_from_chars).
  assert (Hfix : forall t, forallb Uwi.name_char (list_ascii_of_string t) = true ->
                           Uwi.sanitize_name t = t).
  { intros t Ht. unfold Uwi.sanitize_name, Re.sub_plus.
    rewrite (strip_name t Ht). by apply sub_plus_from_fixed. }
  cbn zeta. split_and!.
  - apply Hsafe.
  - apply Hfix, Hsafe.
  - apply Hsafe.
  - apply count_slash_name, Hsafe.
  - unfold Uwi.well_label_from_entry at 1.
    set (label := Uwi.well_label_from_entry s).
    assert (Hl : forallb Uwi.name_char (list_ascii_of_string label) = true)
      by apply Hsafe.
    rewrite (strip_name label Hl), (replace_name label Hl). by apply Hfix.
Qed.

Lemma rstrip_idem s : Py.rstrip (Py.rstrip s) = Py.rstrip s.
Proof.
  induction s as [|c s IH]; [done|]. cbn [Py.rstrip].
  destruct (Py.rstrip s) as [|b r] eqn:E.
  - destruct (Py.isspace c) eqn:Hc; [done|]. cbn. by rewrite Hc.
  - cbn [Py.rstrip] in IH |- *. by rewrite IH.
Qed.

Lemma lstrip_rstrip s : Py.lstrip (Py.rstrip (Py.lstrip s)) = Py.rstrip (Py.lstrip s).
Proof.
  induction s as [|c s IH]; [done|]. cbn [Py.lstrip].
  destruct (Py.isspace c) eqn:Hc; [done|].
  cbn [Py.rstrip]. destruct (Py.rstrip s); rewrite ?Hc; cbn [Py.lstrip]; by rewrite Hc.
Qed.

Lemma strip_idem s : Py.strip (Py.strip s) = Py.strip s.
Proof. unfold Py.strip. by rewrite lstrip_rstrip, rstrip_idem. Qed.

(** X4. The top-level scraper's [ensure_wrapped] returns what the one
    of [newtest/] returns, on every entry, and its [to_short_uwi] is the
    other's on the stripped entry: on an entry that is not wrapped the
    top-level one strips, the other returns its argument as given. *)
Theorem top_ensure_wrapped_agrees u :
  Uwi.Top.ensure_wrapped u = Uwi.ensure_wrapped u /\
  Uwi.Top.to_short_uwi u = Uwi.to_short_uwi (Py.strip u).
Proof.
  unfold Uwi.Top.ensure_wrapped, Uwi.Top.is_wrapped_any, Uwi.wrapped_match,
    Uwi.Top.to_short_uwi, Uwi.ensure_wrapped, Uwi.to_short_uwi.
  rewrite !strip_idem. by destruct (Re.match_ _ _).
Qed.

End NameFacts.

Lemma to_short_uwi_of_wrapped_witness :
  Uwi.to_short_uwi "W0/06-12-045-08W5/2" = "06-12-045-08W5" /\
  Uwi.ensure_wrapped "W0/06-12-045-08W5/2" = "W0/06-12-045-08W5/2" /\
  Uwi.Top.to_short_uwi "W0/06-12-045-08W5/2" = "06-12-045-08W5" /\
  Uwi.Top.ensure_wrapped "W0/06-12-045-08W5/2" = "W0/06-12-045-08W5/2".
Proof.
  apply (to_short_uwi_of_wrapped "W0" "06-12-045-08W5" "2");
    [cbn; lia|reflexivity|done|reflexivity|reflexivity].
Defined.

(** ** Locks *)

Section LockMore.
Import Rclone Lock.
Variable ttl : Z.
Variable payload : Z -> string.
Implicit Types (w : World) (u key k : string) (e : Entry).

Lemma later_refl w : later w w.
Proof. exists 0%nat. split; [by rewrite drop_0|]. rewrite take_0. cbn [total_elapsed foldr]. lia. Qed.

Lemma total_elapsed_app (l1 l2 : list Run) :
  total_elapsed (l1 ++ l2) = total_elapsed l1 + total_elapsed l2.
Proof.
  unfold total_elapsed. induction l1 as [|r l1 IH]; cbn [app foldr]; [lia|].
  rewrite IH. lia.
Qed.

Lemma later_trans w1 w2 w3 : later w1 w2 -> later w2 w3 -> later w1 w3.
Proof.
  intros (n & Hs & Hc) (m & Hs' & Hc'). exists (n + m)%nat. split.
  - by rewrite Hs', Hs, drop_drop.
  - rewrite Hc', Hc, Hs. rewrite <- take_take_drop, total_elapsed_app. lia.
Qed.

Lemma later_after_run c w : later w (after_run c w).
Proof.
  exists 1%nat. unfold after_run, start. destruct (script w) as [|r rs]; cbn.
  - split; [done|]. unfold total_elapsed. cbn. lia.
  - rewrite drop_0, take_0. unfold total_elapsed. cbn [foldr]. split; [done|lia].
Qed.

Lemma later_script (P : Run -> Prop) w w' :
  later w w' -> Forall P (script w) -> Forall P (script w').
Proof. intros (n & -> & _). apply Forall_drop. Qed.

Lemma total_elapsed_nonneg (rs : list Run) :
  Forall (fun r => 0 <= elapsed r) rs -> 0 <= total_elapsed rs.
Proof. unfold total_elapsed. induction 1; cbn [foldr]; lia. Qed.

Lemma later_clock w w' :
  later w w' -> Forall (fun r => 0 <= elapsed r) (script w) ->
  clock w <= clock w' /\
  clock w' + total_elapsed (script w') = clock w + total_elapsed (script w).
Proof.
  intros (n & Hs & Hc) Hpos.
  pose proof (total_elapsed_nonneg (take n (script w)) (Forall_take _ n _ Hpos)).
  rewrite Hs, Hc. rewrite <- (take_drop n (script w)) at 4.
  rewrite total_elapsed_app. lia.
Qed.

Lemma next_exit_script (P : Run -> Prop) w :
  Forall P (script w) -> P {| exit := Clean; elapsed := 0 |} ->
  exists r, next_exit w = exit r /\ P r.
Proof.
  unfold next_exit. destruct (script w) as [|r rs]; intros H HP.
  - by exists {| exit := Clean; elapsed := 0 |}.
  - apply Forall_cons in H as [Hr _]. by exists r.
Qed.

Lemma deletefile_eq key w :
  deletefile key w =
  match next_exit w, remote w !! key with
  | Failed, _ | _, None => (Failed, after_run (Deletefile key) w)
  | ex, Some _ =>
      (ex, {| remote := delete key (remote w); disk := disk w;
              clock := clock (after_run (Deletefile key) w);
              script := script (after_run (Deletefile key) w);
              trace := Deletefile key :: trace w |})
  end.
Proof.
  unfold deletefile, mbind, M_bind, get_remote, mret, M_ret. rewrite start_eq.
  pose proof (remote_after_run (Deletefile key) w) as Hr.
  pose proof (trace_after_run (Deletefile key) w) as Ht.
  pose proof (disk_after_run (Deletefile key) w) as Hd.
  cbn. rewrite Hr.
  destruct (next_exit w), (remote w !! key); cbn; unfold set_remote; cbn;
    by rewrite ?Hr, ?Ht, ?Hd.
Qed.

(** What a run of [deletefile] leaves of the store. *)
Lemma deletefile_remote key w k :
  later w (deletefile key w).2 /\
  (remote (deletefile key w).2 !! k = remote w !! k \/
   (k = key /\ remote (deletefile key w).2 !! k = None)).
Proof.
  rewrite deletefile_eq.
  pose proof (later_after_run (Deletefile key) w) as Hl.
  pose proof (remote_after_run (Deletefile key) w) as Hr.
  destruct (next_exit w), (remote w !! key) eqn:E; cbn [snd];
    try (split; [exact Hl|left; by rewrite Hr]).
  all: split; [exact Hl|]; cbn [remote];
    destruct (decide (k = key)) as [->|Hne];
    [right; split; [done|apply lookup_delete_eq]|left; by apply lookup_delete_ne].
Qed.

Lemma purge_eq w :
  NewTest.purge_expired_locks ttl w =
  for_each (observed "locks" w).2
    (fun o =>
       if IsDir o then mret tt
       else if ttl <? clock (after_run (Lsjson "locks") w)
                      - mtime (clock (after_run (Lsjson "locks") w)) o
            then NewTest._delete ("locks/" +:+ Path o)
            else mret tt)
    (after_run (Lsjson "locks") w).
Proof.
  unfold NewTest.purge_expired_locks, mbind, M_bind. by rewrite lsjson_any_eq.
Qed.

(** The loop of [purge_expired_locks]: a key of the store is as it was,
    or it is gone and was the key of a listed file that is stale as
    read. *)
Lemma purge_loop now (l : list Entry) w k :
  let f : Entry -> M unit := fun o =>
    if IsDir o then mret tt
    else if ttl <? now - mtime now o
         then NewTest._delete ("locks/" +:+ Path o) else mret tt in
  later w (for_each l f w).2 /\
  (remote (for_each l f w).2 !! k = remote w !! k \/
   (remote (for_each l f w).2 !! k = None /\
    exists e, e ∈ l /\ IsDir e = false /\ ttl < now - mtime now e /\
              k = "locks/" +:+ Path e)).
Proof.
  intros f. revert w. induction l as [|e l IH]; intros w.
  - cbn. split; [apply later_refl|by left].
  - cbn [for_each]. unfold mbind, M_bind.
    assert (Hstep : exists w1,
              f e w = (tt, w1) /\ later w w1 /\
              (remote w1 !! k = remote w !! k \/
               (remote w1 !! k = None /\ IsDir e = false /\
                ttl < now - mtime now e /\ k = "locks/" +:+ Path e))).
    { unfold f. destruct (IsDir e) eqn:Hd.
      { exists w. split_and!; [done|apply later_refl|by left]. }
      destruct (Z.ltb_spec ttl (now - mtime now e)) as [Hlt|Hge].
      2:{ exists w. split_and!; [done|apply later_refl|by left]. }
      exists (deletefile ("locks/" +:+ Path e) w).2.
      destruct (deletefile_remote ("locks/" +:+ Path e) w k) as [Hl Hr].
      split_and!.
      - unfold NewTest._delete, mbind, M_bind, mret, M_ret.
        by destruct (deletefile _ w).
      - exact Hl.
      - destruct Hr as [Hr|[-> Hr]]; [by left|by right]. }
    destruct Hstep as (w1 & -> & Hl1 & Hr1).
    destruct (IH w1) as [Hl2 Hr2]. split; [by eapply later_trans|].
    destruct Hr2 as [Hr2|(Hn & e' & Hin & He')].
    + rewrite Hr2. destruct Hr1 as [Hr1|(Hn & He)]; [by left|].
      right. split; [done|]. exists e. split; [by left|done].
    + right. split; [done|]. exists e'. split; [by right|done].
Qed.

Lemma startswith_append p s : Py.startswith (p +:+ s) p = true.
Proof.
  induction p as [|a p IH]; [done|].
  rewrite append_cons. cbn [Py.startswith]. by rewrite Ascii.eqb_refl.
Qed.

(** A file in what a listing run returns is the object at the path
    listed, or an object directly inside it, with its time as read. *)
Lemma observed_file path w e :
  e ∈ (observed path w).2 -> IsDir e = false ->
  (exists o, remote w !! path = Some o /\ Path e = basename path) \/
  (remote w !! path = None /\
   exists o, remote w !! ((path +:+ "/") +:+ Path e) = Some o /\
             ModTime e = modtime_of o).
Proof.
  rewrite observed_snd. intros Hin Hd.
  assert (Hin' : e ∈ default [] (listing (remote w) path)).
  { destruct (next_exit w); [done|done|]. by apply elem_of_nil in Hin. }
  clear Hin. unfold listing in Hin'.
  destruct (remote w !! path) as [o|] eqn:Ho.
  - left. exists o. split; [done|]. cbn in Hin'.
    apply list_elem_of_singleton in Hin'. by subst e.
  - right. split; [done|].
    set (l := remove_dups _) in Hin'.
    assert (Hl : e ∈ l) by (destruct l; [by apply elem_of_nil in Hin'|done]).
    apply elem_of_remove_dups, list_elem_of_omap in Hl as ([k o] & Hko & Hc).
    apply elem_of_map_to_list in Hko.
    unfold child_entry in Hc. cbn [fst snd] in Hc.
    destruct (strip_prefix (path +:+ "/") k) as [rel|] eqn:Es; [|done].
    apply strip_prefix_some in Es. subst k.
    destruct rel as [|a rel]; [done|].
    destruct (cut (String a rel)).2 eqn:Ec; injection Hc as <-; [done|].
    exists o. by cbn.
Qed.

Lemma key_not_locks u : _key u <> "locks/locks".
Proof.
  unfold _key. intros H. injection H as H.
  destruct (Py.quote (Py.strip u)) as [|a1 [|a2 [|a3 [|a4 [|a5 [|a6 q]]]]]]; done.
Qed.

(** What [purge_expired_locks] leaves of the store. *)
Lemma purge_keeps w :
  let w' := (NewTest.purge_expired_locks ttl w).2 in
  let now := clock (after_run (Lsjson "locks") w) in
  (forall k o, remote w' !! k = Some o -> remote w !! k = Some o) /\
  (forall k, Py.startswith k "locks/" = false -> remote w' !! k = remote w !! k) /\
  (forall u o, remote w !! _key u = Some o -> apparent_age now o <= ttl ->
     remote w' !! _key u = Some o).
Proof.
  intros w' now. unfold w'. rewrite purge_eq. fold now.
  assert (Hloop := purge_loop now (observed "locks" w).2 (after_run (Lsjson "locks") w)).
  cbn zeta in Hloop. rewrite remote_after_run in Hloop.
  split_and!.
  - intros k o Hk. destruct (Hloop k) as [_ [Hr|[Hn _]]]; congruence.
  - intros k Hk. destruct (Hloop k) as [_ [Hr|(_ & e & _ & _ & _ & ->)]]; [done|].
    by rewrite (startswith_append "locks/" (Path e)) in Hk.
  - intros u o Ho Hage.
    destruct (Hloop (_key u)) as [_ [Hr|(_ & e & Hin & Hd & Hstale & He)]];
      [congruence|exfalso].
    destruct (observed_file "locks" w e Hin Hd) as [(o' & _ & Hp)|(_ & o' & Ho' & Hm)].
    + rewrite Hp in He. by apply key_not_locks in He.
    + change (("locks" +:+ "/") +:+ Path e) with ("locks/" +:+ Path e) in Ho'.
      rewrite <- He, Ho in Ho'. injection Ho' as <-.
      unfold apparent_age in Hage. unfold mtime in Hstale. rewrite Hm in Hstale. lia.
Qed.

(** X6. [purge_expired_locks] only removes: an object that is in the
    store afterwards was there before, unchanged; it touches nothing
    outside [locks/]; and it keeps the lock of every well whose age, as
    read when the listing run is over, is at most the TTL - a lock with
    an unreadable ["ModTime"], read as age 0, is never purged. *)
Theorem purge_expired_locks_keeps w :
  let w' := (NewTest.purge_expired_locks ttl w).2 in
  let now := clock (after_run (Lsjson "locks") w) in
  (forall k o, remote w' !! k = Some o -> remote w !! k = Some o) /\
  (forall k, Py.startswith k "locks/" = false -> remote w' !! k = remote w !! k) /\
  (forall u o, remote w !! _key u = Some o -> apparent_age now o <= ttl ->
     remote w' !! _key u = Some o).
Proof. exact (purge_keeps w). Qed.

Lemma purge_later w : later w (NewTest.purge_expired_locks ttl w).2.
Proof.
  rewrite purge_eq.
  destruct (purge_loop (clock (after_run (Lsjson "locks") w)) (observed "locks" w).2
              (after_run (Lsjson "locks") w) EmptyString) as [Hl _].
  eapply later_trans; [apply later_after_run|exact Hl].
Qed.

(** A call of [acquire_lock] that returns [True] leaves the lock at
    the key, last modified when the call ends. *)
Lemma write_payload_true key w w1 :
  write_payload payload key w = (true, w1) ->
  exists data,
    remote w1 !! key = Some {| o_mtime := clock w1; o_iso := true; o_data := data |}.
Proof.
  rewrite write_payload_eq. destruct (ok (next_exit w)); [|done].
  intros [= <-]. eexists. cbn [remote clock]. apply lookup_insert_eq.
Qed.

Lemma acquire_after_purge_true u w0 w1 :
  NewTest.acquire_after_purge ttl payload u w0 = (true, w1) ->
  exists data,
    remote w1 !! _key u = Some {| o_mtime := clock w1; o_iso := true; o_data := data |}.
Proof.
  rewrite acquire_after_purge_eq.
  destruct (observed (_key u) w0).2 as [|e arr]; [apply write_payload_true|].
  destruct (_ <? ttl); [done|apply write_payload_true].
Qed.

Lemma within_ttl w w' :
  later w w' ->
  Forall (fun r => exit r <> Failed /\ 0 <= elapsed r) (script w) ->
  total_elapsed (script w) < ttl ->
  clock w <= clock w' < clock w + ttl.
Proof.
  intros Hl Hs Httl.
  assert (Hpos : Forall (fun r => 0 <= elapsed r) (script w))
    by (eapply Forall_impl; [exact Hs|by intros r [_ ?]]).
  destruct (later_clock w w' Hl Hpos) as [Hle Heq].
  pose proof (total_elapsed_nonneg _ (later_script _ w w' Hl Hpos)). lia.
Qed.

Lemma next_run_ok w w' :
  later w w' ->
  Forall (fun r => exit r <> Failed /\ 0 <= elapsed r) (script w) ->
  next_exit w' <> Failed.
Proof.
  intros Hl Hs.
  destruct (next_exit_script _ w' (later_script _ w w' Hl Hs)) as (r & -> & Hr & _);
    [by split|done].
Qed.

(** X7. Mutual exclusion in [newtest/s3_lock.py]: once [acquire_lock]
    has returned [True], a further [acquire_lock] for the same well (the
    same entry up to surrounding blanks) returns [False] and leaves the
    lock as it is, as long as no run of [rclone] fails and the runs
    together take less than the TTL. It adds or changes no object. *)
Theorem acquire_lock_excludes u u' w w1 :
  NewTest.acquire_lock ttl payload u w = (true, w1) ->
  Py.strip u' = Py.strip u ->
  Forall (fun r => exit r <> Failed /\ 0 <= elapsed r) (script w1) ->
  total_elapsed (script w1) < ttl ->
  exists o,
    remote w1 !! _key u = Some o /\
    (NewTest.acquire_lock ttl payload u' w1).1 = false /\
    remote (NewTest.acquire_lock ttl payload u' w1).2 !! _key u = Some o /\
    (forall k o', remote (NewTest.acquire_lock ttl payload u' w1).2 !! k = Some o' ->
                  remote w1 !! k = Some o').
Proof.
  intros Hfirst Hu Hs Httl.
  assert (Hkey : _key u' = _key u) by (unfold _key; by rewrite Hu).
  assert (Ho : exists data, remote w1 !! _key u
                 = Some {| o_mtime := clock w1; o_iso := true; o_data := data |}).
  { revert Hfirst. unfold NewTest.acquire_lock, mbind, M_bind.
    destruct (NewTest.purge_expired_locks ttl w) as [[] wp].
    apply acquire_after_purge_true. }
  destruct Ho as [data Ho]. eexists. split; [exact Ho|].
  unfold NewTest.acquire_lock, mbind, M_bind.
  pose proof (purge_keeps w1) as (Hsub & _ & Hkeep).
  pose proof (purge_later w1) as Hl.
  destruct (NewTest.purge_expired_locks ttl w1) as [[] wp]. cbn [snd] in *.
  assert (Hp : remote wp !! _key u
               = Some {| o_mtime := clock w1; o_iso := true; o_data := data |}).
  { apply Hkeep; [exact Ho|]. unfold apparent_age, modtime_of. cbn.
    pose proof (within_ttl w1 _ (later_after_run (Lsjson "locks") w1) Hs Httl). lia. }
  rewrite acquire_after_purge_eq, Hkey.
  rewrite (observed_object _ _ _ Hp) by (by eapply next_run_ok).
  cbn [snd]. unfold mtime, modtime_of. cbn [o_iso o_mtime ModTime default]. unfold id.
  pose proof (within_ttl w1 _
                (later_trans _ _ _ Hl (later_after_run (Lsjson (_key u)) wp)) Hs Httl).
  destruct (Z.ltb_spec (clock (after_run (Lsjson (_key u)) wp) - clock w1) ttl); [|lia].
  cbn [fst snd]. rewrite remote_after_run. split_and!; [done|done|exact Hsub].
Qed.

(** X8. Mutual exclusion in [old/s3_lock.py]: once [acquire_lock] has
    returned [True], a further [acquire_lock] for the same well returns
    [False] and runs nothing but the listing, provided the listing run
    exits 0 without notices and ends less than the TTL after the lock
    was written. *)
Theorem old_acquire_lock_excludes u u' w w1 :
  Old.acquire_lock ttl payload u w = (Some true, w1) ->
  Py.strip u' = Py.strip u ->
  next_exit w1 = Clean ->
  clock (after_run (Lsjson (_key u)) w1) - clock w1 < ttl ->
  Old.acquire_lock ttl payload u' w1 = (Some false, after_run (Lsjson (_key u)) w1).
Proof.
  intros Hfirst Hu Hex Httl.
  assert (Hkey : _key u' = _key u) by (unfold _key; by rewrite Hu).
  assert (Ho : exists data, remote w1 !! _key u
                 = Some {| o_mtime := clock w1; o_iso := true; o_data := data |}).
  { revert Hfirst. rewrite old_acquire_lock_eq. cbn zeta.
    set (w0 := after_run (Lsjson (_key u)) w).
    assert (Hw : (Some (write_payload payload (_key u) w0).1,
                  (write_payload payload (_key u) w0).2) = (Some true, w1) ->
                 exists data, remote w1 !! _key u
                   = Some {| o_mtime := clock w1; o_iso := true; o_data := data |}).
    { intros [= H1 H2]. apply (write_payload_true _ w0).
      by destruct (write_payload payload (_key u) w0) as [b w2]; cbn in *; subst. }
    destruct (observed (_key u) w).1, (observed (_key u) w).2 as [|e arr];
      try done; destruct (_ <? ttl); done. }
  destruct Ho as [data Ho].
  rewrite old_acquire_lock_eq, Hkey. cbn zeta.
  rewrite (observed_object _ _ _ Ho) by (by rewrite Hex).
  rewrite Hex. cbn [fst snd]. unfold mtime, modtime_of.
  cbn [o_iso o_mtime ModTime default]. unfold id.
  by destruct (Z.ltb_spec (clock (after_run (Lsjson (_key u)) w1) - clock w1) ttl); [|lia].
Qed.

Lemma unquote_head_quote c r :
  Py.unquote_head (Py.quote_char c +:+ r) = Some (c, r).
Proof. destruct c as [[] [] [] [] [] [] [] []]; reflexivity. Qed.

Lemma quote_inj s1 s2 : Py.quote s1 = Py.quote s2 -> s1 = s2.
Proof.
  revert s2. induction s1 as [|c1 s1 IH]; intros [|c2 s2] H; cbn [Py.quote] in H.
  - done.
  - apply (f_equal Py.unquote_head) in H. by rewrite unquote_head_quote in H.
  - apply (f_equal Py.unquote_head) in H. by rewrite unquote_head_quote in H.
  - apply (f_equal Py.unquote_head) in H. rewrite !unquote_head_quote in H.
    injection H as -> H. by rewrite (IH _ H).
Qed.

Lemma append_inv_tail s1 s2 t : s1 +:+ t = s2 +:+ t -> s1 = s2.
Proof.
  intros H. apply (f_equal list_ascii_of_string) in H.
  rewrite !list_of_append in H. apply app_inv_tail in H.
  apply (f_equal string_of_list_ascii) in H.
  by rewrite !string_of_list_ascii_of_string in H.
Qed.

(** X5. Two entries have the same lock key exactly when they are the
    same up to surrounding blanks: the percent-encoding of [_key] loses
    nothing, so two wells never share a lock. *)
Theorem key_injective u1 u2 : _key u1 = _key u2 <-> Py.strip u1 = Py.strip u2.
Proof.
  unfold _key. split; [|by intros ->].
  intros H. injection H as H. rewrite !append_empty in H.
  by apply append_inv_tail, quote_inj in H.
Qed.

Lemma cut_quote_char c r : (cut (Py.quote_char c +:+ r)).2 = (cut r).2.
Proof. destruct c as [[] [] [] [] [] [] [] []]; reflexivity. Qed.

Lemma cut_quote s t : (cut (Py.quote s +:+ t)).2 = (cut t).2.
Proof.
  induction s as [|c s IH]; [done|].
  cbn [Py.quote]. by rewrite append_assoc, cut_quote_char.
Qed.

(** X10. The lock of a well is a single file under [locks/]: its key
    has no slash after that prefix, whatever the entry, so the listing
    of [locks] that [purge_expired_locks] reads shows it as a file, not
    as a directory, and under the name from which the purge rebuilds the
    very key. *)
Theorem key_single_file u (o : Obj) :
  exists name,
    _key u = "locks/" +:+ name /\ (cut name).2 = false /\
    child_entry "locks" (_key u, o)
      = Some {| Path := name; IsDir := false; ModTime := modtime_of o |}.
Proof.
  exists (Py.quote (Py.strip u) +:+ ".lock").
  assert (Hc : (cut (Py.quote (Py.strip u) +:+ ".lock")).2 = false)
    by (by rewrite cut_quote).
  split_and!; [done|done|].
  unfold child_entry, _key. cbn [fst snd].
  change ("locks" +:+ "/") with "locks/". rewrite strip_prefix_append, Hc.
  destruct (Py.quote (Py.strip u) +:+ ".lock") eqn:E; [|done].
  apply (f_equal String.length) in E. rewrite length_append in E. cbn in E. lia.
Qed.

Lemma rcat_remote key input w k :
  k <> key -> remote (rcat key input w).2 !! k = remote w !! k.
Proof.
  intros Hne. unfold rcat, mbind, M_bind, time_time, mret, M_ret. rewrite start_eq.
  pose proof (remote_after_run (Rcat key input) w) as Hr.
  destruct (next_exit w); cbn; rewrite ?Hr; try done; by apply lookup_insert_ne.
Qed.

Lemma write_payload_remote key w k :
  k <> key -> remote (write_payload payload key w).2 !! k = remote w !! k.
Proof.
  intros Hne. unfold write_payload, mbind, M_bind, time_time, mret, M_ret.
  pose proof (rcat_remote key (payload (clock w)) w k Hne) as H.
  by destruct (rcat key (payload (clock w)) w).
Qed.

Lemma deletefile_other key w k :
  k <> key -> remote (deletefile key w).2 !! k = remote w !! k.
Proof. intros Hne. by destruct (deletefile_remote key w k) as [_ [H|[? _]]]. Qed.

Lemma delete_other key w k :
  k <> key -> remote (NewTest._delete key w).2 !! k = remote w !! k.
Proof.
  intros Hne. unfold NewTest._delete, mbind, M_bind, mret, M_ret.
  pose proof (deletefile_other key w k Hne). by destruct (deletefile key w).
Qed.

(** X9. The lock functions work on the lock's key alone. The old
    [acquire_lock] and both [release_lock] leave every other key of the
    store as it was; the new [acquire_lock], which purges first, leaves
    every key outside [locks/] as it was. When its run of [deletefile]
    does not fail, [release_lock] leaves no object at the lock's key. *)
Theorem lock_functions_frame u w k :
  (k <> _key u ->
     remote (Old.acquire_lock ttl payload u w).2 !! k = remote w !! k /\
     remote (Old.release_lock u w).2 !! k = remote w !! k /\
     remote (NewTest.release_lock u w).2 !! k = remote w !! k) /\
  (Py.startswith k "locks/" = false ->
     remote (NewTest.acquire_lock ttl payload u w).2 !! k = remote w !! k) /\
  (next_exit w <> Failed ->
     remote (Old.release_lock u w).2 !! _key u = None /\
     remote (NewTest.release_lock u w).2 !! _key u = None).
Proof.
  split_and!.
  - intros Hne. split_and!.
    + rewrite old_acquire_lock_eq. cbn zeta.
      pose proof (write_payload_remote (_key u) (after_run (Lsjson (_key u)) w) k Hne) as Hw.
      rewrite remote_after_run in Hw.
      destruct (observed (_key u) w).1, (observed (_key u) w).2 as [|e arr];
        cbn [snd]; rewrite ?remote_after_run; try done;
        destruct (_ <? ttl); cbn [snd]; by rewrite ?remote_after_run.
    + unfold Old.release_lock, mbind, M_bind, mret, M_ret.
      pose proof (deletefile_other (_key u) w k Hne). by destruct (deletefile _ w).
    + by apply delete_other.
  - intros Hk.
    assert (Hne : k <> _key u) by (intros ->; done).
    unfold NewTest.acquire_lock, mbind, M_bind.
    pose proof (purge_keeps w) as (_ & Hout & _).
    specialize (Hout k Hk).
    destruct (NewTest.purge_expired_locks ttl w) as [[] wp]. cbn [snd] in Hout.
    rewrite <- Hout, acquire_after_purge_eq.
    pose proof (write_payload_remote (_key u) (after_run (Lsjson (_key u)) wp) k Hne) as Hw.
    rewrite remote_after_run in Hw.
    destruct (observed (_key u) wp).2 as [|e arr]; [done|].
    destruct (_ <? ttl); cbn [snd]; [by rewrite remote_after_run|].
    rewrite write_payload_remote, delete_other by done. by rewrite remote_after_run.
  - intros Hex.
    assert (Hd : remote (deletefile (_key u) w).2 !! _key u = None).
    { rewrite deletefile_eq.
      destruct (next_exit w), (remote w !! _key u) eqn:E; cbn [snd remote];
        rewrite ?remote_after_run; try done; apply lookup_delete_eq. }
    unfold Old.release_lock, NewTest.release_lock, NewTest._delete, mbind, M_bind,
      mret, M_ret.
    by destruct (deletefile (_key u) w).
Qed.

End LockMore.

Lemma acquire_lock_excludes_witness :
  exists o,
    Rclone.remote Lock.world_locked !! Lock._key "01-01-099-14W4" = Some o /\
    (Lock.NewTest.acquire_lock 3600 Lock.sample_payload " 01-01-099-14W4 "
       Lock.world_locked).1 = false /\
    Rclone.remote
      (Lock.NewTest.acquire_lock 3600 Lock.sample_payload " 01-01-099-14W4 "
         Lock.world_locked).2 !! Lock._key "01-01-099-14W4" = Some o /\
    (forall k o',
       Rclone.remote
         (Lock.NewTest.acquire_lock 3600 Lock.sample_payload " 01-01-099-14W4 "
            Lock.world_locked).2 !! k = Some o' ->
       Rclone.remote Lock.world_locked !! k = Some o').
Proof.
  apply (acquire_lock_excludes 3600 Lock.sample_payload "01-01-099-14W4"
           " 01-01-099-14W4 " Lock.world_no_lock Lock.world_locked).
  - vm_compute. reflexivity.
  - reflexivity.
  - vm_compute. repeat constructor; discriminate.
  - vm_compute. reflexivity.
Defined.

Lemma old_acquire_lock_excludes_witness :
  Lock.Old.acquire_lock 3600 Lock.sample_payload " 01-01-099-14W4 "
    (Lock.Old.acquire_lock 3600 Lock.sample_payload "01-01-099-14W4" Lock.world_no_lock).2
  = (Some false,
     Rclone.after_run (Rclone.Lsjson (Lock._key "01-01-099-14W4"))
       (Lock.Old.acquire_lock 3600 Lock.sample_payload "01-01-099-14W4"
          Lock.world_no_lock).2).
Proof.
  apply (old_acquire_lock_excludes 3600 Lock.sample_payload "01-01-099-14W4"
           " 01-01-099-14W4 " Lock.world_no_lock).
  - vm_compute. reflexivity.
  - reflexivity.
  - vm_compute. reflexivity.
  - vm_compute. reflexivity.
Defined.

(** ** Uploads and listings *)

Section MergeMore.
Import Rclone Merge.
Implicit Types (w : World) (e : Entry) (key prefix name : string).

Lemma any_file arr :
  Py.any (map (fun o => negb (IsDir o)) arr) = true <->
  exists name, has_file name arr = true.
Proof.
  unfold Py.any. rewrite existsb_exists. split.
  - intros (b & Hin & Hb). unfold id in Hb. subst b.
    apply in_map_iff in Hin as (e & He & Hin).
    exists (Path e). apply has_file_true. exists e.
    split_and!; [by apply list_elem_of_In|by destruct (IsDir e)|done].
  - intros (name & (e & Hin & Hd & _)%has_file_true).
    exists true. split; [|done]. apply in_map_iff. exists e.
    split; [by rewrite Hd|by apply list_elem_of_In].
Qed.

(** X11. The top-level [s3_any_under] looks one level deep only: when
    the listing run exits 0 without notices, it returns [True] exactly
    when the prefix is itself an object or some object lies directly in
    it - objects further down do not count; when the run fails or prints
    notices, it returns [False]. It runs the listing and nothing
    else. *)
Theorem top_s3_any_under_spec prefix w :
  (Top.s3_any_under prefix w).2 = after_run (Lsjson prefix) w /\
  (next_exit w <> Clean -> (Top.s3_any_under prefix w).1 = false) /\
  (next_exit w = Clean -> is_Some (remote w !! prefix) ->
     (Top.s3_any_under prefix w).1 = true) /\
  (next_exit w = Clean -> remote w !! prefix = None ->
     ((Top.s3_any_under prefix w).1 = true <->
      exists name, name <> EmptyString /\ (cut name).2 = false /\
                   is_Some (remote w !! ((prefix +:+ "/") +:+ name)))).
Proof.
  unfold Top.s3_any_under, Top.s3_lsjson, mbind, M_bind, mret, M_ret.
  rewrite lsjson_eq. cbn [fst snd]. split_and!.
  - done.
  - intros Hex. unfold observed.
    by destruct (next_exit w), (listing (remote w) prefix).
  - intros Hex [o Ho]. rewrite (observed_object _ _ _ Ho) by (by rewrite Hex).
    by rewrite Hex.
  - intros Hex Ho.
    replace (match (observed prefix w).1 with Clean => (observed prefix w).2 | _ => [] end)
      with (default [] (listing (remote w) prefix)).
    2:{ unfold observed. rewrite Hex. by destruct (listing (remote w) prefix). }
    rewrite any_file. split.
    + intros (name & Hf). exists name. by apply (listing_directory _ _ Ho).
    + intros (name & Hf). exists name. by apply (listing_directory _ _ Ho).
Qed.

(** X12. [s3_list_prefix] of [newtest/s3_merge.py] returns the names of
    the objects directly in the prefix when the listing run does not
    fail (the prefix not being an object itself), and the empty list
    when it fails. Sub-directories and what they hold are left out. *)
Theorem s3_list_prefix_spec prefix w :
  (NewTest.s3_list_prefix prefix w).2 = after_run (Lsjson prefix) w /\
  (next_exit w = Failed -> (NewTest.s3_list_prefix prefix w).1 = []) /\
  (next_exit w <> Failed -> remote w !! prefix = None ->
     forall name,
       name ∈ (NewTest.s3_list_prefix prefix w).1 <->
       name <> EmptyString /\ (cut name).2 = false /\
       is_Some (remote w !! ((prefix +:+ "/") +:+ name))).
Proof.
  unfold NewTest.s3_list_prefix, NewTest.s3_lsjson, mbind, M_bind, mret, M_ret.
  rewrite lsjson_eq. cbn [fst snd]. split_and!.
  - done.
  - intros Hex. unfold observed. by rewrite Hex.
  - intros Hex Ho name.
    replace (if ok (observed prefix w).1 then (observed prefix w).2 else [])
      with (default [] (listing (remote w) prefix)).
    2:{ unfold observed. by destruct (next_exit w), (listing (remote w) prefix). }
    rewrite <- (listing_directory _ _ Ho), has_file_true.
    rewrite list_elem_of_fmap. split.
    + intros (e & -> & Hin). apply list_elem_of_In, filter_In in Hin as [Hin Hd].
      exists e. split_and!; [by apply list_elem_of_In|by destruct (IsDir e)|done].
    + intros (e & Hin & Hd & <-). exists e. split; [done|].
      apply list_elem_of_In, filter_In. split; [by apply list_elem_of_In|by rewrite Hd].
Qed.

Lemma s3_put_text_eq key text w :
  NewTest.s3_put_text key text w =
  (ok (next_exit w),
   if ok (next_exit w)
   then {| remote := <[key := {| o_mtime := clock (after_run (Rcat key text) w);
                                 o_iso := true; o_data := text |}]> (remote w);
           disk := disk w;
           clock := clock (after_run (Rcat key text) w);
           script := script (after_run (Rcat key text) w);
           trace := Rcat key text :: trace w |}
   else after_run (Rcat key text) w).
Proof.
  unfold NewTest.s3_put_text, rcat, mbind, M_bind, time_time, mret, M_ret.
  rewrite start_eq.
  pose proof (remote_after_run (Rcat key text) w) as Hr.
  pose proof (trace_after_run (Rcat key text) w) as Ht.
  pose proof (disk_after_run (Rcat key text) w) as Hd.
  destruct (next_exit w); cbn; unfold set_remote; cbn; by rewrite ?Hr, ?Ht, ?Hd.
Qed.

Lemma s3_exists_eq key w :
  NewTest.s3_exists key w =
  (has_file (Py.path_name key) (observed (parent_of key) w).2,
   after_run (Lsjson (parent_of key)) w).
Proof.
  unfold NewTest.s3_exists, NewTest.s3_lsjson, mbind, M_bind, mret, M_ret.
  fold (parent_of key). rewrite lsjson_eq. cbn [fst snd].
  do 2 f_equal. unfold observed.
  by destruct (next_exit w), (listing (remote w) (parent_of key)).
Qed.

(** In a world where the object is at a key in normal form and the
    listing run does not fail, the new [s3_exists] finds it. *)
Lemma has_file_present key w :
  next_exit w <> Failed -> is_Some (remote w !! key) ->
  remote w !! parent_of key = None ->
  key = (parent_of key +:+ "/") +:+ Py.path_name key ->
  Py.path_name key <> EmptyString -> (cut (Py.path_name key)).2 = false ->
  has_file (Py.path_name key) (observed (parent_of key) w).2 = true.
Proof.
  intros Hex Ho Hp Hkey Hne Hcut. rewrite observed_snd.
  assert (Hin : has_file (Py.path_name key)
                  (default [] (listing (remote w) (parent_of key))) = true).
  { apply (listing_directory _ _ Hp). split_and!; [done|done|]. by rewrite <- Hkey. }
  by destruct (next_exit w).
Qed.

Lemma parent_differs key :
  key = (parent_of key +:+ "/") +:+ Py.path_name key -> parent_of key <> key.
Proof.
  intros Hkey E. rewrite E in Hkey. apply (f_equal String.length) in Hkey.
  rewrite !length_append in Hkey. cbn in Hkey. lia.
Qed.

(** X13. What [s3_put_text] has written is found again. When it
    returns [True], the object at the key holds the text given,
    whatever was there before. If moreover the key is in normal form,
    its parent is no object and the next listing run does not fail,
    [s3_exists] then returns [True] and [s3_copyto_if_new] skips the key
    without running a copy. *)
Theorem s3_put_text_then_exists key text local w :
  (NewTest.s3_put_text key text w).1 = true ->
  let w1 := (NewTest.s3_put_text key text w).2 in
  o_data <$> remote w1 !! key = Some text /\
  (next_exit w1 <> Failed ->
   remote w !! parent_of key = None ->
   key = (parent_of key +:+ "/") +:+ Py.path_name key ->
   Py.path_name key <> EmptyString -> (cut (Py.path_name key)).2 = false ->
   (NewTest.s3_exists key w1).1 = true /\
   NewTest.s3_copyto_if_new local key w1 = (false, after_run (Lsjson (parent_of key)) w1)).
Proof.
  intros Hok w1.
  assert (Hw1 : remote w1 = <[key := {| o_mtime := clock (after_run (Rcat key text) w);
                                        o_iso := true; o_data := text |}]> (remote w)).
  { unfold w1. revert Hok. rewrite s3_put_text_eq. cbn [fst snd].
    by destruct (ok (next_exit w)). }
  split; [by rewrite Hw1, lookup_insert_eq|].
  intros Hex Hp Hkey Hne Hcut.
  assert (Hfile : has_file (Py.path_name key) (observed (parent_of key) w1).2 = true).
  { apply has_file_present; try done.
    - rewrite Hw1, lookup_insert_eq. by eexists.
    - rewrite Hw1, lookup_insert_ne; [done|]. intros E. by apply (parent_differs key). }
  split.
  - by rewrite s3_exists_eq.
  - by rewrite s3_copyto_if_new_eq, Hfile.
Qed.

Lemma copy_true local key w w1 :
  copy local key w = (true, w1) ->
  is_Some (remote w1 !! key) /\ next_exit w <> Failed.
Proof.
  rewrite copy_eq. intros [= Hok <-].
  apply andb_true_iff in Hok as [Hex Hd].
  apply bool_decide_eq_true in Hd as [data Hd]. rewrite Hd.
  split; [|by destruct (next_exit w)].
  destruct (next_exit w), (remote w !! key) eqn:Ekey;
    cbn; rewrite ?remote_after_run, ?lookup_insert_eq; try done; by eexists.
Qed.

(** X14. An upload is not repeated: once [s3_copyto_if_new] has
    returned [True] for a key, a further call for that key - with any
    local file - returns [False] and runs the listing alone, provided
    the listing run succeeds (in [newtest/]: it does not fail, the key
    is in normal form and its parent is no object; at top level: it
    exits 0 without notices, and the name that [Path(remote_key).name]
    gives is what follows the last slash of the key, as it is unless
    the key ends in a slash or in a dot component). *)
Theorem s3_copyto_if_new_twice local local' key w w1 :
  (NewTest.s3_copyto_if_new local key w = (true, w1) ->
   next_exit w1 <> Failed -> remote w1 !! parent_of key = None ->
   key = (parent_of key +:+ "/") +:+ Py.path_name key ->
   Py.path_name key <> EmptyString -> (cut (Py.path_name key)).2 = false ->
   NewTest.s3_copyto_if_new local' key w1
   = (false, after_run (Lsjson (parent_of key)) w1)) /\
  (Top.s3_copyto_if_new local key w = (true, w1) ->
   next_exit w1 = Clean -> Py.path_name key = basename key ->
   Top.s3_copyto_if_new local' key w1 = (false, after_run (Lsjson key) w1)).
Proof.
  split.
  - intros Hfirst Hex Hp Hkey Hne Hcut.
    assert (Ho : is_Some (remote w1 !! key)).
    { revert Hfirst. rewrite s3_copyto_if_new_eq.
      destruct (has_file _ _); [done|]. by intros [? _]%copy_true. }
    by rewrite s3_copyto_if_new_eq, has_file_present.
  - intros Hfirst Hex Hname.
    assert (Ho : is_Some (remote w1 !! key)).
    { revert Hfirst. rewrite top_s3_copyto_if_new_eq.
      destruct (has_file _ _); [done|]. by intros [? _]%copy_true. }
    destruct Ho as [o Ho]. rewrite top_s3_copyto_if_new_eq.
    rewrite (observed_object _ _ _ Ho) by (by rewrite Hex). rewrite Hex. cbn [fst snd].
    replace (has_file _ _) with true; [done|].
    symmetry. apply has_file_true. eexists. split; [by left|]. by cbn.
Qed.

End MergeMore.

Lemma s3_put_text_then_exists_witness :
  Rclone.o_data <$>
    Rclone.remote
      (Merge.NewTest.s3_put_text "Data/01-01-099-14W4/Well_Gas_Analysis/sheets.txt"
         "Gas_Analysis" Merge.world_sheet_absent).2
      !! "Data/01-01-099-14W4/Well_Gas_Analysis/sheets.txt" = Some "Gas_Analysis" /\
  (Merge.NewTest.s3_exists "Data/01-01-099-14W4/Well_Gas_Analysis/sheets.txt"
     (Merge.NewTest.s3_put_text "Data/01-01-099-14W4/Well_Gas_Analysis/sheets.txt"
        "Gas_Analysis" Merge.world_sheet_absent).2).1 = true /\
  Merge.NewTest.s3_copyto_if_new "Data/Gas_Analysis.csv"
    "Data/01-01-099-14W4/Well_Gas_Analysis/sheets.txt"
    (Merge.NewTest.s3_put_text "Data/01-01-099-14W4/Well_Gas_Analysis/sheets.txt"
       "Gas_Analysis" Merge.world_sheet_absent).2
  = (false,
     Rclone.after_run
       (Rclone.Lsjson (Merge.parent_of "Data/01-01-099-14W4/Well_Gas_Analysis/sheets.txt"))
       (Merge.NewTest.s3_put_text "Data/01-01-099-14W4/Well_Gas_Analysis/sheets.txt"
          "Gas_Analysis" Merge.world_sheet_absent).2).
Proof.
  destruct (s3_put_text_then_exists "Data/01-01-099-14W4/Well_Gas_Analysis/sheets.txt"
              "Gas_Analysis" "Data/Gas_Analysis.csv" Merge.world_sheet_absent)
    as [Hheld Hfound]; [by vm_compute|].
  split; [exact Hheld|]. apply Hfound; by vm_compute.
Defined.

Lemma s3_copyto_if_new_twice_witness :
  Merge.NewTest.s3_copyto_if_new "Data/Other.csv" "raw/01-01-099-14W4/Gas_Analysis.csv"
    (Merge.NewTest.s3_copyto_if_new "Data/Gas_Analysis.csv"
       "raw/01-01-099-14W4/Gas_Analysis.csv" Merge.world_sheet_absent).2
  = (false,
     Rclone.after_run
       (Rclone.Lsjson (Merge.parent_of "raw/01-01-099-14W4/Gas_Analysis.csv"))
       (Merge.NewTest.s3_copyto_if_new "Data/Gas_Analysis.csv"
          "raw/01-01-099-14W4/Gas_Analysis.csv" Merge.world_sheet_absent).2) /\
  Merge.Top.s3_copyto_if_new "Data/Other.csv" "raw/01-01-099-14W4/Gas_Analysis.csv"
    (Merge.Top.s3_copyto_if_new "Data/Gas_Analysis.csv"
       "raw/01-01-099-14W4/Gas_Analysis.csv" Merge.world_sheet_absent).2
  = (false,
     Rclone.after_run (Rclone.Lsjson "raw/01-01-099-14W4/Gas_Analysis.csv")
       (Merge.Top.s3_copyto_if_new "Data/Gas_Analysis.csv"
          "raw/01-01-099-14W4/Gas_Analysis.csv" Merge.world_sheet_absent).2).
Proof.
  split.
  - apply (proj1 (s3_copyto_if_new_twice "Data/Gas_Analysis.csv" "Data/Other.csv"
                    "raw/01-01-099-14W4/Gas_Analysis.csv" Merge.world_sheet_absent _));
      by vm_compute.
  - apply (proj2 (s3_copyto_if_new_twice "Data/Gas_Analysis.csv" "Data/Other.csv"
                    "raw/01-01-099-14W4/Gas_Analysis.csv" Merge.world_sheet_absent _));
      by vm_compute.
Defined.

(** ** The per-well state *)

Section StateMore.
Import State.
Implicit Types (st : WellState) (ds : gmap string Dashboard)
  (files : gmap string FileMeta) (clk : Clock).

(** The list [state_list_incomplete_sheets] returns, in closed form. *)
Lemma incomplete_list st dash (all_sheets : list string) ds :
  dashboards st = Some ds ->
  fst <$> state_list_incomplete_sheets st dash all_sheets =
  Some (List.filter
          (fun s => negb (bool_decide ((files_of ds dash !! s) ≫= f_status = Some "complete")))
          all_sheets).
Proof.
  intros Hds. unfold state_list_incomplete_sheets. rewrite Hds.
  pose proof (setdefault_fst ds dash new_dashboard) as H1.
  destruct (setdefault ds dash new_dashboard) as [d ds1]. cbn in H1. subst d.
  fold (files_of ds dash). cbn. f_equal.
  apply filter_ext_in_iff. intros s Hin%list_elem_of_In. f_equal.
  rewrite fold_setdefault_lookup. destruct (files_of ds dash !! s); [done|].
  rewrite decide_True by done. cbn. by rewrite !bool_decide_eq_false_2.
Qed.

(** What a call of [state_mark_sheet_complete] saves. *)
Lemma state_mark_sheet_complete_saved clk stored label dash sheet key st :
  state_mark_sheet_complete clk stored label dash sheet key = Some st ->
  exists ds files,
    dashboards (state_load clk stored label) = Some ds /\
    d_files (default new_dashboard (ds !! dash)) = Some files /\
    dashboards st = Some (<[dash := done_dashboard clk files sheet key]> ds).
Proof.
  rewrite state_mark_sheet_complete_unfold. cbn zeta.
  destruct (dashboards _) as [ds|]; [|done].
  destruct (d_files _) as [files|] eqn:Ef; [|done].
  unfold state_save. destruct (well_label _); [|done].
  intros [= <-]. by exists ds, files.
Qed.

(** X15. Marking a sheet complete takes it off the list of incomplete
    sheets, and takes nothing else off: on the state that
    [state_mark_sheet_complete] saves, [state_list_incomplete_sheets]
    returns, for any manifest, what it returns on the state loaded
    before, without that sheet. *)
Theorem mark_then_list_incomplete clk stored label dash sheet key st
    (all_sheets : list string) :
  state_mark_sheet_complete clk stored label dash sheet key = Some st ->
  exists before,
    fst <$> state_list_incomplete_sheets (state_load clk stored label) dash all_sheets
      = Some before /\
    fst <$> state_list_incomplete_sheets st dash all_sheets
      = Some (List.filter (fun s => negb (String.eqb s sheet)) before).
Proof.
  intros (ds & files & Hds & Hfiles & Hst)%state_mark_sheet_complete_saved.
  eexists. split; [by apply incomplete_list|].
  rewrite (incomplete_list _ _ _ _ Hst). f_equal.
  assert (Hf : files_of ds dash = files) by (unfold files_of; by rewrite Hfiles).
  assert (Hf' : files_of (<[dash := done_dashboard clk files sheet key]> ds) dash
                = <[sheet := done_file key]> files)
    by (unfold files_of; by rewrite lookup_insert_eq).
  rewrite Hf, Hf'. clear.
  induction all_sheets as [|s l IH]; [done|]. cbn [List.filter].
  destruct (String.eqb_spec s sheet) as [->|Hne].
  - rewrite lookup_insert_eq. cbn. rewrite bool_decide_eq_true_2 by done. cbn [negb].
    destruct (bool_decide _); cbn [negb List.filter]; by rewrite ?String.eqb_refl.
  - rewrite lookup_insert_ne by done.
    destruct (bool_decide _); cbn [negb List.filter]; [done|].
    apply String.eqb_neq in Hne. by rewrite Hne, IH.
Qed.

(** X16. [can_skip_well_by_state] never skips a well without stored
    state, or whose state has no dashboards. On a state saved by
    [state_mark_sheet_complete] or [state_mark_dashboard_done] it skips
    the dashboard exactly when every entry of the dashboard's
    ["files"] map is complete. *)
Theorem can_skip_well_by_state_spec clk clk' stored label dash sheet key
    (codes : list string) :
  can_skip_well_by_state clk None label codes = false /\
  (forall st,
     state_mark_sheet_complete clk stored label dash sheet key = Some st \/
     state_mark_dashboard_done clk stored label dash = Some st ->
     (can_skip_well_by_state clk' (Some st) label [dash] = true <->
      map_Forall (fun _ meta => f_status meta = Some "complete")
        (files_of (default ∅ (dashboards st)) dash))).
Proof.
  split; [done|].
  intros st Hst.
  assert (H : exists ds d files,
            dashboards st = Some ds /\ ds !! dash = Some d /\ d_files d = Some files /\
            d_status d = Some (status_of (all_complete files))).
  { destruct Hst as [H|H].
    - apply state_mark_sheet_complete_saved in H as (ds & files & _ & _ & ->).
      eexists _, _, _. split_and!; [done|apply lookup_insert_eq|done|done].
    - unfold state_mark_dashboard_done in H.
      destruct (dashboards _) as [ds|]; [|done].
      destruct (setdefault ds dash new_dashboard) as [d ds'].
      destruct (d_files d) as [files|] eqn:Ef; [|done].
      unfold state_save in H. destruct (well_label _); [|done].
      injection H as <-. cbn.
      eexists _, _, _. split_and!; [done|apply lookup_insert_eq|exact Ef|done]. }
  destruct H as (ds & d & files & Hds & Hd & Hf & Hs).
  unfold can_skip_well_by_state, state_load. rewrite Hds. cbn [dashboards default].
  unfold id.
  rewrite bool_decide_eq_false_2 by (intros E; by rewrite E in Hd).
  cbn [forallb]. unfold files_of. rewrite Hd. cbn. rewrite Hf, Hs. cbn.
  by rewrite andb_true_r, bool_decide_eq_true, status_of_complete, all_complete_spec.
Qed.


End StateMore.


Lemma mark_then_list_incomplete_witness :
  exists before,
    fst <$> State.state_list_incomplete_sheets
              (State.state_load State.sample_clock (Some State.sample_state)
                 "01-01-099-14W4")
              "Well_Gas_Analysis" ["Gas_Analysis"; "Gas_Summary"; "Notes"]
      = Some before /\
    fst <$> State.state_list_incomplete_sheets
              (State.set_updated_at
                 (State.set_dashboards State.sample_state
                    (<["Well_Gas_Analysis" :=
                         State.done_dashboard State.sample_clock
                           (State.files_of State.sample_dashboards "Well_Gas_Analysis")
                           "Notes" "raw/Notes.csv"]> State.sample_dashboards))
                 (State.t_save State.sample_clock))
              "Well_Gas_Analysis" ["Gas_Analysis"; "Gas_Summary"; "Notes"]
      = Some (List.filter (fun s => negb (String.eqb s "Notes")) before).
Proof.
  apply (mark_then_list_incomplete State.sample_clock (Some State.sample_state)
           "01-01-099-14W4" "Well_Gas_Analysis" "Notes" "raw/Notes.csv").
  reflexivity.
Defined.

(** ** The raw tables *)

Section WarehouseMore.
Import Warehouse.
Implicit Types (db : DB) (t : Table) (table c : string) (l : list string).

(** The table once the columns [l] are added: the rows get NULL in
    them. *)
Lemma add_columns_some table l :
  forall db t,
    db !! table = Some t -> NoDup l -> (forall c, c ∈ l -> c ∉ columns t) ->
    add_columns db table l =
    Some (<[table := {| columns := columns t ++ l;
                        rows := (fun r => r ++ replicate (length l) None) <$> rows t |}]> db).
Proof.
  induction l as [|c l IH]; intros db t Ht Hnd Hnew; cbn [add_columns].
  - f_equal. rewrite app_nil_r. cbn [length replicate].
    rewrite <- (insert_id db table t Ht) at 1. f_equal. destruct t as [cols rs]. cbn.
    f_equal. rewrite <- (list_fmap_id rs) at 1. apply list_fmap_ext.
    intros _ r _. by rewrite app_nil_r.
  - apply NoDup_cons in Hnd as [Hc Hnd].
    unfold add_column. rewrite Ht.
    assert (Hm : Py.mem c (columns t) = false).
    { apply mem_false, Hnew. by left. }
    rewrite Hm.
    erewrite IH; [|apply lookup_insert_eq|done|].
    2:{ intros c' Hin. cbn. intros [H|H%list_elem_of_singleton]%elem_of_app.
        - by apply (Hnew c'); [right|].
        - by subst c'. }
    rewrite insert_insert_eq. cbn [columns rows length]. do 3 f_equal.
    + by rewrite <- app_assoc.
    + rewrite <- list_fmap_compose. apply list_fmap_ext. intros _ r _. cbn.
      by rewrite <- app_assoc.
Qed.

Lemma add_columns_inv table l :
  forall db t db',
    db !! table = Some t -> add_columns db table l = Some db' ->
    NoDup l /\ (forall c, c ∈ l -> c ∉ columns t).
Proof.
  induction l as [|c l IH]; intros db t db' Ht; cbn [add_columns].
  - intros _. split; [constructor|]. by intros c ?%elem_of_nil.
  - unfold add_column. rewrite Ht.
    destruct (Py.mem c (columns t)) eqn:Hm; [done|].
    apply mem_false in Hm.
    intros H. eapply IH in H as [Hnd Hnew]; [|apply lookup_insert_eq].
    cbn in Hnew. split.
    + apply NoDup_cons. split; [|done]. intros Hin.
      apply (Hnew c Hin), elem_of_app. right. by left.
    + intros c' [->|Hin]%elem_of_cons; [done|].
      intros Hc'. apply (Hnew c' Hin), elem_of_app. by left.
Qed.

(** The columns [ensure_raw_table] adds to an existing table. *)
Lemma to_add_spec (existing union_cols : list string) c :
  c ∈ List.filter (fun c => negb (Py.mem c existing)) union_cols
      ++ List.filter (fun c => negb (Py.mem c existing)) PROVENANCE <->
  (c ∈ union_cols \/ c ∈ PROVENANCE) /\ c ∉ existing.
Proof.
  rewrite elem_of_app, !list_elem_of_In, !filter_In, !negb_true_iff, mem_false,
    <- !list_elem_of_In.
  tauto.
Qed.

(** X18. [ensure_raw_table] on a table that exists only adds columns:
    when it goes through, the table has its former columns, in their
    order, followed by the columns of [union_cols] and the provenance
    columns it lacked; its rows are the former rows with NULL in the new
    columns; every column of [union_cols] and every provenance column is
    then a column of the table; no other table changes. *)
Theorem ensure_raw_table_extends db table t (union_cols : list string) db' :
  db !! table = Some t ->
  ensure_raw_table db table union_cols = Some db' ->
  exists added,
    db' = <[table := {| columns := columns t ++ added;
                        rows := (fun r => r ++ replicate (length added) None) <$> rows t |}]> db /\
    NoDup added /\
    (forall c, c ∈ added <-> (c ∈ union_cols \/ c ∈ PROVENANCE) /\ c ∉ columns t) /\
    (forall c, c ∈ union_cols \/ c ∈ PROVENANCE -> c ∈ current_columns db' table).
Proof.
  intros Ht. unfold ensure_raw_table, table_exists.
  rewrite bool_decide_eq_true_2 by (by eexists). cbn [negb].
  unfold current_columns at 1 2. rewrite Ht. unfold KEEP_PROVENANCE.
  set (added := _ ++ _). intros H.
  destruct (add_columns_inv _ _ _ _ _ Ht H) as [Hnd Hnew].
  rewrite (add_columns_some _ _ _ _ Ht Hnd Hnew) in H. injection H as <-.
  exists added. split_and!; [done|done|apply to_add_spec|].
  intros c Hc. unfold current_columns. rewrite lookup_insert_eq. cbn.
  apply elem_of_app. destruct (decide (c ∈ columns t)); [by left|].
  right. by apply to_add_spec.
Qed.

Lemma filter_none (p : string -> bool) l :
  (forall c, c ∈ l -> p c = false) -> List.filter p l = [].
Proof.
  induction l as [|c l IH]; [done|]. intros H. cbn.
  rewrite (H c) by left. apply IH. intros c' Hin. apply H. by right.
Qed.

(** On a table that has every column asked for, [ensure_raw_table]
    changes nothing. *)
Lemma ensure_raw_table_complete db table t (union_cols : list string) :
  db !! table = Some t ->
  (forall c, c ∈ union_cols \/ c ∈ PROVENANCE -> c ∈ columns t) ->
  ensure_raw_table db table union_cols = Some db.
Proof.
  intros Ht Hall. unfold ensure_raw_table, table_exists.
  rewrite bool_decide_eq_true_2 by (by eexists). cbn [negb].
  unfold current_columns. rewrite Ht. unfold KEEP_PROVENANCE.
  rewrite !filter_none; [done| |].
  - intros c Hc. apply negb_false_iff, mem_true, Hall. by right.
  - intros c Hc. apply negb_false_iff, mem_true, Hall. by left.
Qed.

(** X19. [ensure_raw_table] is idempotent: once it has gone through, a
    second call with the same columns changes neither the table nor
    anything else. *)
Theorem ensure_raw_table_idempotent db table (union_cols : list string) db' :
  ensure_raw_table db table union_cols = Some db' ->
  ensure_raw_table db' table union_cols = Some db'.
Proof.
  intros H. destruct (db !! table) as [t|] eqn:Ht.
  - revert H. unfold ensure_raw_table at 1, table_exists.
    rewrite bool_decide_eq_true_2 by (by eexists). cbn [negb].
    unfold current_columns. rewrite Ht. unfold KEEP_PROVENANCE.
    set (added := _ ++ _). intros H.
    destruct (add_columns_inv _ _ _ _ _ Ht H) as [Hnd Hnew].
    rewrite (add_columns_some _ _ _ _ Ht Hnd Hnew) in H. injection H as <-.
    eapply ensure_raw_table_complete; [apply lookup_insert_eq|].
    intros c Hc. cbn. apply elem_of_app.
    destruct (decide (c ∈ columns t)); [by left|]. right. by apply to_add_spec.
  - revert H. unfold ensure_raw_table at 1, table_exists.
    rewrite bool_decide_eq_false_2 by (rewrite Ht; by intros [? ?]). cbn [negb].
    unfold create_empty_raw, create_table. rewrite Ht. unfold KEEP_PROVENANCE.
    case_bool_decide; [|done]. intros [= <-].
    eapply ensure_raw_table_complete; [apply lookup_insert_eq|].
    intros c [Hc|Hc]; cbn [columns].
    + destruct (String.eqb_spec c "uwi_formatted") as [->|Hne]; [by left|].
      right. apply elem_of_app. left. apply list_elem_of_In, filter_In.
      split; [by apply list_elem_of_In|]. apply negb_true_iff. by apply String.eqb_neq.
    + right. apply elem_of_app. by right.
Qed.

(** X20. A column of [union_cols] that bears the name of a provenance
    column and is not yet in the table makes [ensure_raw_table] raise:
    the new table would name the column twice, and on an existing table
    the column is added twice. *)
Theorem ensure_raw_table_rejects db table (union_cols : list string) c :
  c ∈ PROVENANCE -> c ∈ union_cols -> c ∉ current_columns db table ->
  ensure_raw_table db table union_cols = None.
Proof.
  intros Hp Hu Hc.
  assert (Hne : c <> "uwi_formatted").
  { intros ->. unfold PROVENANCE in Hp.
    repeat (apply elem_of_cons in Hp as [Hp|Hp]; [done|]). by apply elem_of_nil in Hp. }
  unfold ensure_raw_table, table_exists, current_columns in *.
  destruct (db !! table) as [t|] eqn:Ht.
  - rewrite bool_decide_eq_true_2 by (by eexists). cbn [negb]. unfold KEEP_PROVENANCE.
    destruct (add_columns _ _ _) as [db'|] eqn:E; [exfalso|done].
    apply (add_columns_inv _ _ _ _ _ Ht) in E as [Hnd _].
    apply NoDup_app in Hnd as (_ & Hdis & _). apply (Hdis c).
    + apply list_elem_of_In, filter_In. split; [by apply list_elem_of_In|].
      apply negb_true_iff. by apply mem_false.
    + apply list_elem_of_In, filter_In. split; [by apply list_elem_of_In|].
      apply negb_true_iff. by apply mem_false.
  - rewrite bool_decide_eq_false_2 by (by intros [? ?]). cbn [negb].
    unfold create_empty_raw, create_table. rewrite Ht. unfold KEEP_PROVENANCE.
    case_bool_decide as Hnd; [exfalso|done].
    cbn [app] in Hnd. apply NoDup_cons in Hnd as [_ Hnd].
    apply NoDup_app in Hnd as (_ & Hdis & _). apply (Hdis c); [|done].
    apply list_elem_of_In, filter_In. split; [by apply list_elem_of_In|].
    apply negb_true_iff. by apply String.eqb_neq.
Qed.

End WarehouseMore.

Section Provenance.
Import Warehouse.
Variable snake : string -> string.
Variable read_csv_rows : string -> list string * list (list string).
Implicit Types (db : DB) (t : Table) (cols : list string) (info : FileInfo).

Lemma out_row_provenance cols info mapped r (j : nat) :
  (cols !! j = Some "source_dashboard" ->
     out_row cols info mapped r !! j = Some (dashboard info)) /\
  (cols !! j = Some "source_sheet" ->
     out_row cols info mapped r !! j = Some (sheet info)) /\
  (cols !! j = Some "source_file" ->
     out_row cols info mapped r !! j = Some (path info)).
Proof.
  unfold out_row. rewrite list_lookup_fmap.
  split_and!; intros ->; reflexivity.
Qed.

Lemma ensure_raw_table_provenance db table (union_cols : list string) db1 :
  ensure_raw_table db table union_cols = Some db1 ->
  exists t1, db1 !! table = Some t1 /\ forall c, c ∈ PROVENANCE -> c ∈ columns t1.
Proof.
  unfold ensure_raw_table, table_exists.
  destruct (db !! table) as [t|] eqn:Ht.
  - rewrite bool_decide_eq_true_2 by (by eexists). cbn [negb].
    unfold current_columns. rewrite Ht. unfold KEEP_PROVENANCE.
    intros (t1 & Ht1 & Hc)%(add_columns_spec _ _ _ _ _ Ht).
    exists t1. split; [done|]. intros c Hc'. rewrite Hc.
    apply elem_of_app. destruct (decide (c ∈ columns t)); [by left|].
    right. apply to_add_spec. split; [by right|done].
  - rewrite bool_decide_eq_false_2 by (by intros [? ?]). cbn [negb].
    unfold create_empty_raw, create_table. rewrite Ht.
    case_bool_decide as Hnd; [|done]. intros [= <-].
    eexists. split; [apply lookup_insert_eq|]. cbn [columns].
    intros c Hc. right. apply elem_of_app. by right.
Qed.

(** X27. Every row that step 2 of [build] appends to a raw table
    records where it comes from: the table has the three provenance
    columns; the rows appended are the rows of the files, file by file
    in the order of the files; and each row of a file holds, in those
    columns, the dashboard, the sheet and the path of that very file -
    not what the file may have in a column of that name. *)
Theorem raw_rows_carry_provenance db (dash sheet_ : string) (files : list FileInfo) db' :
  load_dataset snake read_csv_rows db dash sheet_ files = Some db' ->
  exists t' old,
    db' !! (dash +:+ "__" +:+ sheet_) = Some t' /\
    (forall c, c ∈ PROVENANCE -> c ∈ columns t') /\
    rows t' = old ++
      (stored <$> concat (file_rows snake read_csv_rows (columns t') <$> files)) /\
    (forall info row,
       info ∈ files -> row ∈ file_rows snake read_csv_rows (columns t') info ->
       length row = length (columns t') /\
       forall j : nat,
         (columns t' !! j = Some "source_dashboard" -> row !! j = Some (dashboard info)) /\
         (columns t' !! j = Some "source_sheet" -> row !! j = Some (sheet info)) /\
         (columns t' !! j = Some "source_file" -> row !! j = Some (path info))).
Proof.
  unfold load_dataset. cbn zeta. set (table := dash +:+ "__" +:+ sheet_).
  destruct (ensure_raw_table db table _) as [db1|] eqn:He; [|done].
  apply ensure_raw_table_provenance in He as (t1 & Ht1 & Hprov).
  unfold current_columns. rewrite Ht1. intros Hload.
  apply (load_files_rows _ _ _ _ _ _ _ _ Ht1 eq_refl) in Hload as (t' & Ht' & Hc' & Hrows).
  exists t', (rows t1). rewrite Hc'. split_and!; try done.
  intros info row Hinfo Hrow. unfold file_rows in Hrow.
  destruct (read_csv_rows (path info)) as [[|h hdr] r] eqn:Er; cbn [fst snd] in Hrow.
  { by apply elem_of_nil in Hrow. }
  apply list_elem_of_fmap in Hrow as (line & -> & Hline).
  split; [unfold out_row; by rewrite length_fmap|].
  intros j. apply out_row_provenance.
Qed.

End Provenance.



Lemma ensure_raw_table_extends_witness :
  exists added,
    Warehouse.sample_db_extended
    = <["gas__pool" :=
          {| Warehouse.columns := Warehouse.columns Warehouse.sample_table ++ added;
             Warehouse.rows :=
               (fun r => r ++ replicate (length added) None)
                 <$> Warehouse.rows Warehouse.sample_table |}]> Warehouse.sample_db /\
    NoDup added /\
    (forall c, c ∈ added <->
       (c ∈ ["uwi_formatted"; "depth"; "pool"] \/ c ∈ Warehouse.PROVENANCE) /\
       c ∉ Warehouse.columns Warehouse.sample_table) /\
    (forall c, c ∈ ["uwi_formatted"; "depth"; "pool"] \/ c ∈ Warehouse.PROVENANCE ->
       c ∈ Warehouse.current_columns Warehouse.sample_db_extended "gas__pool").
Proof.
  apply (ensure_raw_table_extends Warehouse.sample_db "gas__pool" Warehouse.sample_table);
    by vm_compute.
Defined.

Lemma ensure_raw_table_idempotent_witness :
  Warehouse.ensure_raw_table Warehouse.sample_db_extended "gas__pool"
    ["uwi_formatted"; "depth"; "pool"] = Some Warehouse.sample_db_extended.
Proof.
  apply (ensure_raw_table_idempotent Warehouse.sample_db). by vm_compute.
Defined.

Lemma ensure_raw_table_rejects_witness :
  Warehouse.ensure_raw_table ∅ "gas__pool"
    ["uwi_formatted"; "depth"; "source_file"] = None.
Proof.
  apply (ensure_raw_table_rejects ∅ _ _ "source_file").
  - unfold Warehouse.PROVENANCE. by do 2 right; left.
  - by do 2 right; left.
  - by intros ?%elem_of_nil.
Defined.

(** ** Delimiter detection on comma files *)

Section RaggedFacts.
Variable set_iter : list Z -> list Z.
Hypothesis set_iter_ok : Delim.set_order set_iter.
Implicit Types (lines : list string) (cols : list Z) (d : ascii).

Lemma sum_from (l : list Z) (a : Z) : fold_left Z.add l a = a + Py.sum l.
Proof.
  unfold Py.sum. revert a. induction l as [|x l IH]; intros a; cbn [fold_left]; [lia|].
  rewrite (IH (a + x)), (IH (0 + x)). lia.
Qed.

Lemma sum_cons x (l : list Z) : Py.sum (x :: l) = x + Py.sum l.
Proof. unfold Py.sum at 1. cbn [fold_left]. rewrite sum_from. lia. Qed.

(** The spread of the column counts around the modal count is zero
    exactly when every line has the modal count. *)
Lemma spread_spec cols (m : Z) :
  0 <= Py.sum (map (fun c => (c - m) ^ 2) cols) /\
  (Py.sum (map (fun c => (c - m) ^ 2) cols) = 0 <-> forall c, c ∈ cols -> c = m).
Proof.
  induction cols as [|c cols [IH0 IH]]; cbn [map].
  - split; [done|]. split; [by intros _ c ?%elem_of_nil|done].
  - rewrite sum_cons. assert (0 <= (c - m) ^ 2) by nia. split; [lia|]. split.
    + intros Hs c' [->|Hin]%elem_of_cons; [nia|]. apply IH; [lia|done].
    + intros Hall. rewrite (Hall c) by left.
      rewrite (proj2 IH) by (intros c' ?; apply Hall; by right). lia.
Qed.

Lemma max_key_in key (it : list Z) x : Py.max_key key it = Some x -> x ∈ it.
Proof.
  revert x. induction it as [|y it IH]; intros x; cbn [Py.max_key]; [done|].
  destruct (Py.max_key key it) as [z|].
  - destruct (key y <? key z); intros [= <-]; [right; by apply IH|by left].
  - intros [= <-]. by left.
Qed.

Lemma set_iter_in cols x : x ∈ set_iter cols -> x ∈ cols.
Proof. rewrite (set_iter_ok cols). apply elem_of_remove_dups. Qed.

(** A round for a delimiter that no line contains. *)
Lemma round_absent lines b d :
  lines <> [] -> (forall ln, ln ∈ lines -> Py.count ln d = 0) ->
  Delim.round set_iter lines (Some b) d =
  Some (if Delim.improves 0 1 b then Delim.Best d (Some 0) 1 else b).
Proof.
  intros Hne Hd.
  assert (Hcols : map (fun ln => Py.count ln d + 1) lines = replicate (length lines) 1).
  { clear Hne. induction lines as [|ln lines IH]; [done|]. cbn.
    rewrite (Hd ln) by left. f_equal. apply IH. intros ln' ?. apply Hd. by right. }
  destruct lines as [|ln lines]; [done|]. cbn [length] in Hcols.
  assert (Hvar : Py.sum (map (fun c => (c - 1) ^ 2) (replicate (S (length lines)) 1)) = 0).
  { apply spread_spec. by intros c [-> _]%elem_of_replicate. }
  eapply round_with;
    [exact Hcols|by apply set_iter_constant|reflexivity|by rewrite Hvar].
Qed.

(** The rounds of both detectors on lines without semicolon, tab or
    vertical bar. *)
Lemma rounds_commas_only lines :
  lines <> [] ->
  (forall ln, ln ∈ lines ->
     Py.count ln ";" = 0 /\ Py.count ln "009" = 0 /\ Py.count ln "|" = 0) ->
  ((forall l1 l2, l1 ∈ lines -> l2 ∈ lines -> Py.count l1 "," = Py.count l2 ",") ->
   Delim.best_delim <$>
     fold_left (Delim.round set_iter lines) Delim.CANDIDATE_DELIMS
       (Some (Delim.Best "," None 0)) = Some ","%char) /\
  (forall l1 l2, l1 ∈ lines -> l2 ∈ lines -> Py.count l1 "," <> Py.count l2 "," ->
   Delim.best_delim <$>
     fold_left (Delim.round set_iter lines) Delim.CANDIDATE_DELIMS
       (Some (Delim.Best "," None 0)) = Some ";"%char).
Proof.
  intros Hne Hno.
  unfold Delim.CANDIDATE_DELIMS. cbn [fold_left].
  set (cols := map (fun ln => Py.count ln "," + 1) lines).
  destruct (max_key_some (Py.count_of cols) (set_iter cols)) as [m Hm].
  { apply (set_iter_nonempty set_iter set_iter_ok). unfold cols. by destruct lines. }
  set (var := Py.sum (map (fun c => (c - m) ^ 2) cols)).
  assert (Hmin : exists l0, l0 ∈ lines /\ m = Py.count l0 "," + 1).
  { apply max_key_in, set_iter_in in Hm. unfold cols in Hm.
    apply list_elem_of_In, in_map_iff in Hm as (ln & <- & Hin).
    exists ln. by split; [apply list_elem_of_In|]. }
  destruct Hmin as (l0 & Hl0 & Hm0).
  assert (Hm1 : 1 <= m) by (pose proof (count_nonneg l0 ","); lia).
  destruct (spread_spec cols m) as [Hvar0 Hvar]. fold var in Hvar0, Hvar.
  assert (Hround :
    Delim.round set_iter lines (Some (Delim.Best "," None 0)) ","
    = Some (Delim.Best "," (Some var) m)).
  { by eapply round_with. }
  assert (Himp : forall d v k, 1 <= k ->
            Delim.improves 0 1 (Delim.Best d (Some v) k) = (0 <? v)).
  { intros d v k Hk. unfold Delim.improves. cbn [Delim.best_var Delim.best_modal].
    replace (k <? 1) with false by (symmetry; apply Z.ltb_ge; lia).
    by rewrite andb_false_r, orb_false_r. }
  assert (Hres :
            Delim.best_delim <$>
              fold_left (Delim.round set_iter lines) [";"; "009"; "|"]%char
                (Some (Delim.Best "," (Some var) m))
            = Some (if 0 <? var then ";"%char else ","%char)).
  { cbn [fold_left].
    rewrite round_absent, Himp by (done || intros ln Hin; by apply Hno).
    destruct (0 <? var) eqn:Ev.
    - rewrite round_absent, Himp by (done || intros ln Hin; by apply Hno).
      change (0 <? 0) with false. cbn iota.
      rewrite round_absent, Himp by (done || intros ln Hin; by apply Hno).
      done.
    - rewrite round_absent, Himp, Ev by (done || intros ln Hin; by apply Hno).
      rewrite round_absent, Himp, Ev by (done || intros ln Hin; by apply Hno).
      done. }
  cbn [fold_left] in Hres. rewrite Hround, Hres.
  split.
  - intros Heq.
    assert (Hz : var = 0).
    { apply Hvar. intros c (ln & <- & Hin)%list_elem_of_In%in_map_iff.
      rewrite Hm0, (Heq ln l0); [done|by apply list_elem_of_In|done]. }
    by rewrite Hz.
  - intros l1 l2 H1 H2 Hdiff.
    assert (Hpos : 0 < var).
    { destruct (Z.eq_dec var 0) as [Hz|]; [|lia]. exfalso. apply Hdiff.
      pose proof (proj1 Hvar Hz) as Hall.
      assert (Hc : forall ln, ln ∈ lines -> Py.count ln "," + 1 = m).
      { intros ln Hin. apply Hall, list_elem_of_In, in_map_iff. exists ln.
        by split; [|apply list_elem_of_In]. }
      pose proof (Hc l1 H1). pose proof (Hc l2 H2). lia. }
    by replace (0 <? var) with true by (symmetry; apply Z.ltb_lt; lia).
Qed.

(** X28. On a text none of whose non-blank lines contains a semicolon,
    a tab or a vertical bar, both delimiter detectors return the comma
    when the non-blank lines all have the same number of commas, and the
    semicolon as soon as two of the lines they read differ in that
    number: a comma file with a ragged line is read as a semicolon
    file. *)
Theorem ragged_commas_read_as_semicolons text :
  Delim.nonblank_lines text <> [] ->
  (forall ln, ln ∈ Delim.nonblank_lines text ->
     Py.count ln ";" = 0 /\ Py.count ln "009" = 0 /\ Py.count ln "|" = 0) ->
  ((forall l1 l2, l1 ∈ Delim.nonblank_lines text -> l2 ∈ Delim.nonblank_lines text ->
      Py.count l1 "," = Py.count l2 ",") ->
   Delim.detect_delimiter set_iter text = Some ","%char /\
   Delim._detect_delimiter set_iter text = Some ","%char) /\
  (forall l1 l2, l1 ∈ take 50 (Delim.nonblank_lines text) ->
     l2 ∈ take 50 (Delim.nonblank_lines text) ->
     Py.count l1 "," <> Py.count l2 "," ->
     Delim.detect_delimiter set_iter text = Some ";"%char /\
     Delim._detect_delimiter set_iter text = Some ";"%char).
Proof.
  intros Hne Hno.
  assert (Hsub : forall (l : list string) n ln, ln ∈ take n l -> ln ∈ l).
  { intros l n ln Hin. apply list_elem_of_In in Hin. apply list_elem_of_In.
    rewrite <- (take_drop n l). apply in_or_app. by left. }
  assert (Hin60 : forall ln, ln ∈ take 50 (Delim.nonblank_lines text) ->
                             ln ∈ take 60 (Delim.nonblank_lines text)).
  { intros ln Hin. replace 50%nat with (50 `min` 60)%nat in Hin by lia.
    rewrite <- take_take in Hin. by eapply Hsub. }
  assert (Hdet : forall n, (0 < n)%nat ->
            take n (Delim.nonblank_lines text) <> [] /\
            forall r,
              Delim.best_delim <$>
                fold_left (Delim.round set_iter (take n (Delim.nonblank_lines text)))
                  Delim.CANDIDATE_DELIMS (Some (Delim.Best "," None 0)) = r ->
              match take n (Delim.nonblank_lines text) with
              | [] => Some ","%char
              | _ => Delim.best_delim <$>
                       fold_left (Delim.round set_iter (take n (Delim.nonblank_lines text)))
                         Delim.CANDIDATE_DELIMS (Some (Delim.Best "," None 0))
              end = r).
  { intros n Hn.
    assert (Hne' : take n (Delim.nonblank_lines text) <> []).
    { destruct (Delim.nonblank_lines text); [done|]. by destruct n; [lia|]. }
    split; [done|]. intros r <-. by destruct (take n (Delim.nonblank_lines text)). }
  destruct (Hdet 60%nat ltac:(lia)) as (Hne60 & H60).
  destruct (Hdet 50%nat ltac:(lia)) as (Hne50 & H50).
  destruct (rounds_commas_only _ Hne60) as [Hu60 Hr60];
    [intros ln Hin; by eapply Hno, Hsub|].
  destruct (rounds_commas_only _ Hne50) as [Hu50 Hr50];
    [intros ln Hin; by eapply Hno, Hsub|].
  unfold Delim.detect_delimiter, Delim._detect_delimiter. split.
  - intros Heq. split; [apply H60, Hu60|apply H50, Hu50];
      intros l1 l2 H1 H2; apply Heq; by eapply Hsub.
  - intros l1 l2 H1 H2 Hdiff. split.
    + apply H60. by apply (Hr60 l1 l2); [apply Hin60|apply Hin60|].
    + apply H50. by apply (Hr50 l1 l2).
Qed.

End RaggedFacts.


(** ** Splitting the wells file *)

Section WellsFacts.
Implicit Types (s t cur text : string) (c : ascii).

(** X21. The edges of the two splitters. With a negative number of
    parts [chunks_even] returns no chunk at all, so the wells are
    dropped, and with zero parts it raises; [chunkify] takes any number
    of workers below 1 as 1 and returns the whole list as one chunk. *)
Theorem chunks_edges {A} (seq : list A) (n : Z) :
  (n < 0 -> Chunks.chunks_even seq n = Some []) /\
  Chunks.chunks_even seq 0 = None /\
  (n <= 1 -> Chunks.chunkify seq n = [seq]).
Proof.
  split_and!.
  - intros Hn. unfold Chunks.chunks_even. destruct (Z.eqb_spec n 0); [lia|].
    unfold Py.range. by rewrite Z2Nat.nonpos by lia.
  - done.
  - intros Hn. unfold Chunks.chunkify. rewrite Z.max_l by lia.
    rewrite Z.div_1_r, Z.mod_1_r. change (Py.range 1) with [0].
    cbn [fold_left Chunks.body fst snd app]. change (0 <? 0) with false.
    rewrite Z.add_0_r. f_equal.
    rewrite (slice_inside seq 0 (Py.len seq)) by (unfold Py.len; lia).
    unfold Py.len. rewrite Nat2Z.id. cbn. apply take_ge. lia.
Qed.

Lemma fold_clean (raws : list string) (out : list string) :
  fold_left
    (fun out raw =>
       let line := Py.strip raw in
       if negb (Py.truthy line) || Py.startswith line "#" then out
       else out ++ [line]) raws out
  = out ++ (Py.strip <$>
              List.filter (fun raw => Py.truthy (Py.strip raw)
                                      && negb (Py.startswith (Py.strip raw) "#")) raws).
Proof.
  revert out. induction raws as [|raw raws IH]; intros out; cbn [fold_left List.filter].
  - by rewrite app_nil_r.
  - rewrite IH. destruct (Py.truthy (Py.strip raw)); cbn [negb orb andb]; [|done].
    destruct (Py.startswith _ _); cbn [negb]; [done|].
    by rewrite <- app_assoc.
Qed.

(** X22. What [load_clean_lines] returns: every entry is a stripped
    line of the text, not empty, and does not start with [#]. *)
Theorem load_clean_lines_clean text line :
  line ∈ Wells.load_clean_lines text ->
  line <> EmptyString /\ Py.strip line = line /\ Py.startswith line "#" = false /\
  exists raw, raw ∈ Py.splitlines text /\ line = Py.strip raw.
Proof.
  unfold Wells.load_clean_lines. rewrite fold_clean. cbn [app].
  intros (raw & -> & Hin)%list_elem_of_fmap.
  apply list_elem_of_In, filter_In in Hin as [Hin Hk].
  apply andb_true_iff in Hk as [Ht Hs]. apply negb_true_iff in Hs.
  split_and!; [by destruct (Py.strip raw)|apply strip_idem|done|].
  exists raw. split; [by apply list_elem_of_In|done].
Qed.

Lemma startswith_rstrip t : Py.startswith (Py.rstrip t) "#" = Py.startswith t "#".
Proof.
  destruct t as [|c r]; [done|]. cbn [Py.rstrip].
  destruct (Py.rstrip r) eqn:E; [|by cbn].
  destruct (Py.isspace c) eqn:Hc; [|by cbn]. cbn [Py.startswith].
  destruct (Ascii.eqb_spec "#" c) as [<-|]; [|done]. by vm_compute in Hc.
Qed.

Lemma rstrip_lf t : Py.rstrip (t +:+ String "010" EmptyString) = Py.rstrip t.
Proof.
  induction t as [|c r IH]; [done|].
  rewrite append_cons. cbn [Py.rstrip]. by rewrite IH.
Qed.

Lemma lstrip_lf s :
  Py.lstrip (s +:+ String "010" EmptyString) =
  if Py.truthy (Py.lstrip s) then Py.lstrip s +:+ String "010" EmptyString
  else EmptyString.
Proof.
  induction s as [|c r IH]; [done|].
  rewrite append_cons. cbn [Py.lstrip]. by destruct (Py.isspace c).
Qed.

Lemma strip_lf s : Py.strip (s +:+ String "010" EmptyString) = Py.strip s.
Proof.
  unfold Py.strip. rewrite lstrip_lf.
  destruct (Py.lstrip s) eqn:E; [done|]. cbn [Py.truthy]. apply rstrip_lf.
Qed.

Lemma startswith_lstrip_lf s :
  Py.startswith (Py.lstrip (s +:+ String "010" EmptyString)) "#"
  = Py.startswith (Py.lstrip s) "#".
Proof. rewrite lstrip_lf. by destruct (Py.lstrip s). Qed.

Lemma splitlines_from_cr cur r :
  Py.splitlines_from cur (String "013" r) =
  cur :: Py.splitlines_from EmptyString
           (match r with String c r' => if Ascii.eqb c "010" then r' else r | _ => r end).
Proof. destruct r as [|[[] [] [] [] [] [] [] []] r']; reflexivity. Qed.

Lemma file_lines_from_cr cur r :
  Py.file_lines_from cur (String "013" r) =
  (cur +:+ String "010" EmptyString)
    :: Py.file_lines_from EmptyString
         (match r with String c r' => if Ascii.eqb c "010" then r' else r | _ => r end).
Proof. destruct r as [|[[] [] [] [] [] [] [] []] r']; reflexivity. Qed.

(** The wells the two readers take from one line. *)
Lemma clean_line_agrees ln :
  (if Py.truthy (Py.strip ln) && negb (Py.startswith (Py.lstrip ln) "#")
   then Some (Py.strip ln) else None)
  = (if Py.truthy (Py.strip ln) && negb (Py.startswith (Py.strip ln) "#")
     then Some (Py.strip ln) else None).
Proof. unfold Py.strip. by rewrite startswith_rstrip. Qed.

Lemma omap_filter {A B} (p : A -> bool) (f : A -> B) (l : list A) :
  omap (fun x => if p x then Some (f x) else None) l = f <$> List.filter p l.
Proof.
  induction l as [|x l IH]; [done|]. cbn. destruct (p x); cbn; by rewrite IH.
Qed.

Lemma lines_agree (n : nat) :
  forall text cur,
    (String.length text <= n)%nat ->
    forallb (fun c => negb (Py.islinebreak c) || Ascii.eqb c "010" || Ascii.eqb c "013")
      (list_ascii_of_string text) = true ->
    omap (fun ln => if Py.truthy (Py.strip ln) && negb (Py.startswith (Py.lstrip ln) "#")
                    then Some (Py.strip ln) else None)
      (Py.file_lines_from cur text)
    = omap (fun raw => if Py.truthy (Py.strip raw) && negb (Py.startswith (Py.strip raw) "#")
                       then Some (Py.strip raw) else None)
        (Py.splitlines_from cur text).
Proof.
  induction n as [|n IH]; intros text cur Hlen Hplain.
  - destruct text; [|cbn in Hlen; lia]. cbn.
    destruct (Py.truthy cur); [|done]. cbn [omap list_omap]. by rewrite clean_line_agrees.
  - destruct text as [|c r].
    { cbn. destruct (Py.truthy cur); [|done]. cbn [omap list_omap].
      by rewrite clean_line_agrees. }
    cbn in Hlen. cbn [list_ascii_of_string forallb] in Hplain.
    apply andb_true_iff in Hplain as [Hc Hr].
    assert (Hline : forall rest rest',
              omap (fun ln => if Py.truthy (Py.strip ln)
                                 && negb (Py.startswith (Py.lstrip ln) "#")
                              then Some (Py.strip ln) else None) rest
              = omap (fun raw => if Py.truthy (Py.strip raw)
                                    && negb (Py.startswith (Py.strip raw) "#")
                                 then Some (Py.strip raw) else None) rest' ->
              omap (fun ln => if Py.truthy (Py.strip ln)
                                 && negb (Py.startswith (Py.lstrip ln) "#")
                              then Some (Py.strip ln) else None)
                ((cur +:+ String "010" EmptyString) :: rest)
              = omap (fun raw => if Py.truthy (Py.strip raw)
                                    && negb (Py.startswith (Py.strip raw) "#")
                                 then Some (Py.strip raw) else None) (cur :: rest')).
    { intros rest rest' E. cbn [omap list_omap].
      rewrite E, strip_lf, startswith_lstrip_lf. by rewrite clean_line_agrees. }
    destruct (Ascii.eqb_spec c "013") as [->|Hcr].
    + rewrite splitlines_from_cr, file_lines_from_cr. apply Hline.
      destruct r as [|c2 r2]; [apply IH; [cbn; lia|done]|].
      pose proof Hr as Hr'. cbn [list_ascii_of_string forallb] in Hr'.
      apply andb_true_iff in Hr' as [_ Hr2]. cbn in Hlen.
      destruct (Ascii.eqb c2 "010").
      * apply IH; [lia|done].
      * apply IH; [cbn; lia|done].
    + destruct (Ascii.eqb_spec c "010") as [->|Hlf].
      * cbn [Py.file_lines_from Py.splitlines_from].
        change (Ascii.eqb "010" "013") with false. cbn iota.
        change (Ascii.eqb "010" "010") with true.
        change (Py.islinebreak "010") with true. cbn iota.
        apply Hline, IH; [lia|done].
      * cbn [Py.file_lines_from Py.splitlines_from].
        apply Ascii.eqb_neq in Hcr, Hlf. rewrite Hcr, Hlf in *.
        rewrite !orb_false_r in Hc. apply negb_true_iff in Hc. rewrite Hc.
        apply IH; [lia|done].
Qed.

(** X23. The two readers of the wells file agree on a file that is
    valid UTF-8 and whose line ends are LF, CR LF or CR - no VT, FF, FS,
    GS, RS or NEL, at which [splitlines] breaks a line and the iteration
    over a file does not: [load_wells] returns what [load_clean_lines]
    returns. On a file that is not valid UTF-8 they part: [load_wells]
    raises, [load_clean_lines] reads what [errors="ignore"] leaves. *)
Theorem load_wells_agrees (f : Wells.WellsFile) :
  (forall text, f = Wells.Utf8 text ->
     forallb (fun c => negb (Py.islinebreak c) || Ascii.eqb c "010" || Ascii.eqb c "013")
       (list_ascii_of_string text) = true ->
     Wells.load_wells f = Some (Wells.load_clean_lines (Wells.read_text_ignore f))) /\
  (forall kept, f = Wells.NotUtf8 kept ->
     Wells.load_wells f = None /\
     Wells.load_clean_lines (Wells.read_text_ignore f) = Wells.load_clean_lines kept).
Proof.
  split.
  - intros text -> Hplain. unfold Wells.load_wells, Wells.load_clean_lines.
    cbn [Wells.read_text_strict Wells.read_text_ignore mbind option_bind]. f_equal.
    rewrite fold_clean. cbn [app]. rewrite <- !omap_filter.
    by apply (lines_agree (String.length text)).
  - by intros kept ->.
Qed.

Lemma append_nil_r s : s +:+ EmptyString = s.
Proof. induction s as [|c s IH]; [done|]. by rewrite append_cons, IH. Qed.

Lemma splitlines_from_plain cur s rest :
  forallb (fun c => negb (Py.islinebreak c)) (list_ascii_of_string s) = true ->
  Py.splitlines_from cur (s +:+ rest) = Py.splitlines_from (cur +:+ s) rest.
Proof.
  revert cur. induction s as [|c s IH]; intros cur Hs.
  - by rewrite append_empty, append_nil_r.
  - cbn in Hs. apply andb_true_iff in Hs as [Hc Hs]. apply negb_true_iff in Hc.
    rewrite append_cons. cbn [Py.splitlines_from]. rewrite Hc.
    destruct (Ascii.eqb_spec c "013") as [->|_]; [by vm_compute in Hc|].
    rewrite (IH _ Hs), append_assoc. by rewrite append_cons, append_empty.
Qed.

Lemma splitlines_join (sheets : list string) :
  Forall (fun s => s <> EmptyString /\
            forallb (fun c => negb (Py.islinebreak c)) (list_ascii_of_string s) = true)
    sheets ->
  Py.splitlines (Py.join (String "010" EmptyString) sheets) = sheets.
Proof.
  unfold Py.splitlines.
  induction 1 as [|x l [Hne Hplain] Hl IH]; [done|].
  destruct l as [|y l].
  - cbn [Py.join]. rewrite <- (append_nil_r x) at 1.
    rewrite splitlines_from_plain, append_empty by done. cbn. by destruct x.
  - change (Py.join (String "010" EmptyString) (x :: y :: l))
      with (x +:+ String "010" (Py.join (String "010" EmptyString) (y :: l))).
    rewrite splitlines_from_plain, append_empty by done.
    cbn [Py.splitlines_from]. change (Ascii.eqb "010" "013") with false. cbn iota.
    change (Py.islinebreak "010") with true. cbn iota. by rewrite IH.
Qed.

Lemma manifest_lines (sheets : list string) :
  Forall (fun s => s <> EmptyString /\ Py.strip s = s /\
            forallb (fun c => negb (Py.islinebreak c)) (list_ascii_of_string s) = true)
    sheets ->
  Merge.load_manifest_from_s3 (Some (Py.join (String "010" EmptyString) sheets))
  = Some sheets.
Proof.
  intros Hs. unfold Merge.load_manifest_from_s3. cbn [fmap option_fmap option_map].
  f_equal. rewrite splitlines_join.
  2:{ eapply Forall_impl; [exact Hs|]. by intros s (? & _ & ?). }
  induction Hs as [|x l (Hne & Hstrip & _) _ IH]; [done|].
  cbn [List.filter]. rewrite Hstrip.
  destruct x; [done|]. cbn [Py.truthy fmap list_fmap]. by rewrite Hstrip, IH.
Qed.

(** X24. The sheets manifest round-trips: when the run of [rcat] does
    not fail, [save_manifest_to_s3] leaves at the manifest's key a text
    that [load_manifest_from_s3] reads back as the list of sheets saved,
    provided every name is non-empty, has no blank at either end and
    contains no line boundary. *)
Theorem manifest_roundtrip label dash (sheets : list string) (w : Rclone.World) :
  Rclone.next_exit w <> Rclone.Failed ->
  Forall (fun s => s <> EmptyString /\ Py.strip s = s /\
            forallb (fun c => negb (Py.islinebreak c)) (list_ascii_of_string s) = true)
    sheets ->
  exists text,
    Rclone.o_data <$>
      Rclone.remote (Merge.save_manifest_to_s3 label dash sheets w).2
        !! Merge.manifest_key label dash = Some text /\
    Merge.load_manifest_from_s3 (Some text) = Some sheets.
Proof.
  intros Hex Hs. exists (Py.join (String "010" EmptyString) sheets).
  split; [|by apply manifest_lines].
  unfold Merge.save_manifest_to_s3, mbind, Rclone.M_bind, mret, Rclone.M_ret.
  rewrite s3_put_text_eq.
  destruct (Rclone.next_exit w); [| |done]; cbn; by rewrite lookup_insert_eq.
Qed.

(** X25. [parse_dashboards_spec] never returns an empty list, and
    returns known dashboards only, whatever the text given: names it
    does not know are dropped, and when none is left it falls back on
    all the dashboards. *)
Theorem parse_dashboards_spec_known (spec : option string) :
  (exists d l, Wells.parse_dashboards_spec spec = d :: l) /\
  (forall d, d ∈ Wells.parse_dashboards_spec spec -> d ∈ Wells.DASHBOARDS).
Proof.
  unfold Wells.parse_dashboards_spec.
  destruct spec as [s|]; [|split; [by eexists _, _|done]].
  destruct (_ || _); [split; [by eexists _, _|done]|].
  set (wanted := Py.strip <$> _).
  destruct (List.filter _ wanted) as [|d l] eqn:E; [split; [by eexists _, _|done]|].
  split; [by eexists _, _|].
  intros d' Hin. rewrite <- E in Hin.
  apply list_elem_of_In, filter_In in Hin as [_ Hm]. by apply mem_true.
Qed.

End WellsFacts.

Lemma load_clean_lines_clean_witness :
  "01-01-099-14W4" <> EmptyString /\
  Py.strip "01-01-099-14W4" = "01-01-099-14W4" /\
  Py.startswith "01-01-099-14W4" "#" = false /\
  exists raw, raw ∈ Py.splitlines Wells.sample_text /\ "01-01-099-14W4" = Py.strip raw.
Proof.
  apply (load_clean_lines_clean Wells.sample_text "01-01-099-14W4").
  change (Wells.load_clean_lines Wells.sample_text)
    with ["01-01-099-14W4"; "02/06-12-045-08W5/0"].
  by left.
Defined.

Lemma load_wells_agrees_witness :
  Wells.load_wells (Wells.Utf8 Wells.sample_text)
  = Some (Wells.load_clean_lines Wells.sample_text) /\
  Wells.load_wells (Wells.NotUtf8 Wells.sample_text) = None.
Proof.
  split.
  - apply (proj1 (load_wells_agrees (Wells.Utf8 Wells.sample_text)) Wells.sample_text);
      reflexivity.
  - apply (proj2 (load_wells_agrees (Wells.NotUtf8 Wells.sample_text)) Wells.sample_text).
    reflexivity.
Defined.

Lemma manifest_roundtrip_witness :
  exists text,
    Rclone.o_data <$>
      Rclone.remote
        (Merge.save_manifest_to_s3 "01-01-099-14W4" "Well_Gas_Analysis"
           ["Gas_Analysis"; "Gas Summary"] Merge.world_sheet_absent).2
        !! Merge.manifest_key "01-01-099-14W4" "Well_Gas_Analysis" = Some text /\
    Merge.load_manifest_from_s3 (Some text) = Some ["Gas_Analysis"; "Gas Summary"].
Proof.
  apply (manifest_roundtrip "01-01-099-14W4" "Well_Gas_Analysis"
           ["Gas_Analysis"; "Gas Summary"] Merge.world_sheet_absent).
  - discriminate.
  - repeat constructor; discriminate.
Defined.

Lemma raw_rows_carry_provenance_witness :
  exists db',
    Warehouse.load_dataset Warehouse.sample_snake Warehouse.sample_csv ∅
      "well_gas_analysis" "gas_analysis" [Warehouse.sample_file; Warehouse.sample_file_2]
    = Some db' /\
    exists t' old,
      db' !! ("well_gas_analysis" +:+ "__" +:+ "gas_analysis") = Some t' /\
      (forall c, c ∈ Warehouse.PROVENANCE -> c ∈ Warehouse.columns t') /\
      Warehouse.rows t' = old ++
        (Warehouse.stored <$>
           concat (Warehouse.file_rows Warehouse.sample_snake Warehouse.sample_csv
                     (Warehouse.columns t')
                     <$> [Warehouse.sample_file; Warehouse.sample_file_2])) /\
      (forall info row,
         info ∈ [Warehouse.sample_file; Warehouse.sample_file_2] ->
         row ∈ Warehouse.file_rows Warehouse.sample_snake Warehouse.sample_csv
                 (Warehouse.columns t') info ->
         length row = length (Warehouse.columns t') /\
         forall j : nat,
           (Warehouse.columns t' !! j = Some "source_dashboard" ->
              row !! j = Some (Warehouse.dashboard info)) /\
           (Warehouse.columns t' !! j = Some "source_sheet" ->
              row !! j = Some (Warehouse.sheet info)) /\
           (Warehouse.columns t' !! j = Some "source_file" ->
              row !! j = Some (Warehouse.path info))).
Proof.
  eexists. split; [reflexivity|].
  apply (raw_rows_carry_provenance Warehouse.sample_snake Warehouse.sample_csv ∅
           "well_gas_analysis" "gas_analysis"
           [Warehouse.sample_file; Warehouse.sample_file_2]).
  reflexivity.
Defined.

Lemma purge_expired_locks_keeps_witness :
  Rclone.remote (Lock.NewTest.purge_expired_locks 3600 Lock.world_fresh_lock).2
    !! Lock._key "00/01-01-099-14W4/0"
  = Some {| Rclone.o_mtime := 9990; Rclone.o_iso := true; Rclone.o_data := "{}" |}.
Proof.
  apply (proj2 (proj2 (purge_expired_locks_keeps 3600 Lock.world_fresh_lock))).
  - reflexivity.
  - by vm_compute.
Defined.

Lemma can_skip_well_by_state_spec_witness :
  exists st,
    State.state_mark_dashboard_done State.sample_clock (Some State.sample_state)
      "01-01-099-14W4" "Well_Gas_Analysis" = Some st /\
    (State.can_skip_well_by_state State.sample_clock (Some st) "01-01-099-14W4"
       ["Well_Gas_Analysis"] = true <->
     map_Forall (fun _ meta => State.f_status meta = Some "complete")
       (State.files_of (default ∅ (State.dashboards st)) "Well_Gas_Analysis")).
Proof.
  eexists. split; [reflexivity|].
  apply (proj2 (can_skip_well_by_state_spec State.sample_clock State.sample_clock
                  (Some State.sample_state) "01-01-099-14W4" "Well_Gas_Analysis"
                  "" "" [])).
  right. reflexivity.
Defined.

Lemma ragged_commas_read_as_semicolons_witness :
  Delim.detect_delimiter remove_dups Delim.ragged_text = Some ";"%char /\
  Delim._detect_delimiter remove_dups Delim.ragged_text = Some ";"%char.
Proof.
  assert (Hl : Delim.nonblank_lines Delim.ragged_text = ["a,b"; "c"]) by reflexivity.
  apply (proj2 (ragged_commas_read_as_semicolons remove_dups remove_dups_set_order
                  Delim.ragged_text
                  ltac:(by rewrite Hl)
                  ltac:(rewrite Hl; intros ln [->|[->|[]%elem_of_nil]%elem_of_cons]%elem_of_cons;
                        by vm_compute))
           "a,b" "c").
  - rewrite Hl. by left.
  - rewrite Hl. by right; left.
  - by vm_compute.
Defined.
